(** * QuickCut video tools: clip creation, command building and export

    A shallow embedding of three parts of the TypeScript sources,
      - class [VideoProcessor] (the module imported as
        [./videoProcessor]): engine initialization, the command
        builder and the quality mapping,
      - class [ExportHandler]: single and batch export,
      - hook [useVideoEditor] ([hooks/useVideoEditor.ts]): the
        coordinate transformation and clip creation,
    together with the properties the design document states about them.

    Numbers.  A JavaScript [number] is modelled as an exact rational
    ([Q]): the arithmetic of the sources ([+], [-], [*], [/],
    [Math.max], [Math.min], [Math.round], comparisons) is the arithmetic
    of the rationals.  Binary64 rounding of intermediate results is not
    represented, and neither are [NaN] and the infinities.  A division
    is faithful as long as the divisor is not zero; the theorems about
    the coordinate transformation therefore assume positive
    dimensions.  Module [Extended] repeats the quality mapping and the
    coordinate transformation on numbers that may be [NaN] or
    infinite, for the inputs the rational numbers leave out. *)

From Stdlib Require Import QArith ZArith Qround Qminmax Qabs.
From Stdlib Require Import String Ascii List Bool Lia Lqa DecimalString.
From Stdlib Require Import Morphisms Setoid.
Import ListNotations.

Set Implicit Arguments.

(* ================================================================== *)
(** ** JavaScript numbers                                              *)
(* ================================================================== *)

Module Js.

Local Open Scope Q_scope.

Definition number := Q.

Definition Math_max (a b : number) : number := Qmax a b.
Definition Math_min (a b : number) : number := Qmin a b.

(** [Math.round] returns the nearest integer, a tie going up:
    [Math.round(2.5) = 3], [Math.round(-2.5) = -2]. *)
Definition Math_round (x : number) : number :=
  inject_Z (Qfloor (x + (1 # 2))).

(** [a > b] on numbers, as a boolean. *)
Definition gtb (a b : number) : bool := negb (Qle_bool a b).

(** Truthiness of a number that may be [undefined]: [undefined] and
    [0] are falsy. *)
Definition or_default (v : option number) (d : number) : number :=
  match v with
  | None => d
  | Some n => if Qeq_bool n 0 then d else n
  end.

Definition is_integer (x : number) : bool :=
  Qeq_bool x (inject_Z (Qfloor x)).

End Js.

(* ================================================================== *)
(** ** VideoProcessor: the quality mapping                             *)
(* ================================================================== *)

Module Quality.

Import Js.
Local Open Scope Q_scope.

(** [VideoProcessor.qualityToCRF] *)
Definition qualityToCRF (quality : number) : number :=
  let minCRF := 18 in
  let maxCRF := 28 in
  let crf := maxCRF - ((quality - 40) / 60) * (maxCRF - minCRF) in
  Math_round (Math_max minCRF (Math_min maxCRF crf)).

(** The mapping as the design document words it: the linear formula,
    "then round and clamp to [18,28]". *)
Definition spec_param (quality : number) : number :=
  let rounded := Math_round (28 - ((quality - 40) / 60) * (28 - 18)) in
  Qmax 18 (Qmin 28 rounded).

End Quality.

(* ================================================================== *)
(** ** types/index.ts                                                  *)
(* ================================================================== *)

Definition Bytes := list Byte.byte.
Definition File := Bytes.
(** A [Date] as milliseconds since the epoch. *)
Definition Date := Z.

Module Dimensions.
Record t := { width : Js.number; height : Js.number }.
End Dimensions.

Module CropArea.
Record t := { x : Js.number; y : Js.number;
              width : Js.number; height : Js.number }.
End CropArea.

Inductive MediaType := video | image | gif_media.

Module MediaFile.
Record t := {
  id : string;
  name : string;
  type : MediaType;
  file : File;
  url : string;
  duration : option Js.number;
  dimensions : Dimensions.t;
  size : Js.number;
  createdAt : Date
}.
End MediaFile.

Module ClipSegment.
Record t := {
  id : string;
  mediaId : string;
  startTime : Js.number;
  endTime : Js.number;
  cropArea : CropArea.t;
  thumbnail : string;
  createdAt : Date
}.
End ClipSegment.

Inductive Format := mp4 | gif.
Inductive Preset := high | medium | low.

Module ExportSettings.
Record t := {
  format : Format;
  quality : Js.number;
  fps : option Js.number;
  preset : option Preset
}.
End ExportSettings.

Definition format_name (f : Format) : string :=
  match f with mp4 => "mp4" | gif => "gif" end.

(* ================================================================== *)
(** ** VideoProcessor: the command builder                             *)
(* ================================================================== *)

Module Command.

Import Js.
Local Open Scope string_scope.

Section Builder.

(** [Number.prototype.toString] prints an integer below 10^21 in
    magnitude as its decimal digits.  The digits it prints for any
    other number (shortest round-trip decimal, exponent notation)
    are left to [formatOther]. *)
Variable formatOther : number -> string.

Definition toString (n : number) : string :=
  if (is_integer n && negb (Qle_bool (10 ^ 21) (Qabs n)))%bool
  then NilZero.string_of_int (Z.to_int (Qfloor n))
  else formatOther n.

(** [Array.prototype.push] with several arguments. *)
Definition push (command : list string) (args : list string) :=
  (command ++ args)%list.

(** The constant [cropFilter] of [buildFFmpegCommand]:
    [crop=w:h:x:y] with every component through [Math.round]. *)
Definition cropFilter (clip : ClipSegment.t) : string :=
  let a := ClipSegment.cropArea clip in
  "crop=" ++ toString (Math_round (CropArea.width a))
  ++ ":" ++ toString (Math_round (CropArea.height a))
  ++ ":" ++ toString (Math_round (CropArea.x a))
  ++ ":" ++ toString (Math_round (CropArea.y a)).

(** [VideoProcessor.buildFFmpegCommand] *)
Definition buildFFmpegCommand (inputFile outputFile : string)
    (clip : ClipSegment.t) (settings : ExportSettings.t) : list string :=
  let command := ["-i"; inputFile] in
  let command :=
    push command ["-ss"; toString (ClipSegment.startTime clip)] in
  let command :=
    push command
      ["-t"; toString (ClipSegment.endTime clip
                       - ClipSegment.startTime clip)%Q] in
  let cropFilter := cropFilter clip in
  let command :=
    match ExportSettings.format settings with
    | mp4 =>
        let command := push command ["-vf"; cropFilter] in
        let command := push command ["-c:v"; "libx264"] in
        let command := push command ["-preset"; "fast"] in
        let command :=
          push command
            ["-crf";
             toString (Quality.qualityToCRF
                         (ExportSettings.quality settings))] in
        let command := push command ["-c:a"; "aac"] in
        push command ["-b:a"; "128k"]
    | gif =>
        let fps := or_default (ExportSettings.fps settings) 15 in
        let paletteFilter :=
          cropFilter ++ ",fps=" ++ toString fps
          ++ ",scale=320:-1:flags=lanczos,palettegen" in
        let gifFilter :=
          cropFilter ++ ",fps=" ++ toString fps
          ++ ",scale=320:-1:flags=lanczos[x];[x][1:v]paletteuse" in
        let command := push command ["-vf"; paletteFilter] in
        let command := push command ["-y"; "palette.png"] in
        let command := push command ["-i"; "palette.png"] in
        let command := push command ["-filter_complex"; gifFilter] in
        push command ["-loop"; "0"]
    end in
  push command [outputFile].

(** *** The shape of a command, named for the statements below *)

(** The trim options every command starts with. *)
Definition trim_options (inputFile : string) (clip : ClipSegment.t)
  : list string :=
  ["-i"; inputFile;
   "-ss"; toString (ClipSegment.startTime clip);
   "-t"; toString (ClipSegment.endTime clip
                   - ClipSegment.startTime clip)%Q].

(** The filter chain shared by the two stages of the GIF pipeline:
    crop, frame rate, then scaling to width 320 with the height
    following the aspect ratio ([-1]) and Lanczos resampling. *)
Definition gifFilterChain (clip : ClipSegment.t) (fps : number)
  : string :=
  cropFilter clip ++ ",fps=" ++ toString fps
  ++ ",scale=320:-1:flags=lanczos".

(** Stage 1: the palette, generated from the chain into
    [palette.png]. *)
Definition paletteStage (clip : ClipSegment.t) (fps : number)
  : list string :=
  ["-vf"; gifFilterChain clip fps ++ ",palettegen";
   "-y"; "palette.png"].

(** Stage 2: the palette is the second input ([1:v]) and is used on
    the same chain; the animation loops forever ([-loop 0]). *)
Definition paletteUseStage (clip : ClipSegment.t) (fps : number)
    (outputFile : string) : list string :=
  ["-i"; "palette.png";
   "-filter_complex";
   gifFilterChain clip fps ++ "[x];[x][1:v]paletteuse";
   "-loop"; "0"; outputFile].

End Builder.

End Command.

(* ================================================================== *)
(** ** Effects: exceptions, the engine and the browser                 *)
(* ================================================================== *)

(** The asynchronous methods are sequences of awaited calls.  Each is
    modelled as a computation over a [World] that can return or throw;
    what a thrown exception leaves behind (flags set, calls made) stays
    in the world, as in JavaScript.  The engine ([FFmpeg]), the network
    and the DOM are an environment that answers each call from the
    history so far, so that nothing is assumed about their behaviour.

    Left out: the registration of listeners with [ffmpeg.on] and the
    notifications the engine sends while it runs; they feed the progress
    callbacks and do not influence control flow. *)

Module Effects.

Import Js.

(** [new Error(message)] *)
Record JsError := mkError { message : string }.

Inductive Result (A : Type) :=
| Ok (a : A)
| Throw (e : JsError).
Arguments Ok {A} a.
Arguments Throw {A} e.

Record Blob := mkBlob { blob_data : Bytes; blob_type : string }.

Module Status.
Inductive t := preparing | processing | completed | error.
End Status.

(** [interface ExportProgress] *)
Record ExportProgress := {
  clipIndex : nat;
  clipTotal : nat;
  processingProgress : number;
  status : Status.t;
  progress_message : string
}.

(** Calls that leave the program. *)
Inductive ExtCall :=
| toBlobURL (url mimeType : string)
| ffmpeg_load (coreURL wasmURL : string)
| fetchFile (f : File)
| ffmpeg_writeFile (name : string) (data : Bytes)
| ffmpeg_exec (command : list string)
| ffmpeg_readFile (name : string)
| ffmpeg_deleteFile (name : string)
| dom_download (blob : Blob) (fileName : string)
| date_toISOString.

Inductive Level := console_log | console_warn | console_error.

Inductive Event :=
| Called (c : ExtCall) (threw : option JsError)
| Console (l : Level) (text : string) (err : option JsError)
| Progress (p : ExportProgress).

(** The environment: what each call answers, given the history. *)
Record Env := {
  env_unit : list Event -> ExtCall -> Result unit;
  env_string : list Event -> ExtCall -> Result string;
  env_bytes : list Event -> ExtCall -> Result Bytes
}.

Record World := {
  isLoaded : bool;             (* VideoProcessor.isLoaded *)
  isFFmpegInitialized : bool;  (* ExportHandler.isFFmpegInitialized *)
  trace : list Event
}.

Definition M (A : Type) := World -> Result A * World.

Definition ret {A} (a : A) : M A := fun w => (Ok a, w).

Definition bind {A B} (m : M A) (k : A -> M B) : M B :=
  fun w =>
    match m w with
    | (Ok a, w') => k a w'
    | (Throw e, w') => (Throw e, w')
    end.

Definition throw {A} (e : JsError) : M A := fun w => (Throw e, w).

(** [try { body } catch (error) { handler }] *)
Definition try_catch {A} (body : M A) (handler : JsError -> M A) : M A :=
  fun w =>
    match body w with
    | (Ok a, w') => (Ok a, w')
    | (Throw e, w') => handler e w'
    end.

Definition emit (ev : Event) : M unit :=
  fun w =>
    (Ok tt, {| isLoaded := isLoaded w;
               isFFmpegInitialized := isFFmpegInitialized w;
               trace := trace w ++ [ev] |}).

Definition emit_all (evs : list Event) : M unit :=
  fun w =>
    (Ok tt, {| isLoaded := isLoaded w;
               isFFmpegInitialized := isFFmpegInitialized w;
               trace := trace w ++ evs |}).

Definition get_isLoaded : M bool := fun w => (Ok (isLoaded w), w).
Definition set_isLoaded (b : bool) : M unit :=
  fun w =>
    (Ok tt, {| isLoaded := b;
               isFFmpegInitialized := isFFmpegInitialized w;
               trace := trace w |}).
Definition get_isFFmpegInitialized : M bool :=
  fun w => (Ok (isFFmpegInitialized w), w).
Definition set_isFFmpegInitialized (b : bool) : M unit :=
  fun w =>
    (Ok tt, {| isLoaded := isLoaded w;
               isFFmpegInitialized := b;
               trace := trace w |}).

Definition threw {A} (r : Result A) : option JsError :=
  match r with Ok _ => None | Throw e => Some e end.

(** An external call: the environment answers from the history, and
    the call is recorded with its outcome. *)
Definition call {A} (answer : list Event -> ExtCall -> Result A)
    (c : ExtCall) : M A :=
  fun w =>
    let r := answer (trace w) c in
    (r, {| isLoaded := isLoaded w;
           isFFmpegInitialized := isFFmpegInitialized w;
           trace := trace w ++ [Called c (threw r)] |}).

Definition console (l : Level) (text : string) (err : option JsError)
  : M unit := emit (Console l text err).

(** [onProgress?.(p)]: the caller's callback observes the event. *)
Definition notify (onProgress : bool) (p : ExportProgress) : M unit :=
  if onProgress then emit (Progress p) else ret tt.

Declare Scope js_scope.
Delimit Scope js_scope with js.
Notation "x <- m ;; k" := (bind m (fun x => k))
  (at level 100, m at next level, right associativity) : js_scope.
Notation "m ;; k" := (bind m (fun _ => k))
  (at level 100, right associativity) : js_scope.

(** What a run did, read off the trace. *)
Definition is_exec (ev : Event) : bool :=
  match ev with Called (ffmpeg_exec _) _ => true | _ => false end.

Definition is_delivered (ev : Event) : bool :=
  match ev with Called (dom_download _ _) None => true | _ => false end.

Definition exec_calls (tr : list Event) : list Event := filter is_exec tr.
Definition delivered (tr : list Event) : list Event :=
  filter is_delivered tr.

(** How many transcodes a world has seen asked for, and how many
    files it has seen delivered. *)
Definition execs (w : World) : nat := List.length (exec_calls (trace w)).
Definition deliveries (w : World) : nat :=
  List.length (delivered (trace w)).

Definition warned (ev : Event) : list JsError :=
  match ev with
  | Console console_warn _ (Some e) => [e]
  | _ => []
  end.

(** The errors handed to [console.warn], in order. *)
Definition warnings (tr : list Event) : list JsError :=
  flat_map warned tr.

End Effects.

(* ================================================================== *)
(** ** VideoProcessor: engine lifecycle and clip processing            *)
(* ================================================================== *)

Module VideoProcessor.

Import Js Effects Command.
Local Open Scope string_scope.
Local Open Scope js_scope.

Section Processor.

Variable formatOther : number -> string.
Variable env : Env.

Definition cdnSources : list string :=
  ["https://unpkg.com/@ffmpeg/core@0.12.6/dist/esm";
   "https://cdn.jsdelivr.net/npm/@ffmpeg/core@0.12.6/dist/esm";
   "https://unpkg.com/@ffmpeg/core-mt@0.12.6/dist/esm"].

(** [if (onProgress) onProgress(ratio)]: the callback, when there
    is one, turns the ratio into the progress reports its caller
    observes. *)
Definition report (onProgress : option (number -> list ExportProgress))
    (ratio : number) : M unit :=
  match onProgress with
  | Some f => emit_all (map Progress (f ratio))
  | None => ret tt
  end.

(** The body of the inner [try] of [initialize]: one attempt to load
    the engine from [baseURL]. *)
Definition loadFrom (onProgress : option (number -> list ExportProgress))
    (baseURL : string) : M unit :=
  console console_log ("尝试从 " ++ baseURL ++ " 加载FFmpeg...") None ;;
  report onProgress (1 # 10) ;;
  coreURL <- call (env_string env)
               (toBlobURL (baseURL ++ "/ffmpeg-core.js")
                  "text/javascript") ;;
  report onProgress (3 # 10) ;;
  wasmURL <- call (env_string env)
               (toBlobURL (baseURL ++ "/ffmpeg-core.wasm")
                  "application/wasm") ;;
  report onProgress (6 # 10) ;;
  call (env_unit env) (ffmpeg_load coreURL wasmURL) ;;
  report onProgress 1.

(** The [catch] of one attempt. *)
Definition warnLoadFailure (baseURL : string) (error : JsError)
  : M unit :=
  console console_warn ("从 " ++ baseURL ++ " 加载失败:") (Some error).

(** The loop [for (const baseURL of cdnSources)]; the result is the
    final value of [loadSuccess].  A failed attempt is caught, logged
    with [console.warn] and the loop continues; a successful one
    breaks out. *)
Fixpoint tryCdnSources (onProgress : option (number -> list ExportProgress))
    (sources : list string) : M bool :=
  match sources with
  | [] => ret false
  | baseURL :: rest =>
      loadSuccess <-
        try_catch
          (loadFrom onProgress baseURL ;; ret true)
          (fun error => warnLoadFailure baseURL error ;; ret false) ;;
      if (loadSuccess : bool) then ret true
      else tryCdnSources onProgress rest
  end.

(** [VideoProcessor.initialize] *)
Definition initialize (onProgress : option (number -> list ExportProgress))
  : M unit :=
  loaded <- get_isLoaded ;;
  if (loaded : bool) then ret tt
  else
    try_catch
      (console console_log "开始初始化FFmpeg..." None ;;
       loadSuccess <- tryCdnSources onProgress cdnSources ;;
       (if negb loadSuccess
        then throw (mkError "所有CDN源都加载失败")
        else ret tt) ;;
       set_isLoaded true ;;
       console console_log "FFmpeg加载成功！" None)
      (fun error =>
         console console_error "FFmpeg初始化失败:" (Some error) ;;
         throw (mkError ("FFmpeg初始化失败: " ++ message error
                         ++ "，请检查网络连接或尝试刷新页面"))).

(** The error of each attempt of the loop started in world [w], in
    the order of the sources, when every attempt fails; [None] when
    some attempt succeeds. *)
Fixpoint sourceErrors (onProgress : option (number -> list ExportProgress))
    (sources : list string) (w : World) : option (list JsError) :=
  match sources with
  | [] => Some []
  | baseURL :: rest =>
      match loadFrom onProgress baseURL w with
      | (Ok _, _) => None
      | (Throw e, w1) =>
          match sourceErrors onProgress rest
                  (snd (warnLoadFailure baseURL e w1)) with
          | Some errs => Some (e :: errs)
          | None => None
          end
      end
  end.

(** The per-source errors of a call of [initialize] in world [w]. *)
Definition perSourceErrors
    (onProgress : option (number -> list ExportProgress)) (w : World)
  : option (list JsError) :=
  sourceErrors onProgress cdnSources
    (snd (console console_log "开始初始化FFmpeg..." None w)).

(** [VideoProcessor.processVideoClip] *)
Definition processVideoClip (videoFile : File) (clip : ClipSegment.t)
    (settings : ExportSettings.t) : M Blob :=
  loaded <- get_isLoaded ;;
  if negb loaded
  then throw (mkError "FFmpeg未初始化，请先调用initialize()")
  else
    try_catch
      (let inputFileName := "input.mp4" in
       let outputFileName :=
         "output." ++ format_name (ExportSettings.format settings) in
       data <- call (env_bytes env) (fetchFile videoFile) ;;
       call (env_unit env) (ffmpeg_writeFile inputFileName data) ;;
       let command :=
         buildFFmpegCommand formatOther inputFileName outputFileName
           clip settings in
       console console_log
         ("FFmpeg command: " ++ String.concat " " command) None ;;
       call (env_unit env) (ffmpeg_exec command) ;;
       outputData <- call (env_bytes env)
                       (ffmpeg_readFile outputFileName) ;;
       call (env_unit env) (ffmpeg_deleteFile inputFileName) ;;
       call (env_unit env) (ffmpeg_deleteFile outputFileName) ;;
       let mimeType :=
         match ExportSettings.format settings with
         | mp4 => "video/mp4"
         | gif => "image/gif"
         end in
       ret (mkBlob outputData mimeType))
      (fun error =>
         console console_error "视频处理失败:" (Some error) ;;
         throw (mkError ("视频处理失败: " ++ message error))).

End Processor.

(** The reading of "the raised error carries the list of per-source
    errors": the list can be read back from the error that
    [initialize] throws. *)
Definition error_carries_source_errors : Prop :=
  exists decode : JsError -> list JsError,
    forall (env : Env)
           (onProgress : option (number -> list ExportProgress))
           (w w' : World) (errs : list JsError) (e : JsError),
      isLoaded w = false ->
      perSourceErrors env onProgress w = Some errs ->
      initialize env onProgress w = (Throw e, w') ->
      decode e = errs.

End VideoProcessor.

(* ================================================================== *)
(** ** ExportHandler                                                   *)
(* ================================================================== *)

Module ExportHandler.

Import Js Effects Command VideoProcessor.
Local Open Scope string_scope.
Local Open Scope js_scope.

Definition of_nat (n : nat) : number := inject_Z (Z.of_nat n).

(** [s.replace(/[:\-]/g, '')] *)
Fixpoint strip_colon_dash (s : string) : string :=
  match s with
  | EmptyString => EmptyString
  | String c rest =>
      if (Ascii.eqb c ":" || Ascii.eqb c "-")%bool
      then strip_colon_dash rest
      else String c (strip_colon_dash rest)
  end.

Section Handler.

Variable formatOther : number -> string.
Variable env : Env.

Let toString := toString formatOther.

(** [ExportHandler.initializeFFmpeg] *)
Definition initializeFFmpeg
    (onProgress : option (number -> list ExportProgress)) : M unit :=
  initialized <- get_isFFmpegInitialized ;;
  if (initialized : bool) then ret tt
  else
    try_catch
      (initialize env onProgress ;;
       set_isFFmpegInitialized true)
      (fun error =>
         throw (mkError ("FFmpeg初始化失败: " ++ message error))).

(** [ExportHandler.downloadFile]: the object URL, the link and the
    click are one call to the browser. *)
Definition downloadFile (blob : Blob) (fileName : string) : M unit :=
  try_catch
    (call (env_unit env) (dom_download blob fileName))
    (fun error =>
       console console_error "文件下载失败:" (Some error) ;;
       throw (mkError "文件下载失败")).

(** [ExportHandler.generateFileName] *)
Definition generateFileName (clip : ClipSegment.t)
    (settings : ExportSettings.t) (index : option nat) : M string :=
  iso <- call (env_string env) date_toISOString ;;
  let timestamp := strip_colon_dash (String.substring 0 19 iso) in
  let duration :=
    (Math_round ((ClipSegment.endTime clip
                  - ClipSegment.startTime clip) * 100) / 100)%Q in
  let quality := ExportSettings.quality settings in
  let baseName :=
    "clip_" ++ timestamp ++ "_" ++ toString duration ++ "s_"
    ++ toString quality ++ "q" in
  let baseName :=
    match index with
    | Some index =>
        "clip" ++ toString (of_nat index) ++ "_" ++ timestamp ++ "_"
        ++ toString duration ++ "s_" ++ toString quality ++ "q"
    | None => baseName
    end in
  let extension := format_name (ExportSettings.format settings) in
  ret (baseName ++ "." ++ extension).

(** The first block of [exportMultipleClips]: make sure the engine
    is initialized. *)
Definition ensureInitialized (total : nat) (onProgress : bool)
  : M unit :=
  initialized <- get_isFFmpegInitialized ;;
  if negb initialized then
    notify onProgress
      {| clipIndex := 0; clipTotal := total;
         processingProgress := 0; status := Status.preparing;
         progress_message := "正在初始化视频处理器..." |} ;;
    initializeFFmpeg
      (Some (fun ratio =>
         if onProgress then
           [{| clipIndex := 0; clipTotal := total;
               processingProgress := (ratio * 100)%Q;
               status := Status.preparing;
               progress_message :=
                 "正在加载视频处理器... "
                 ++ toString (Math_round (ratio * 100)%Q) ++ "%" |}]
         else []))
  else ret tt.

(** The body of the [for] loop of [exportMultipleClips], for the
    clip at index [i] out of [total]. *)
Definition exportClipAt (mediaFile : MediaFile.t)
    (settings : ExportSettings.t) (onProgress : bool)
    (total i : nat) (clip : ClipSegment.t) : M unit :=
  notify onProgress
    {| clipIndex := (i + 1)%nat; clipTotal := total;
       processingProgress := 0; status := Status.processing;
       progress_message :=
         "正在处理片段 " ++ toString (of_nat (i + 1)%nat) ++ "/"
         ++ toString (of_nat total) ++ "..." |} ;;
  outputBlob <- processVideoClip formatOther env
                  (MediaFile.file mediaFile) clip settings ;;
  fileName <- generateFileName clip settings (Some (i + 1)%nat) ;;
  downloadFile outputBlob fileName.

(** [for (let i = 0; i < clips.length; i++)], from index [i] on the
    clips that remain. *)
Fixpoint exportLoop (mediaFile : MediaFile.t)
    (settings : ExportSettings.t) (onProgress : bool)
    (total i : nat) (remaining : list ClipSegment.t) : M unit :=
  match remaining with
  | [] => ret tt
  | clip :: rest =>
      exportClipAt mediaFile settings onProgress total i clip ;;
      exportLoop mediaFile settings onProgress total (S i) rest
  end.

(** [ExportHandler.exportMultipleClips] *)
Definition exportMultipleClips (clips : list ClipSegment.t)
    (mediaFile : MediaFile.t) (settings : ExportSettings.t)
    (onProgress : bool) : M unit :=
  let total := List.length clips in
  try_catch
    (ensureInitialized total onProgress ;;
     exportLoop mediaFile settings onProgress total 0 clips ;;
     notify onProgress
       {| clipIndex := total; clipTotal := total;
          processingProgress := 100; status := Status.completed;
          progress_message :=
            "批量导出完成！共处理 " ++ toString (of_nat total)
            ++ " 个片段" |})
    (fun error =>
       console console_error "批量导出失败:" (Some error) ;;
       notify onProgress
         {| clipIndex := 0; clipTotal := total;
            processingProgress := 0; status := Status.error;
            progress_message := "批量导出失败: " ++ message error |} ;;
       throw error).

End Handler.

End ExportHandler.

(* ================================================================== *)
(** ** hooks/useVideoEditor.ts                                         *)
(* ================================================================== *)

Module VideoEditor.

Import Js Effects.
Local Open Scope Q_scope.

Record TimeRange := { start : number; end_ : number }.

(** The part of a [DOMRect] the hook reads. *)
Record DOMRect := {
  left : number; top : number;
  rect_width : number; rect_height : number
}.

(** [interface EditorState], without the two fields that only drive
    the display. *)
Record EditorState := {
  selectedTimeRange : option TimeRange;
  selectedCropArea : option CropArea.t
}.

(** Errors of the awaited calls of the hook: a rejected promise is a
    [Throw]. *)
Definition rbind {A B} (r : Result A) (k : A -> Result B) : Result B :=
  match r with Ok a => k a | Throw e => Throw e end.

Definition rcatch {A} (r : Result A) (handler : JsError -> Result A)
  : Result A :=
  match r with Ok a => Ok a | Throw e => handler e end.

(** [const timeRange = editorState.selectedTimeRange
                       || { start: 0, end: videoDuration }] *)
Definition timeRange (editorState : EditorState)
    (videoDuration : number) : TimeRange :=
  match selectedTimeRange editorState with
  | Some r => r
  | None => {| start := 0; end_ := videoDuration |}
  end.

Definition getSelectedDuration (timeRange : TimeRange) : number :=
  end_ timeRange - start timeRange.

Definition canAddToClips (timeRange : TimeRange) : bool :=
  gtb (getSelectedDuration timeRange) (1 # 10).

(** The block of [createClipSegment] that places the video in the
    container as [object-contain] does:
    [(displayWidth, displayHeight, offsetX, offsetY)]. *)
Definition placement (dimensions : Dimensions.t)
    (containerRect : DOMRect) : number * number * number * number :=
  let containerAspect := rect_width containerRect
                         / rect_height containerRect in
  let videoAspect := Dimensions.width dimensions
                     / Dimensions.height dimensions in
  if gtb videoAspect containerAspect then
    let displayWidth := rect_width containerRect in
    let displayHeight := rect_width containerRect / videoAspect in
    let offsetX := 0 in
    let offsetY := (rect_height containerRect - displayHeight) / 2 in
    (displayWidth, displayHeight, offsetX, offsetY)
  else
    let displayWidth := rect_height containerRect * videoAspect in
    let displayHeight := rect_height containerRect in
    let offsetX := (rect_width containerRect - displayWidth) / 2 in
    let offsetY := 0 in
    (displayWidth, displayHeight, offsetX, offsetY).

(** The variable [finalCropArea] of [createClipSegment] when the
    thumbnail is requested: the full frame, or the selection taken
    from container coordinates to video coordinates. *)
Definition finalCropArea (dimensions : Dimensions.t)
    (cropArea : option CropArea.t) (containerRect : option DOMRect)
  : CropArea.t :=
  let finalCropArea :=
    {| CropArea.x := 0; CropArea.y := 0;
       CropArea.width := Dimensions.width dimensions;
       CropArea.height := Dimensions.height dimensions |} in
  match cropArea, containerRect with
  | Some cropArea, Some containerRect =>
      let '(displayWidth, displayHeight, offsetX, offsetY) :=
        placement dimensions containerRect in
      let scaleX := Dimensions.width dimensions / displayWidth in
      let scaleY := Dimensions.height dimensions / displayHeight in
      let finalCropArea :=
        {| CropArea.x :=
             Math_max 0 ((CropArea.x cropArea - offsetX) * scaleX);
           CropArea.y :=
             Math_max 0 ((CropArea.y cropArea - offsetY) * scaleY);
           CropArea.width :=
             Math_min (CropArea.width cropArea * scaleX)
               (Dimensions.width dimensions);
           CropArea.height :=
             Math_min (CropArea.height cropArea * scaleY)
               (Dimensions.height dimensions) |} in
      let finalCropArea :=
        if gtb (CropArea.x finalCropArea + CropArea.width finalCropArea)
               (Dimensions.width dimensions)
        then {| CropArea.x := CropArea.x finalCropArea;
                CropArea.y := CropArea.y finalCropArea;
                CropArea.width :=
                  Dimensions.width dimensions - CropArea.x finalCropArea;
                CropArea.height := CropArea.height finalCropArea |}
        else finalCropArea in
      let finalCropArea :=
        if gtb (CropArea.y finalCropArea + CropArea.height finalCropArea)
               (Dimensions.height dimensions)
        then {| CropArea.x := CropArea.x finalCropArea;
                CropArea.y := CropArea.y finalCropArea;
                CropArea.width := CropArea.width finalCropArea;
                CropArea.height :=
                  Dimensions.height dimensions
                  - CropArea.y finalCropArea |}
        else finalCropArea in
      finalCropArea
  | _, _ => finalCropArea
  end.

(** *** Notions used to state the properties of the transformation *)

(** Dimensions no division of the transformation can fail on. *)
Definition positive_sizes (dimensions : Dimensions.t)
    (containerRect : DOMRect) : Prop :=
  0 < Dimensions.width dimensions /\ 0 < Dimensions.height dimensions
  /\ 0 < rect_width containerRect /\ 0 < rect_height containerRect.

(** A selection of positive size drawn inside the container. *)
Definition inside_container (selection : CropArea.t)
    (containerRect : DOMRect) : Prop :=
  0 <= CropArea.x selection /\ 0 <= CropArea.y selection
  /\ 0 < CropArea.width selection /\ 0 < CropArea.height selection
  /\ CropArea.x selection + CropArea.width selection
     <= rect_width containerRect
  /\ CropArea.y selection + CropArea.height selection
     <= rect_height containerRect.

(** The selection does not overlap the displayed video: it lies in
    the letterbox or pillarbox gap. *)
Definition within_gap (dimensions : Dimensions.t)
    (containerRect : DOMRect) (selection : CropArea.t) : Prop :=
  let '(displayWidth, displayHeight, offsetX, offsetY) :=
    placement dimensions containerRect in
  CropArea.x selection + CropArea.width selection <= offsetX
  \/ offsetX + displayWidth <= CropArea.x selection
  \/ CropArea.y selection + CropArea.height selection <= offsetY
  \/ offsetY + displayHeight <= CropArea.y selection.

Definition area (r : CropArea.t) : number :=
  CropArea.width r * CropArea.height r.

Section Hook.

(** [utils/video.ts]: the two thumbnail generators draw a frame of a
    media element on a canvas; their promise resolves to a data URL
    or rejects. *)
Variable generateCroppedThumbnail :
  string -> number -> CropArea.t -> number -> number -> Result string.
Variable generateVideoThumbnail :
  string -> number -> number -> number -> Result string.

(** The hook's state and the value of [useVideoEditor]'s argument. *)
Variable editorState : EditorState.
Variable videoDuration : number.

(** The body of the [try] of [createClipSegment]: the thumbnail at
    the middle of the range for a video or GIF, the media URL kept
    for an image. *)
Definition requestThumbnail (timeRange : TimeRange)
    (cropArea : option CropArea.t) (finalCropArea : CropArea.t)
    (media : MediaFile.t) : Result string :=
  match MediaFile.type media with
  | video | gif_media =>
      let thumbnailTime :=
        start timeRange + (end_ timeRange - start timeRange) / 2 in
      match cropArea with
      | Some _ =>
          generateCroppedThumbnail (MediaFile.url media)
            thumbnailTime finalCropArea 320 180
      | None =>
          generateVideoThumbnail (MediaFile.url media)
            thumbnailTime 320 180
      end
  | image => Ok (MediaFile.url media)
  end.

(** [createClipSegment]; [freshId] stands for
    [Date.now().toString(36) + Math.random().toString(36).substr(2)]
    and [now] for [new Date()].  [None] is the [null] result.  The
    [catch] only writes a warning to the console and keeps the
    default thumbnail. *)
Definition createClipSegment (freshId : string) (now : Date)
    (media : MediaFile.t) (containerRect : option DOMRect)
  : Result (option ClipSegment.t) :=
  let timeRange := timeRange editorState videoDuration in
  let cropArea := selectedCropArea editorState in
  if negb (canAddToClips timeRange) then Ok None
  else
    let finalCropArea :=
      finalCropArea (MediaFile.dimensions media) cropArea
        containerRect in
    let thumbnail := MediaFile.url media in
    rbind
      (rcatch
         (requestThumbnail timeRange cropArea finalCropArea media)
         (fun error => Ok thumbnail))
      (fun thumbnail =>
         Ok (Some {| ClipSegment.id := freshId;
                     ClipSegment.mediaId := MediaFile.id media;
                     ClipSegment.startTime := start timeRange;
                     ClipSegment.endTime := end_ timeRange;
                     ClipSegment.cropArea := finalCropArea;
                     ClipSegment.thumbnail := thumbnail;
                     ClipSegment.createdAt := now |})).

End Hook.

End VideoEditor.

(* ================================================================== *)
(** ** Numbers with [NaN] and the infinities                           *)
(* ================================================================== *)

(** The rational model above has no value for what a division by zero
    or an absent input gives.  This module repeats the two computations
    whose claims quantify over every input on numbers that may be
    [NaN], [Infinity] or [-Infinity], with the arithmetic and the
    comparisons JavaScript gives them.  Finite values are still exact
    rationals; a zero is taken as [+0]. *)
Module Extended.

Local Open Scope Q_scope.

Inductive number := NaN | NegInfinity | Finite (q : Q) | Infinity.

(** [Infinity] or [-Infinity]. *)
Definition signed (positive : bool) : number :=
  if positive then Infinity else NegInfinity.

(** The sign of a finite number, [None] for zero. *)
Definition sign (q : Q) : option bool :=
  if Qeq_bool q 0 then None else Some (Js.gtb q 0).

(** [a + b] *)
Definition add (a b : number) : number :=
  match a, b with
  | NaN, _ | _, NaN => NaN
  | Infinity, NegInfinity | NegInfinity, Infinity => NaN
  | Infinity, _ | _, Infinity => Infinity
  | NegInfinity, _ | _, NegInfinity => NegInfinity
  | Finite x, Finite y => Finite (x + y)
  end.

(** [a - b] *)
Definition sub (a b : number) : number :=
  match a, b with
  | NaN, _ | _, NaN => NaN
  | Infinity, Infinity | NegInfinity, NegInfinity => NaN
  | Infinity, _ | _, NegInfinity => Infinity
  | NegInfinity, _ | _, Infinity => NegInfinity
  | Finite x, Finite y => Finite (x - y)
  end.

(** [a * b]: zero times an infinity is [NaN]. *)
Definition mul (a b : number) : number :=
  match a, b with
  | NaN, _ | _, NaN => NaN
  | Finite x, Finite y => Finite (x * y)
  | Finite x, Infinity | Infinity, Finite x =>
      match sign x with None => NaN | Some s => signed s end
  | Finite x, NegInfinity | NegInfinity, Finite x =>
      match sign x with None => NaN | Some s => signed (negb s) end
  | Infinity, Infinity | NegInfinity, NegInfinity => Infinity
  | Infinity, NegInfinity | NegInfinity, Infinity => NegInfinity
  end.

(** [a / b]: a non-zero number over zero is an infinity, zero over
    zero and an infinity over an infinity are [NaN]. *)
Definition div (a b : number) : number :=
  match a, b with
  | NaN, _ | _, NaN => NaN
  | Finite x, Finite y =>
      if Qeq_bool y 0 then
        match sign x with None => NaN | Some s => signed s end
      else Finite (x / y)
  | Finite _, Infinity | Finite _, NegInfinity => Finite 0
  | Infinity, Finite y => signed (negb (Js.gtb 0 y))
  | NegInfinity, Finite y => signed (Js.gtb 0 y)
  | Infinity, _ | NegInfinity, _ => NaN
  end.

(** [a > b]: false when either is [NaN]. *)
Definition gtb (a b : number) : bool :=
  match a, b with
  | NaN, _ | _, NaN => false
  | Finite x, Finite y => Js.gtb x y
  | Infinity, Infinity => false
  | Infinity, _ => true
  | NegInfinity, _ => false
  | Finite _, NegInfinity => true
  | Finite _, Infinity => false
  end.

(** [a <= b]: false when either is [NaN]. *)
Definition leb (a b : number) : bool :=
  match a, b with
  | NaN, _ | _, NaN => false
  | Finite x, Finite y => Qle_bool x y
  | NegInfinity, _ => true
  | _, Infinity => true
  | Infinity, _ => false
  | Finite _, NegInfinity => false
  end.

(** [Math.max(a, b)]: [NaN] when either is. *)
Definition Math_max (a b : number) : number :=
  match a, b with
  | NaN, _ | _, NaN => NaN
  | Infinity, _ | _, Infinity => Infinity
  | NegInfinity, c | c, NegInfinity => c
  | Finite x, Finite y => Finite (Js.Math_max x y)
  end.

(** [Math.min(a, b)]: [NaN] when either is. *)
Definition Math_min (a b : number) : number :=
  match a, b with
  | NaN, _ | _, NaN => NaN
  | NegInfinity, _ | _, NegInfinity => NegInfinity
  | Infinity, c | c, Infinity => c
  | Finite x, Finite y => Finite (Js.Math_min x y)
  end.

(** [Math.round(a)]: [NaN] and the infinities are returned as they
    are. *)
Definition Math_round (a : number) : number :=
  match a with
  | Finite x => Finite (Js.Math_round x)
  | _ => a
  end.

(** [VideoProcessor.qualityToCRF] *)
Definition qualityToCRF (quality : number) : number :=
  let minCRF := Finite 18 in
  let maxCRF := Finite 28 in
  let crf :=
    sub maxCRF
      (mul (div (sub quality (Finite 40)) (Finite 60))
         (sub maxCRF minCRF)) in
  Math_round (Math_max minCRF (Math_min maxCRF crf)).

Module Dimensions.
Record t := { width : number; height : number }.
End Dimensions.

Module CropArea.
Record t := { x : number; y : number;
              width : number; height : number }.
End CropArea.

(** The part of a [DOMRect] the transformation reads. *)
Record DOMRect := { rect_width : number; rect_height : number }.

(** The placement block of [createClipSegment]. *)
Definition placement (dimensions : Dimensions.t)
    (containerRect : DOMRect) : number * number * number * number :=
  let containerAspect :=
    div (rect_width containerRect) (rect_height containerRect) in
  let videoAspect :=
    div (Dimensions.width dimensions) (Dimensions.height dimensions) in
  if gtb videoAspect containerAspect then
    let displayWidth := rect_width containerRect in
    let displayHeight := div (rect_width containerRect) videoAspect in
    let offsetX := Finite 0 in
    let offsetY :=
      div (sub (rect_height containerRect) displayHeight) (Finite 2) in
    (displayWidth, displayHeight, offsetX, offsetY)
  else
    let displayWidth := mul (rect_height containerRect) videoAspect in
    let displayHeight := rect_height containerRect in
    let offsetX :=
      div (sub (rect_width containerRect) displayWidth) (Finite 2) in
    let offsetY := Finite 0 in
    (displayWidth, displayHeight, offsetX, offsetY).

(** The variable [finalCropArea] of [createClipSegment]. *)
Definition finalCropArea (dimensions : Dimensions.t)
    (cropArea : option CropArea.t) (containerRect : option DOMRect)
  : CropArea.t :=
  let finalCropArea :=
    {| CropArea.x := Finite 0; CropArea.y := Finite 0;
       CropArea.width := Dimensions.width dimensions;
       CropArea.height := Dimensions.height dimensions |} in
  match cropArea, containerRect with
  | Some cropArea, Some containerRect =>
      let '(displayWidth, displayHeight, offsetX, offsetY) :=
        placement dimensions containerRect in
      let scaleX := div (Dimensions.width dimensions) displayWidth in
      let scaleY := div (Dimensions.height dimensions) displayHeight in
      let finalCropArea :=
        {| CropArea.x :=
             Math_max (Finite 0)
               (mul (sub (CropArea.x cropArea) offsetX) scaleX);
           CropArea.y :=
             Math_max (Finite 0)
               (mul (sub (CropArea.y cropArea) offsetY) scaleY);
           CropArea.width :=
             Math_min (mul (CropArea.width cropArea) scaleX)
               (Dimensions.width dimensions);
           CropArea.height :=
             Math_min (mul (CropArea.height cropArea) scaleY)
               (Dimensions.height dimensions) |} in
      let finalCropArea :=
        if gtb (add (CropArea.x finalCropArea)
                  (CropArea.width finalCropArea))
               (Dimensions.width dimensions)
        then {| CropArea.x := CropArea.x finalCropArea;
                CropArea.y := CropArea.y finalCropArea;
                CropArea.width :=
                  sub (Dimensions.width dimensions)
                    (CropArea.x finalCropArea);
                CropArea.height := CropArea.height finalCropArea |}
        else finalCropArea in
      let finalCropArea :=
        if gtb (add (CropArea.y finalCropArea)
                  (CropArea.height finalCropArea))
               (Dimensions.height dimensions)
        then {| CropArea.x := CropArea.x finalCropArea;
                CropArea.y := CropArea.y finalCropArea;
                CropArea.width := CropArea.width finalCropArea;
                CropArea.height :=
                  sub (Dimensions.height dimensions)
                    (CropArea.y finalCropArea) |}
        else finalCropArea in
      finalCropArea
  | _, _ => finalCropArea
  end.

(** The four comparisons of the containment property, as JavaScript
    decides them. *)
Definition contained (r : CropArea.t) (dimensions : Dimensions.t)
  : bool :=
  leb (Finite 0) (CropArea.x r)
  && leb (Finite 0) (CropArea.y r)
  && leb (add (CropArea.x r) (CropArea.width r))
       (Dimensions.width dimensions)
  && leb (add (CropArea.y r) (CropArea.height r))
       (Dimensions.height dimensions).

End Extended.

(** Rational values seen as numbers of the larger model. *)
Module Embed.

Definition dimensions (d : Dimensions.t) : Extended.Dimensions.t :=
  {| Extended.Dimensions.width := Extended.Finite (Dimensions.width d);
     Extended.Dimensions.height :=
       Extended.Finite (Dimensions.height d) |}.

Definition cropArea (c : CropArea.t) : Extended.CropArea.t :=
  {| Extended.CropArea.x := Extended.Finite (CropArea.x c);
     Extended.CropArea.y := Extended.Finite (CropArea.y c);
     Extended.CropArea.width := Extended.Finite (CropArea.width c);
     Extended.CropArea.height := Extended.Finite (CropArea.height c) |}.

Definition rect (r : VideoEditor.DOMRect) : Extended.DOMRect :=
  {| Extended.rect_width := Extended.Finite (VideoEditor.rect_width r);
     Extended.rect_height :=
       Extended.Finite (VideoEditor.rect_height r) |}.

End Embed.

(* ================================================================== *)
(** ** More of JavaScript's numbers and strings                        *)
(* ================================================================== *)

Module JsMore.

Import Js.
Local Open Scope Q_scope.

Definition Math_floor (x : number) : number := inject_Z (Qfloor x).
Definition Math_abs (x : number) : number := Qabs x.

(** The integer part, towards zero. *)
Definition trunc (x : number) : Z :=
  if Qlt_le_dec x 0 then Qceiling x else Qfloor x.

(** The remainder operator [x % y]: the result has the sign of [x]. *)
Definition rem (x y : number) : number :=
  x - y * inject_Z (trunc (x / y)).

(** [s.padStart(2, '0')] *)
Definition padStart2 (s : string) : string :=
  match String.length s with
  | O => "00"
  | S O => String "0" s
  | _ => s
  end.

End JsMore.

(* ================================================================== *)
(** ** constants/index.ts                                              *)
(* ================================================================== *)

Module Constants.

Import Js.
Local Open Scope Q_scope.

(** [interface CropPreset] *)
Record CropPreset := { name : string; ratio : number; label : string }.

Definition CROP_PRESETS : list CropPreset :=
  [ {| name := "free"; ratio := 0; label := "自由选择" |};
    {| name := "square"; ratio := 1; label := "1:1 正方形" |};
    {| name := "landscape"; ratio := 16 / 9; label := "16:9 横屏" |};
    {| name := "portrait"; ratio := 9 / 16; label := "9:16 竖屏" |};
    {| name := "classic"; ratio := 4 / 3; label := "4:3 经典" |};
    {| name := "wide"; ratio := 21 / 9; label := "21:9 超宽" |} ].

(** [CROP_PRESETS[0]] *)
Definition free_preset : CropPreset :=
  {| name := "free"; ratio := 0; label := "自由选择" |}.

(** [EXPORT_SETTINGS.QUALITY_PRESETS] *)
Definition QUALITY_PRESETS (p : Preset) : number :=
  match p with high => 100 | medium => 70 | low => 40 end.

(** [EXPORT_SETTINGS.DEFAULT_FPS] *)
Definition DEFAULT_FPS (f : Format) : number :=
  match f with mp4 => 30 | gif => 15 end.

End Constants.

(* ================================================================== *)
(** ** hooks/useVideoEditor.ts: selecting the range and the region     *)
(* ================================================================== *)

Module EditorControls.

Import Js JsMore Constants VideoEditor.
Local Open Scope Q_scope.

(** The position of the pointer carried by a mouse event. *)
Record MouseEvent := { clientX : number; clientY : number }.

Record Point := { px : number; py : number }.

(** The state the hook keeps with [useState]. *)
Record HookState := {
  editorState : EditorState;
  isSelecting : bool;
  selectedPreset : option CropPreset;
  isDragging : bool;
  dragStart : option Point
}.

Section Hook.

(** The argument of [useVideoEditor]. *)
Variable videoDuration : number.

(** The initial values given to [useState]. *)
Definition initialState : HookState :=
  {| editorState :=
       {| selectedTimeRange :=
            if gtb videoDuration 0
            then Some {| start := 0;
                         end_ := Math_min videoDuration 10 |}
            else None;
          selectedCropArea := None |};
     isSelecting := false;
     selectedPreset := Some free_preset;
     isDragging := false;
     dragStart := None |}.

Definition with_timeRange (st : HookState) (r : TimeRange)
  : HookState :=
  {| editorState :=
       {| selectedTimeRange := Some r;
          selectedCropArea := selectedCropArea (editorState st) |};
     isSelecting := isSelecting st;
     selectedPreset := selectedPreset st;
     isDragging := isDragging st;
     dragStart := dragStart st |}.

(** [setTimeRange] *)
Definition setTimeRange (range : TimeRange) (st : HookState)
  : HookState :=
  with_timeRange st
    {| start := Math_max 0 (Math_min (start range) videoDuration);
       end_ := Math_max (start range)
                 (Math_min (end_ range) videoDuration) |}.

(** [setStartTime] *)
Definition setStartTime (time : number) (st : HookState)
  : HookState :=
  let timeRange := timeRange (editorState st) videoDuration in
  let clampedTime :=
    Math_max 0 (Math_min time (end_ timeRange - (1 # 10))) in
  setTimeRange {| start := clampedTime; end_ := end_ timeRange |} st.

(** [setEndTime] *)
Definition setEndTime (time : number) (st : HookState) : HookState :=
  let timeRange := timeRange (editorState st) videoDuration in
  let clampedTime :=
    Math_max (start timeRange + (1 # 10))
      (Math_min time videoDuration) in
  setTimeRange {| start := start timeRange; end_ := clampedTime |} st.

(** [setCropArea] *)
Definition setCropArea (area : option CropArea.t) (st : HookState)
  : HookState :=
  {| editorState :=
       {| selectedTimeRange := selectedTimeRange (editorState st);
          selectedCropArea := area |};
     isSelecting := isSelecting st;
     selectedPreset := selectedPreset st;
     isDragging := isDragging st;
     dragStart := dragStart st |}.

Definition setSelectedPreset (p : option CropPreset)
    (st : HookState) : HookState :=
  {| editorState := editorState st;
     isSelecting := isSelecting st;
     selectedPreset := p;
     isDragging := isDragging st;
     dragStart := dragStart st |}.

(** [applyPreset] *)
Definition applyPreset (preset : CropPreset) (st : HookState)
  : HookState :=
  let st := setSelectedPreset (Some preset) st in
  if Qeq_bool (ratio preset) 0 then st
  else setCropArea None st.

(** [handleMouseDown] *)
Definition handleMouseDown (e : MouseEvent) (containerRect : DOMRect)
    (st : HookState) : HookState :=
  let x := clientX e - left containerRect in
  let y := clientY e - top containerRect in
  {| editorState := editorState st;
     isSelecting := true;
     selectedPreset := selectedPreset st;
     isDragging := true;
     dragStart := Some {| px := x; py := y |} |}.

(** [handleMouseMove] *)
Definition handleMouseMove (e : MouseEvent) (containerRect : DOMRect)
    (st : HookState) : HookState :=
  match isDragging st, dragStart st with
  | true, Some dragStart =>
      let x := clientX e - left containerRect in
      let y := clientY e - top containerRect in
      let left := Math_min (px dragStart) x in
      let top := Math_min (py dragStart) y in
      let width := Math_abs (x - px dragStart) in
      let height := Math_abs (y - py dragStart) in
      let '(finalWidth, finalHeight) :=
        match selectedPreset st with
        | Some preset =>
            if gtb (ratio preset) 0 then
              let ratio := ratio preset in
              if gtb (width / height) ratio
              then (height * ratio, height)
              else (width, width / ratio)
            else (width, height)
        | None => (width, height)
        end in
      let maxWidth := rect_width containerRect - left in
      let maxHeight := rect_height containerRect - top in
      let finalWidth := Math_min finalWidth maxWidth in
      let finalHeight := Math_min finalHeight maxHeight in
      setCropArea
        (Some {| CropArea.x := left; CropArea.y := top;
                 CropArea.width := finalWidth;
                 CropArea.height := finalHeight |})
        st
  | _, _ => st
  end.

(** [handleMouseUp] *)
Definition handleMouseUp (st : HookState) : HookState :=
  {| editorState := editorState st;
     isSelecting := false;
     selectedPreset := selectedPreset st;
     isDragging := false;
     dragStart := None |}.

(** [resetSelection] *)
Definition resetSelection (st : HookState) : HookState :=
  let st :=
    setTimeRange {| start := 0; end_ := Math_min videoDuration 10 |}
      st in
  let st := setCropArea None st in
  setSelectedPreset (Some free_preset) st.

(** The range the hook hands out. *)
Definition currentRange (st : HookState) : TimeRange :=
  timeRange (editorState st) videoDuration.

(** A selection that lies in the video, its start not after its
    end. *)
Definition within_video (st : HookState) : Prop :=
  0 <= start (currentRange st)
  /\ start (currentRange st) <= end_ (currentRange st)
  /\ end_ (currentRange st) <= videoDuration.

End Hook.

(** The pointer is over the container. *)
Definition over_container (e : MouseEvent) (containerRect : DOMRect)
  : Prop :=
  left containerRect <= clientX e
  /\ clientX e <= left containerRect + rect_width containerRect
  /\ top containerRect <= clientY e
  /\ clientY e <= top containerRect + rect_height containerRect.

End EditorControls.

(* ================================================================== *)
(** ** components/ui/TimeRangeSlider.tsx                               *)
(* ================================================================== *)

Module TimeRangeSlider.

Import Js JsMore VideoEditor.
Local Open Scope Q_scope.

(** [interface TimeRangeSliderProps], without the two callbacks. *)
Record Props := {
  min : number;
  max : number;
  startValue : number;
  endValue : number;
  step : number;
  disabled : bool
}.

Inductive Handle := start_handle | end_handle.

(** A call of [onStartChange] or of [onEndChange]. *)
Inductive Change :=
| StartChange (value : number)
| EndChange (value : number).

Section Slider.

Variable props : Props.
(** [sliderRef.current.getBoundingClientRect()], when the track is
    mounted. *)
Variable sliderRect : option DOMRect.

(** [getPercentage] *)
Definition getPercentage (value : number) : number :=
  ((value - min props) / (max props - min props)) * 100.

(** The value under the pointer before it is aligned to the step. *)
Definition rawValue (rect : DOMRect) (clientX : number) : number :=
  let percentage :=
    Math_max 0 (Math_min 1 ((clientX - left rect) / rect_width rect))
  in
  min props + percentage * (max props - min props).

(** [getValue] *)
Definition getValue (clientX : number) : number :=
  match sliderRect with
  | None => min props
  | Some rect =>
      let rawValue := rawValue rect clientX in
      Math_round (rawValue / step props) * step props
  end.

Definition moveStart (newValue : number) : Change :=
  let clampedValue := Math_min newValue (endValue props - step props) in
  StartChange (Math_max (min props) clampedValue).

Definition moveEnd (newValue : number) : Change :=
  let clampedValue :=
    Math_max newValue (startValue props + step props) in
  EndChange (Math_min (max props) clampedValue).

(** [handleMouseMove], for the handle being dragged, if any. *)
Definition handleMouseMove (isDragging : option Handle)
    (clientX : number) : option Change :=
  match isDragging with
  | None => None
  | Some handle =>
      if disabled props then None
      else
        let newValue := getValue clientX in
        match handle with
        | start_handle => Some (moveStart newValue)
        | end_handle => Some (moveEnd newValue)
        end
  end.

(** [handleTrackClick]: the nearer handle moves. *)
Definition handleTrackClick (isDragging : option Handle)
    (clientX : number) : option Change :=
  match isDragging with
  | Some _ => None
  | None =>
      if disabled props then None
      else
        let newValue := getValue clientX in
        let startDistance := Math_abs (newValue - startValue props) in
        let endDistance := Math_abs (newValue - endValue props) in
        if gtb endDistance startDistance
        then Some (moveStart newValue)
        else Some (moveEnd newValue)
  end.

End Slider.

End TimeRangeSlider.

(* ================================================================== *)
(** ** The editor component: the slider drives the hook                *)
(* ================================================================== *)

Module VideoEditorComponent.

Import Js JsMore VideoEditor EditorControls.
Local Open Scope Q_scope.

Section Component.

(** [const videoDuration = media.duration || 0] *)
Variable videoDuration : number.

(** The props the component gives to [TimeRangeSlider]. *)
Definition sliderProps (st : HookState) : TimeRangeSlider.Props :=
  {| TimeRangeSlider.min := 0;
     TimeRangeSlider.max := videoDuration;
     TimeRangeSlider.startValue :=
       start (currentRange videoDuration st);
     TimeRangeSlider.endValue := end_ (currentRange videoDuration st);
     TimeRangeSlider.step := 1 # 10;
     TimeRangeSlider.disabled := false |}.

(** [handleStartTimeChange] and [handleEndTimeChange], as far as the
    selection goes (they also move the preview to the new time). *)
Definition onChange (c : TimeRangeSlider.Change) (st : HookState)
  : HookState :=
  match c with
  | TimeRangeSlider.StartChange time =>
      setStartTime videoDuration time st
  | TimeRangeSlider.EndChange time => setEndTime videoDuration time st
  end.

(** A gesture on the slider: a drag of a handle or a click on the
    track, with the pointer at [clientX]. *)
Inductive Gesture :=
| Drag (handle : TimeRangeSlider.Handle) (clientX : number)
| Click (clientX : number).

Definition slide (sliderRect : option DOMRect) (g : Gesture)
    (st : HookState) : HookState :=
  let change :=
    match g with
    | Drag handle clientX =>
        TimeRangeSlider.handleMouseMove (sliderProps st) sliderRect
          (Some handle) clientX
    | Click clientX =>
        TimeRangeSlider.handleTrackClick (sliderProps st) sliderRect
          None clientX
    end in
  match change with
  | Some c => onChange c st
  | None => st
  end.

(** What the user can do to the hook through the component. *)
Inductive UserAction :=
| Slide (sliderRect : option DOMRect) (g : Gesture)
| MouseDown (e : MouseEvent) (containerRect : DOMRect)
| MouseMove (e : MouseEvent) (containerRect : DOMRect)
| MouseUp
| ApplyPreset (preset : Constants.CropPreset)
| Reset.

Definition act (st : HookState) (a : UserAction) : HookState :=
  match a with
  | Slide sliderRect g => slide sliderRect g st
  | MouseDown e containerRect => handleMouseDown e containerRect st
  | MouseMove e containerRect => handleMouseMove e containerRect st
  | MouseUp => handleMouseUp st
  | ApplyPreset preset => applyPreset preset st
  | Reset => resetSelection videoDuration st
  end.

(** The slider of a [Slide] is laid out: its track has a width. *)
Definition laid_out (a : UserAction) : Prop :=
  match a with
  | Slide (Some rect) _ => 0 < rect_width rect
  | _ => True
  end.

End Component.

End VideoEditorComponent.

(* ================================================================== *)
(** ** utils/file.ts: formatting a duration                            *)
(* ================================================================== *)

Module FileUtils.

Import Js JsMore Command.
Local Open Scope string_scope.

Section Format.

Variable formatOther : number -> string.

(** [formatDuration] *)
Definition formatDuration (seconds : number) : string :=
  let minutes := Math_floor (seconds / 60) in
  let remainingSeconds := Math_floor (rem seconds 60) in
  padStart2 (toString formatOther minutes) ++ ":"
  ++ padStart2 (toString formatOther remainingSeconds).

End Format.

(** The decimal digit of a number below ten. *)
Definition digit (n : Z) : ascii :=
  ascii_of_nat (48 + Z.to_nat n).

(** A number below a hundred written with two decimal digits. *)
Definition two_digits (n : Z) : string :=
  String (digit (n / 10)) (String (digit (n mod 10)) EmptyString).

(** The check that padding the decimal text of [n] gives its two
    digits. *)
Definition pads_as_two_digits (n : nat) : bool :=
  String.eqb
    (JsMore.padStart2 (NilZero.string_of_int (Z.to_int (Z.of_nat n))))
    (two_digits (Z.of_nat n)).

End FileUtils.

(* ================================================================== *)
(** ** components/export/ExportPanel.tsx: the export settings          *)
(* ================================================================== *)

Module ExportPanel.

Import Js Constants.

(** The initial value of [exportSettings]. *)
Definition initialSettings : ExportSettings.t :=
  {| ExportSettings.format := mp4;
     ExportSettings.quality := QUALITY_PRESETS medium;
     ExportSettings.fps := None;
     ExportSettings.preset := Some medium |}.

(** [handleFormatChange] *)
Definition handleFormatChange (format : Format)
    (prev : ExportSettings.t) : ExportSettings.t :=
  {| ExportSettings.format := format;
     ExportSettings.quality := ExportSettings.quality prev;
     ExportSettings.fps :=
       Some (match format with
             | gif => DEFAULT_FPS gif
             | mp4 => DEFAULT_FPS mp4
             end);
     ExportSettings.preset := ExportSettings.preset prev |}.

(** [handlePresetChange] *)
Definition handlePresetChange (preset : Preset)
    (prev : ExportSettings.t) : ExportSettings.t :=
  {| ExportSettings.format := ExportSettings.format prev;
     ExportSettings.quality := QUALITY_PRESETS preset;
     ExportSettings.fps := ExportSettings.fps prev;
     ExportSettings.preset := Some preset |}.

(** [handleQualityChange] *)
Definition handleQualityChange (quality : number)
    (prev : ExportSettings.t) : ExportSettings.t :=
  {| ExportSettings.format := ExportSettings.format prev;
     ExportSettings.quality := quality;
     ExportSettings.fps := ExportSettings.fps prev;
     ExportSettings.preset := None |}.

(** What the user can do to the settings. *)
Inductive Edit :=
| FormatChange (format : Format)
| PresetChange (preset : Preset)
| QualityChange (quality : number).

Definition edit (settings : ExportSettings.t) (e : Edit)
  : ExportSettings.t :=
  match e with
  | FormatChange format => handleFormatChange format settings
  | PresetChange preset => handlePresetChange preset settings
  | QualityChange quality => handleQualityChange quality settings
  end.

(** The quality slider goes from 40 to 100. *)
Definition in_slider_range (e : Edit) : Prop :=
  match e with
  | QualityChange quality => (40 <= quality /\ quality <= 100)%Q
  | _ => True
  end.

(** The preset, when there is one, is where the quality comes from. *)
Definition preset_agrees (settings : ExportSettings.t) : Prop :=
  match ExportSettings.preset settings with
  | Some p => ExportSettings.quality settings = QUALITY_PRESETS p
  | None => True
  end.

Definition settings_ok (s : ExportSettings.t) : Prop :=
  preset_agrees s
  /\ (40 <= ExportSettings.quality s)%Q
  /\ (ExportSettings.quality s <= 100)%Q.

End ExportPanel.

(* ================================================================== *)
(** ** The clip preview: the part of the frame that is drawn           *)
(* ================================================================== *)

Module ClipPreview.

Import Js.
Local Open Scope Q_scope.

(** The source rectangle [updateCanvas] hands to [drawImage], for a
    video of [videoWidth] by [videoHeight]. *)
Definition sourceRect (clip : ClipSegment.t)
    (videoWidth videoHeight : number) : CropArea.t :=
  let cropArea := ClipSegment.cropArea clip in
  let sourceX :=
    Math_max 0 (Math_min (CropArea.x cropArea) (videoWidth - 1)) in
  let sourceY :=
    Math_max 0 (Math_min (CropArea.y cropArea) (videoHeight - 1)) in
  let sourceWidth :=
    Math_min (CropArea.width cropArea) (videoWidth - sourceX) in
  let sourceHeight :=
    Math_min (CropArea.height cropArea) (videoHeight - sourceY) in
  {| CropArea.x := sourceX; CropArea.y := sourceY;
     CropArea.width := sourceWidth; CropArea.height := sourceHeight |}.

End ClipPreview.

(* ================================================================== *)
(** ** VideoProcessor: thumbnails and the engine's version             *)
(* ================================================================== *)

Module ProcessorExtras.

Import Js Effects Command VideoProcessor.
Local Open Scope string_scope.
Local Open Scope js_scope.

Section Processor.

Variable formatOther : number -> string.
Variable env : Env.
(** [URL.createObjectURL] *)
Variable createObjectURL : Blob -> Result string.

(** The world in which the loop over the sources of a call of
    [initialize] continues after every source of [sources] has
    failed; [None] when one of them loads. *)
Fixpoint failedAttempts
    (onProgress : option (number -> list ExportProgress))
    (sources : list string) (w : World) : option World :=
  match sources with
  | [] => Some w
  | baseURL :: rest =>
      match loadFrom env onProgress baseURL w with
      | (Ok _, _) => None
      | (Throw e, w1) =>
          failedAttempts onProgress rest
            (snd (warnLoadFailure baseURL e w1))
      end
  end.

(** The command of [generateThumbnail]. *)
Definition thumbnailCommand (inputFileName outputFileName : string)
    (timeInSeconds : number) (cropArea : option CropArea.t)
  : list string :=
  let command :=
    ["-i"; inputFileName;
     "-ss"; toString formatOther timeInSeconds;
     "-vframes"; "1";
     "-f"; "image2"] in
  let command :=
    match cropArea with
    | Some cropArea =>
        let cropFilter :=
          "crop=" ++ toString formatOther
                       (Math_round (CropArea.width cropArea))
          ++ ":" ++ toString formatOther
                      (Math_round (CropArea.height cropArea))
          ++ ":" ++ toString formatOther
                      (Math_round (CropArea.x cropArea))
          ++ ":" ++ toString formatOther
                      (Math_round (CropArea.y cropArea)) in
        push command ["-vf"; cropFilter]
    | None => command
    end in
  push command [outputFileName].

(** [VideoProcessor.generateThumbnail] *)
Definition generateThumbnail (videoFile : File)
    (timeInSeconds : number) (cropArea : option CropArea.t)
  : M string :=
  loaded <- get_isLoaded ;;
  (if negb loaded then initialize env None else ret tt) ;;
  try_catch
    (let inputFileName := "thumb_input.mp4" in
     let outputFileName := "thumbnail.jpg" in
     data <- call (env_bytes env) (fetchFile videoFile) ;;
     call (env_unit env) (ffmpeg_writeFile inputFileName data) ;;
     let command :=
       thumbnailCommand inputFileName outputFileName timeInSeconds
         cropArea in
     call (env_unit env) (ffmpeg_exec command) ;;
     thumbnailData <- call (env_bytes env)
                        (ffmpeg_readFile outputFileName) ;;
     call (env_unit env) (ffmpeg_deleteFile inputFileName) ;;
     call (env_unit env) (ffmpeg_deleteFile outputFileName) ;;
     let blob := mkBlob thumbnailData "image/jpeg" in
     fun w => (createObjectURL blob, w))
    (fun error =>
       console console_error "缩略图生成失败:" (Some error) ;;
       throw (mkError "缩略图生成失败")).

(** [VideoProcessor.isInitialized] *)
Definition isInitialized : M bool := get_isLoaded.

(** [VideoProcessor.getVersion] *)
Definition getVersion : M string :=
  loaded <- get_isLoaded ;;
  if negb loaded then throw (mkError "FFmpeg未初始化")
  else
    call (env_unit env) (ffmpeg_exec ["-version"]) ;;
    ret "FFmpeg WebAssembly version".

End Processor.

(** The files the engine has been asked to remove, successfully. *)
Definition is_removed (ev : Event) : bool :=
  match ev with
  | Called (ffmpeg_deleteFile _) None => true
  | _ => false
  end.

Definition removals (w : World) : nat :=
  List.length (filter is_removed (trace w)).

(** The external calls made, with their outcome. *)
Definition is_call (ev : Event) : bool :=
  match ev with Called _ _ => true | _ => false end.

Definition calls (w : World) : nat :=
  List.length (filter is_call (trace w)).

(** A transcode or a read-back that the engine refused. *)
Definition is_failed_transcode (ev : Event) : bool :=
  match ev with
  | Called (ffmpeg_exec _) (Some _) => true
  | Called (ffmpeg_readFile _) (Some _) => true
  | _ => false
  end.

Definition failed_transcodes (w : World) : nat :=
  List.length (filter is_failed_transcode (trace w)).

(** A step that changes no flag, transcodes nothing, delivers nothing
    and removes nothing. *)
Definition quiet (w w' : World) : Prop :=
  isLoaded w' = isLoaded w
  /\ isFFmpegInitialized w' = isFFmpegInitialized w
  /\ execs w' = execs w
  /\ deliveries w' = deliveries w
  /\ removals w' = removals w.

(** A step that, besides, may only have loaded the engine. *)
Definition quiet_but_loaded (w w' : World) : Prop :=
  isLoaded w' = true
  /\ execs w' = execs w
  /\ deliveries w' = deliveries w
  /\ removals w' = removals w
  /\ (isFFmpegInitialized w' = true \/
      isFFmpegInitialized w' = isFFmpegInitialized w).

(** The one error [initialize] throws. *)
Definition initializationError : JsError :=
  mkError "FFmpeg初始化失败: 所有CDN源都加载失败，请检查网络连接或尝试刷新页面".

End ProcessorExtras.

(* ================================================================== *)
(** ** ExportHandler: single export and thumbnails                     *)
(* ================================================================== *)

Module ExportHandlerExtras.

Import Js Effects Command VideoProcessor ExportHandler ProcessorExtras.
Local Open Scope string_scope.
Local Open Scope js_scope.

Section Handler.

Variable formatOther : number -> string.
Variable env : Env.
Variable createObjectURL : Blob -> Result string.

Let toString := toString formatOther.

(** [ExportHandler.exportSingleClip] *)
Definition exportSingleClip (clip : ClipSegment.t)
    (mediaFile : MediaFile.t) (settings : ExportSettings.t)
    (onProgress : bool) : M unit :=
  try_catch
    (notify onProgress
       {| clipIndex := 1; clipTotal := 1;
          processingProgress := 0; status := Status.preparing;
          progress_message := "正在初始化视频处理器..." |} ;;
     initialized <- get_isFFmpegInitialized ;;
     (if negb initialized then
        initializeFFmpeg env
          (Some (fun ratio =>
             if onProgress then
               [{| clipIndex := 1; clipTotal := 1;
                   processingProgress := (ratio * 50)%Q;
                   status := Status.preparing;
                   progress_message :=
                     "正在加载视频处理器... "
                     ++ toString (Math_round (ratio * 100)%Q)
                     ++ "%" |}]
             else []))
      else ret tt) ;;
     notify onProgress
       {| clipIndex := 1; clipTotal := 1;
          processingProgress := 0; status := Status.processing;
          progress_message := "正在处理视频片段..." |} ;;
     outputBlob <- processVideoClip formatOther env
                     (MediaFile.file mediaFile) clip settings ;;
     fileName <- generateFileName formatOther env clip settings None ;;
     downloadFile env outputBlob fileName ;;
     notify onProgress
       {| clipIndex := 1; clipTotal := 1;
          processingProgress := 100; status := Status.completed;
          progress_message := "导出完成！" |})
    (fun error =>
       console console_error "单个片段导出失败:" (Some error) ;;
       notify onProgress
         {| clipIndex := 1; clipTotal := 1;
            processingProgress := 0; status := Status.error;
            progress_message := "导出失败: " ++ message error |} ;;
       throw error).

(** [ExportHandler.generateThumbnail] *)
Definition generateThumbnail (mediaFile : MediaFile.t)
    (clip : ClipSegment.t) : M string :=
  try_catch
    (initialized <- get_isFFmpegInitialized ;;
     (if negb initialized then initializeFFmpeg env None
      else ret tt) ;;
     let thumbnailTime :=
       (ClipSegment.startTime clip
        + (ClipSegment.endTime clip - ClipSegment.startTime clip) / 2)%Q
     in
     ProcessorExtras.generateThumbnail formatOther env createObjectURL
       (MediaFile.file mediaFile) thumbnailTime
       (Some (ClipSegment.cropArea clip)))
    (fun error =>
       console console_error "缩略图生成失败:" (Some error) ;;
       ret "").

(** [ExportHandler.getProcessorStatus] *)
Definition getProcessorStatus : M bool := get_isFFmpegInitialized.

End Handler.

(** The engine is loaded whenever the handler believes it is. *)
Definition flags_agree (w : World) : Prop :=
  isFFmpegInitialized w = true -> isLoaded w = true.

(** The last progress report a world has seen. *)
Definition is_progress (ev : Event) : bool :=
  match ev with Progress _ => true | _ => false end.

Definition lastProgress (w : World) : option Event :=
  List.last (map Some (filter is_progress (trace w))) None.

End ExportHandlerExtras.

(* ================================================================== *)
(** ** utils/video.ts: times and cropped thumbnails                    *)
(* ================================================================== *)

Module VideoUtils.

Import Js JsMore Command.
Local Open Scope string_scope.

Section Format.

Variable formatOther : number -> string.

(** [formatTime] *)
Definition formatTime (seconds : number) : string :=
  let hours := Math_floor (seconds / 3600) in
  let minutes := Math_floor (rem seconds 3600 / 60) in
  let secs := Math_floor (rem seconds 60) in
  if gtb hours 0 then
    padStart2 (toString formatOther hours) ++ ":"
    ++ padStart2 (toString formatOther minutes) ++ ":"
    ++ padStart2 (toString formatOther secs)
  else
    padStart2 (toString formatOther minutes) ++ ":"
    ++ padStart2 (toString formatOther secs).

End Format.

Local Open Scope Q_scope.

(** The [seeked] handler of [generateCroppedThumbnail]: how the frame
    of a video of [videoWidth] by [videoHeight] is laid over the
    canvas, [(drawWidth, drawHeight, offsetX, offsetY)]. *)
Definition drawPlacement (videoWidth videoHeight : number)
    (canvasWidth canvasHeight : number)
  : number * number * number * number :=
  let videoAspect := videoWidth / videoHeight in
  let canvasAspect := canvasWidth / canvasHeight in
  if gtb videoAspect canvasAspect then
    let drawHeight := canvasHeight in
    let drawWidth := drawHeight * videoAspect in
    let offsetX := (canvasWidth - drawWidth) / 2 in
    let offsetY := 0 in
    (drawWidth, drawHeight, offsetX, offsetY)
  else
    let drawWidth := canvasWidth in
    let drawHeight := drawWidth / videoAspect in
    let offsetX := 0 in
    let offsetY := (canvasHeight - drawHeight) / 2 in
    (drawWidth, drawHeight, offsetX, offsetY).

(** The source rectangle the handler gives to [drawImage]. *)
Definition thumbnailSource (videoWidth videoHeight : number)
    (canvasWidth canvasHeight : number) (cropArea : CropArea.t)
  : CropArea.t :=
  let '(drawWidth, drawHeight, offsetX, offsetY) :=
    drawPlacement videoWidth videoHeight canvasWidth canvasHeight in
  let scaleX := videoWidth / drawWidth in
  let scaleY := videoHeight / drawHeight in
  let sourceX := (CropArea.x cropArea - offsetX) * scaleX in
  let sourceY := (CropArea.y cropArea - offsetY) * scaleY in
  let sourceWidth := CropArea.width cropArea * scaleX in
  let sourceHeight := CropArea.height cropArea * scaleY in
  {| CropArea.x := Math_max 0 sourceX;
     CropArea.y := Math_max 0 sourceY;
     CropArea.width := Math_min sourceWidth (videoWidth - sourceX);
     CropArea.height := Math_min sourceHeight (videoHeight - sourceY) |}.

End VideoUtils.

(* ================================================================== *)
(** ** App.tsx: the list of candidate clips                            *)
(* ================================================================== *)

Module App.

Import Js.

(** [handleAddClip], as far as the list goes. *)
Definition handleAddClip (clip : ClipSegment.t)
    (prev : list ClipSegment.t) : list ClipSegment.t :=
  clip :: prev.

(** [handleDeleteClip] *)
Definition handleDeleteClip (clipId : string)
    (prev : list ClipSegment.t) : list ClipSegment.t :=
  filter (fun clip => negb (String.eqb (ClipSegment.id clip) clipId))
    prev.

(** [handleClearClips] *)
Definition handleClearClips (prev : list ClipSegment.t)
  : list ClipSegment.t := [].

End App.

(* ================================================================== *)
(** ** Sample inputs                                                   *)
(* ================================================================== *)

Module Samples.

Import Js Effects.
Local Open Scope string_scope.

Definition sample_clip : ClipSegment.t :=
  {| ClipSegment.id := "kx1"; ClipSegment.mediaId := "m1";
     ClipSegment.startTime := 2; ClipSegment.endTime := 7;
     ClipSegment.cropArea :=
       {| CropArea.x := 5 # 2; CropArea.y := 0;
          CropArea.width := 1601 # 10; CropArea.height := 90 |};
     ClipSegment.thumbnail := "blob:thumb";
     ClipSegment.createdAt := 0%Z |}.

Definition sample_gif_settings : ExportSettings.t :=
  {| ExportSettings.format := gif; ExportSettings.quality := 70;
     ExportSettings.fps := None; ExportSettings.preset := None |}.

(** A 1600x800 video shown in an 800x800 container: it is displayed
    800x400 with a gap of 200 above and below. *)
Definition wide_video : Dimensions.t :=
  {| Dimensions.width := 1600; Dimensions.height := 800 |}.

Definition square_container : VideoEditor.DOMRect :=
  {| VideoEditor.left := 0; VideoEditor.top := 0;
     VideoEditor.rect_width := 800; VideoEditor.rect_height := 800 |}.

(** A selection inside the gap above the video. *)
Definition selection_above : CropArea.t :=
  {| CropArea.x := 0; CropArea.y := 0;
     CropArea.width := 800; CropArea.height := 100 |}.

(** A selection inside the gap below the video. *)
Definition selection_below : CropArea.t :=
  {| CropArea.x := 0; CropArea.y := 650;
     CropArea.width := 800; CropArea.height := 100 |}.

(** The scenario of the design document: 1920x1080 in 800x800, the
    selection covering exactly the displayed video. *)
Definition hd_video : Dimensions.t :=
  {| Dimensions.width := 1920; Dimensions.height := 1080 |}.

Definition selection_displayed : CropArea.t :=
  {| CropArea.x := 0; CropArea.y := 175;
     CropArea.width := 800; CropArea.height := 450 |}.

Definition media_of (dimensions : Dimensions.t) : MediaFile.t :=
  {| MediaFile.id := "m1"; MediaFile.name := "movie.mp4";
     MediaFile.type := video; MediaFile.file := [];
     MediaFile.url := "blob:movie";
     MediaFile.duration := Some 60%Q;
     MediaFile.dimensions := dimensions;
     MediaFile.size := 1000000%Q; MediaFile.createdAt := 0%Z |}.

(** The hook with the range 2s..7s selected and a crop selection. *)
Definition editing (selection : option CropArea.t)
  : VideoEditor.EditorState :=
  {| VideoEditor.selectedTimeRange :=
       Some {| VideoEditor.start := 2; VideoEditor.end_ := 7 |};
     VideoEditor.selectedCropArea := selection |}.

(** The hook with a range of 0.05s selected. *)
Definition editing_too_short : VideoEditor.EditorState :=
  {| VideoEditor.selectedTimeRange :=
       Some {| VideoEditor.start := 2;
               VideoEditor.end_ := (41 # 20)%Q |};
     VideoEditor.selectedCropArea := None |}.

(** Thumbnail generators that succeed, and that fail. *)
Definition cropped_ok (url : string) (t : number) (a : CropArea.t)
    (w h : number) : Result string := Ok "data:image/jpeg;cropped".
Definition plain_ok (url : string) (t w h : number) : Result string :=
  Ok "data:image/jpeg;plain".
Definition cropped_fails (url : string) (t : number) (a : CropArea.t)
    (w h : number) : Result string :=
  Throw (mkError "canvas draw failed").
Definition plain_fails (url : string) (t w h : number)
  : Result string := Throw (mkError "video load failed").

(** A world in which nothing has happened yet, and one with the
    engine ready. *)
Definition fresh_world : World :=
  {| isLoaded := false; isFFmpegInitialized := false; trace := [] |}.
Definition ready_world : World :=
  {| isLoaded := true; isFFmpegInitialized := true; trace := [] |}.

(** An environment in which every download of an engine artifact
    fails with [reason] and everything else succeeds. *)
Definition offline (reason : string) : Env :=
  {| env_unit := fun _ _ => Ok tt;
     env_string := fun _ c =>
       match c with
       | toBlobURL _ _ => Throw (mkError reason)
       | _ => Ok "2024-05-06T07:08:09.000Z"
       end;
     env_bytes := fun _ _ => Ok [] |}.

Definition clip_at (id : string) (from to : number) : ClipSegment.t :=
  {| ClipSegment.id := id; ClipSegment.mediaId := "m1";
     ClipSegment.startTime := from; ClipSegment.endTime := to;
     ClipSegment.cropArea :=
       {| CropArea.x := 0; CropArea.y := 0;
          CropArea.width := 1920; CropArea.height := 1080 |};
     ClipSegment.thumbnail := "blob:thumb";
     ClipSegment.createdAt := 0%Z |}.

Definition first_clip := clip_at "c1" 0 5.
Definition second_clip := clip_at "c2" 10 15.
Definition third_clip := clip_at "c3" 20 25.

Definition sample_mp4_settings : ExportSettings.t :=
  {| ExportSettings.format := mp4; ExportSettings.quality := 70;
     ExportSettings.fps := None; ExportSettings.preset := Some medium |}.

(** An environment whose engine fails the second transcode it is
    asked for; everything else succeeds. *)
Definition second_exec_crashes : Env :=
  {| env_unit := fun history c =>
       match c with
       | ffmpeg_exec _ =>
           if Nat.eqb (List.length (exec_calls history)) 1
           then Throw (mkError "engine crashed")
           else Ok tt
       | _ => Ok tt
       end;
     env_string := fun _ _ => Ok "2024-05-06T07:08:09.000Z";
     env_bytes := fun _ _ => Ok [] |}.

End Samples.

Module ExtendedSamples.

Import Samples.

(** A container that has a width but no height yet. *)
Definition flat_container : VideoEditor.DOMRect :=
  {| VideoEditor.left := 0; VideoEditor.top := 0;
     VideoEditor.rect_width := 800; VideoEditor.rect_height := 0 |}.

Definition small_selection : CropArea.t :=
  {| CropArea.x := 100; CropArea.y := 100;
     CropArea.width := 200; CropArea.height := 100 |}.

End ExtendedSamples.

(* ================================================================== *)
(** ** More sample inputs                                              *)
(* ================================================================== *)

Module MoreSamples.

Import Js Effects Constants VideoEditor EditorControls Samples.
Local Open Scope string_scope.

Definition landscape_preset : CropPreset :=
  {| name := "landscape"; ratio := (16 / 9)%Q; label := "16:9 横屏" |}.

(** The hook of a 60 second video with 2s..7s selected. *)
Definition selecting (preset : option CropPreset) : HookState :=
  {| editorState := editing None;
     isSelecting := false;
     selectedPreset := preset;
     isDragging := false;
     dragStart := None |}.

Definition pointer (x y : number) : MouseEvent :=
  {| clientX := x; clientY := y |}.

(** A slider track 600 pixels wide starting at pixel 100. *)
Definition track : DOMRect :=
  {| left := 100; top := 500; rect_width := 600; rect_height := 12 |}.

Definition track_props : TimeRangeSlider.Props :=
  {| TimeRangeSlider.min := 0; TimeRangeSlider.max := 60;
     TimeRangeSlider.startValue := 2; TimeRangeSlider.endValue := 7;
     TimeRangeSlider.step := (1 # 10)%Q;
     TimeRangeSlider.disabled := false |}.

Definition session : list (VideoEditorComponent.UserAction) :=
  [ VideoEditorComponent.Slide (Some track)
      (VideoEditorComponent.Drag TimeRangeSlider.end_handle 50%Q);
    VideoEditorComponent.MouseDown (pointer 100 100) square_container;
    VideoEditorComponent.MouseMove (pointer 300 250) square_container;
    VideoEditorComponent.MouseUp;
    VideoEditorComponent.Slide (Some track)
      (VideoEditorComponent.Click 700%Q);
    VideoEditorComponent.ApplyPreset landscape_preset;
    VideoEditorComponent.Reset ].

(** Only the third configured source serves the engine. *)
Definition only_third_source : Env :=
  {| env_unit := fun _ _ => Ok tt;
     env_string := fun _ c =>
       match c with
       | toBlobURL url _ =>
           if String.prefix "https://unpkg.com/@ffmpeg/core-mt" url
           then Ok ("blob:" ++ url)
           else Throw (mkError "404")
       | _ => Ok "2024-05-06T07:08:09.000Z"
       end;
     env_bytes := fun _ _ => Ok [] |}.

(** Everything works. *)
Definition all_is_well : Env :=
  {| env_unit := fun _ _ => Ok tt;
     env_string := fun _ c =>
       match c with
       | toBlobURL url _ => Ok ("blob:" ++ url)
       | _ => Ok "2024-05-06T07:08:09.000Z"
       end;
     env_bytes := fun _ _ => Ok [] |}.

(** The engine refuses every transcode. *)
Definition exec_always_fails : Env :=
  {| env_unit := fun _ c =>
       match c with
       | ffmpeg_exec _ => Throw (mkError "engine crashed")
       | _ => Ok tt
       end;
     env_string := fun _ _ => Ok "2024-05-06T07:08:09.000Z";
     env_bytes := fun _ _ => Ok [] |}.

End MoreSamples.

(* ================================================================== *)
(** ** Facts about rounding and clamping                               *)
(* ================================================================== *)

Section RoundFacts.

Import Js.
Local Open Scope Q_scope.

Lemma Math_round_le (x y : Q) : x <= y -> Math_round x <= Math_round y.
Proof.
  intro H. unfold Math_round. rewrite <- Zle_Qle.
  apply Qfloor_resp_le. lra.
Qed.

Lemma Math_round_Z (z : Z) : Math_round (inject_Z z) = inject_Z z.
Proof.
  unfold Math_round. f_equal.
  assert (L : (z <= Qfloor (inject_Z z + (1 # 2)))%Z).
  { rewrite <- (Qfloor_Z z) at 1. apply Qfloor_resp_le. lra. }
  assert (U : (Qfloor (inject_Z z + (1 # 2)) < z + 1)%Z).
  { rewrite Zlt_Qlt.
    apply Qle_lt_trans with (inject_Z z + (1 # 2)); [apply Qfloor_le|].
    rewrite inject_Z_plus. change (inject_Z 1) with 1. lra. }
  lia.
Qed.

Lemma Math_round_comp (x y : Q) : x == y -> Math_round x = Math_round y.
Proof. intro H. unfold Math_round. now rewrite H. Qed.

#[global] Instance Math_round_Proper : Proper (Qeq ==> Qeq) Math_round.
Proof. intros x y H. now rewrite (Math_round_comp H). Qed.

(** [Math.round] is within one half of its argument: it rounds to a
    nearest integer. *)
Lemma Math_round_nearest (x : Q) :
  x - (1 # 2) < Math_round x /\ Math_round x <= x + (1 # 2).
Proof.
  unfold Math_round. split.
  - pose proof (Qlt_floor (x + (1 # 2))) as H.
    rewrite inject_Z_plus in H. change (inject_Z 1) with 1 in H. lra.
  - apply Qfloor_le.
Qed.

(** For integer bounds, clamping before rounding and rounding before
    clamping agree. *)
Lemma round_clamp_commute (lo hi : Z) (x : Q) :
  (lo <= hi)%Z ->
  Math_round (Math_max (inject_Z lo) (Math_min (inject_Z hi) x))
  == Qmax (inject_Z lo) (Qmin (inject_Z hi) (Math_round x)).
Proof.
  intro Hlh. unfold Math_max, Math_min.
  assert (Hq : inject_Z lo <= inject_Z hi) by now rewrite <- Zle_Qle.
  destruct (Qlt_le_dec x (inject_Z lo)) as [Hlo | Hlo].
  - assert (R : Math_round x <= inject_Z lo).
    { rewrite <- (Math_round_Z lo). apply Math_round_le. lra. }
    rewrite (Q.min_r (inject_Z hi) x) by lra.
    rewrite (Q.max_l (inject_Z lo) x) by lra.
    rewrite (Q.min_r (inject_Z hi) (Math_round x)) by lra.
    rewrite (Q.max_l (inject_Z lo) (Math_round x)) by lra.
    now rewrite Math_round_Z.
  - destruct (Qlt_le_dec (inject_Z hi) x) as [Hhi | Hhi].
    + assert (R : inject_Z hi <= Math_round x).
      { rewrite <- (Math_round_Z hi). apply Math_round_le. lra. }
      rewrite (Q.min_l (inject_Z hi) x) by lra.
      rewrite (Q.max_r (inject_Z lo) (inject_Z hi)) by lra.
      rewrite (Q.min_l (inject_Z hi) (Math_round x)) by lra.
      rewrite (Q.max_r (inject_Z lo) (inject_Z hi)) by lra.
      now rewrite Math_round_Z.
    + assert (R1 : inject_Z lo <= Math_round x).
      { rewrite <- (Math_round_Z lo). now apply Math_round_le. }
      assert (R2 : Math_round x <= inject_Z hi).
      { rewrite <- (Math_round_Z hi). now apply Math_round_le. }
      rewrite (Q.min_r (inject_Z hi) x) by lra.
      rewrite (Q.max_r (inject_Z lo) x) by lra.
      rewrite (Q.min_r (inject_Z hi) (Math_round x)) by lra.
      rewrite (Q.max_r (inject_Z lo) (Math_round x)) by lra.
      reflexivity.
Qed.

Lemma clamp_bounds (lo hi x : Q) :
  lo <= hi -> lo <= Qmax lo (Qmin hi x) /\ Qmax lo (Qmin hi x) <= hi.
Proof.
  intro H. split.
  - apply Q.le_max_l.
  - apply Q.max_lub; [exact H | apply Q.le_min_l].
Qed.

Lemma clamp_le (lo hi x y : Q) :
  x <= y -> Qmax lo (Qmin hi x) <= Qmax lo (Qmin hi y).
Proof.
  intro H. apply Q.max_le_compat_l. now apply Q.min_le_compat_l.
Qed.

End RoundFacts.

(* ================================================================== *)
(** ** The quality mapping: properties                                 *)
(* ================================================================== *)

Section QualityProperties.

Import Js Quality.
Local Open Scope Q_scope.

Lemma crf_antitone (q q' : Q) :
  q <= q' ->
  28 - ((q' - 40) / 60) * (28 - 18) <= 28 - ((q - 40) / 60) * (28 - 18).
Proof. intro H. unfold Qdiv. change (/ 60) with (1 # 60). lra. Qed.

Lemma qualityToCRF_antitone (q q' : Q) :
  q <= q' -> qualityToCRF q' <= qualityToCRF q.
Proof.
  intro H. unfold qualityToCRF. apply Math_round_le.
  apply clamp_le. now apply crf_antitone.
Qed.

(** C1: on the documented domain [40,100] the compression parameter is
    the linear formula [28 - ((quality-40)/60)*(28-18)], rounded and
    clamped to [18,28]; quality 100 gives 18, quality 70 gives 23,
    quality 40 gives 28; and the parameter does not increase when the
    quality increases within the domain. *)
Theorem quality_mapping_on_domain (quality : number) :
  40 <= quality <= 100 ->
  qualityToCRF quality == spec_param quality
  /\ qualityToCRF 100 == 18
  /\ qualityToCRF 70 == 23
  /\ qualityToCRF 40 == 28
  /\ (forall quality' : number,
        40 <= quality' <= 100 -> quality <= quality' ->
        qualityToCRF quality' <= qualityToCRF quality).
Proof.
  intros _. repeat split; try reflexivity.
  - unfold qualityToCRF, spec_param.
    apply (@round_clamp_commute 18 28). lia.
  - intros q' _ Hle. now apply qualityToCRF_antitone.
Qed.

Lemma quality_mapping_on_domain_witness :
  qualityToCRF 55 == spec_param 55
  /\ qualityToCRF 100 == 18
  /\ qualityToCRF 70 == 23
  /\ qualityToCRF 40 == 28
  /\ (forall quality' : number,
        40 <= quality' <= 100 -> 55 <= quality' ->
        qualityToCRF quality' <= qualityToCRF 55).
Proof.
  apply (@quality_mapping_on_domain 55). split; discriminate.
Defined.

(** A tie goes up: quality 43 gives 27.5, rounded to 28; the three
    presets [high], [medium], [low] give 18, 23 and 28. *)
Example qualityToCRF_43 : qualityToCRF 43 = 28.
Proof. reflexivity. Qed.

Example qualityToCRF_out_of_domain :
  qualityToCRF 0 = 28 /\ qualityToCRF 250 = 18
  /\ qualityToCRF (-(7 # 2)) = 28.
Proof. repeat split. Qed.

(** For every finite quality, inside the documented domain or not,
    the conversion returns an integer between 18 and 28. *)
Lemma qualityToCRF_finite_in_range (quality : number) :
  exists crf : Z,
    qualityToCRF quality = inject_Z crf /\ (18 <= crf <= 28)%Z.
Proof.
  unfold qualityToCRF, Math_round at 1.
  eexists. split; [reflexivity|].
  set (c := Math_max 18 (Math_min 28 _)).
  assert (B : 18 <= c /\ c <= 28).
  { subst c. unfold Math_max, Math_min. apply clamp_bounds. discriminate. }
  destruct B as [B1 B2]. split.
  - change 18%Z with (Qfloor (inject_Z 18)).
    apply Qfloor_resp_le. change (inject_Z 18) with 18. lra.
  - apply Z.lt_succ_r. rewrite Zlt_Qlt.
    apply Qle_lt_trans with (c + (1 # 2)); [apply Qfloor_le|].
    change (inject_Z (Z.succ 28)) with 29. lra.
Qed.

End QualityProperties.

(* ================================================================== *)
(** ** The command builder: properties                                 *)
(* ================================================================== *)

Section CommandProperties.

Import Js Command.
Local Open Scope string_scope.

Lemma string_app_nil_r (s : string) : s ++ "" = s.
Proof. induction s as [| c s IH]; simpl; [reflexivity | now rewrite IH]. Qed.

Lemma string_app_assoc (s t u : string) : (s ++ t) ++ u = s ++ (t ++ u).
Proof. induction s as [| c s IH]; simpl; [reflexivity | now rewrite IH]. Qed.

Variable formatOther : number -> string.

Let toString := toString formatOther.
Let cropFilter := cropFilter formatOther.
Let buildFFmpegCommand := buildFFmpegCommand formatOther.
Let trim_options := trim_options formatOther.
Let gifFilterChain := gifFilterChain formatOther.
Let paletteStage := paletteStage formatOther.
Let paletteUseStage := paletteUseStage formatOther.


(** C7: for GIF output the command is the trim followed by the two
    stages of the palette pipeline over one and the same filter chain;
    the frame rate is the one of the settings, 15 when the settings
    give none, and the chain scales to width 320 with Lanczos
    resampling. *)
Theorem gif_command_is_two_stage_palette_pipeline
    (inputFile outputFile : string) (clip : ClipSegment.t)
    (settings : ExportSettings.t) :
  ExportSettings.format settings = gif ->
  let fps := or_default (ExportSettings.fps settings) 15 in
  buildFFmpegCommand inputFile outputFile clip settings
  = (trim_options inputFile clip
     ++ paletteStage clip fps
     ++ paletteUseStage clip fps outputFile)%list
  /\ (ExportSettings.fps settings = None ->
      fps = 15%Q /\ toString fps = "15")
  /\ gifFilterChain clip fps
     = cropFilter clip ++ ",fps=" ++ toString fps
       ++ ",scale=320:-1:flags=lanczos".
Proof.
  intros Hfmt fps. split; [| split].
  - unfold buildFFmpegCommand, Command.buildFFmpegCommand,
      trim_options, Command.trim_options,
      paletteStage, Command.paletteStage,
      paletteUseStage, Command.paletteUseStage,
      gifFilterChain, Command.gifFilterChain, push.
    rewrite Hfmt. fold fps. cbn [app].
    rewrite !string_app_assoc. reflexivity.
  - intro Hnone. subst fps. rewrite Hnone. split; reflexivity.
  - reflexivity.
Qed.

End CommandProperties.

Section CommandWitness.

Import Js Command Samples.
Local Open Scope string_scope.

Example mp4_command :
  buildFFmpegCommand (fun _ => "?") "input.mp4" "output.mp4"
    sample_clip sample_mp4_settings
  = ["-i"; "input.mp4"; "-ss"; "2"; "-t"; "5";
     "-vf"; "crop=160:90:3:0";
     "-c:v"; "libx264"; "-preset"; "fast"; "-crf"; "23";
     "-c:a"; "aac"; "-b:a"; "128k"; "output.mp4"].
Proof. vm_compute. reflexivity. Qed.

Lemma gif_command_is_two_stage_palette_pipeline_witness :
  buildFFmpegCommand (fun _ => "?") "input.mp4" "output.gif"
    sample_clip sample_gif_settings
  = ["-i"; "input.mp4"; "-ss"; "2"; "-t"; "5";
     "-vf";
     "crop=160:90:3:0,fps=15,scale=320:-1:flags=lanczos,palettegen";
     "-y"; "palette.png";
     "-i"; "palette.png";
     "-filter_complex";
     "crop=160:90:3:0,fps=15,scale=320:-1:flags=lanczos[x];[x][1:v]paletteuse";
     "-loop"; "0"; "output.gif"].
Proof.
  destruct (@gif_command_is_two_stage_palette_pipeline (fun _ => "?")
              "input.mp4" "output.gif" sample_clip sample_gif_settings
              eq_refl) as [H _].
  rewrite H. vm_compute. reflexivity.
Defined.

End CommandWitness.

(* ================================================================== *)
(** ** The coordinate transformation: properties                       *)
(* ================================================================== *)

Section TransformProperties.

Import Js Effects VideoEditor.
Local Open Scope Q_scope.

Lemma gtb_true (a b : Q) : gtb a b = true -> b < a.
Proof.
  unfold gtb. intro H. apply negb_true_iff in H.
  destruct (Qlt_le_dec b a) as [L | L]; [exact L |].
  apply Qle_bool_iff in L. congruence.
Qed.

Lemma gtb_false (a b : Q) : gtb a b = false -> a <= b.
Proof.
  unfold gtb. intro H. apply negb_false_iff in H.
  now apply Qle_bool_iff.
Qed.

Lemma gtb_false_intro (a b : Q) : a <= b -> gtb a b = false.
Proof.
  intro H. unfold gtb. apply negb_false_iff. now apply Qle_bool_iff.
Qed.

Lemma gtb_true_intro (a b : Q) : b < a -> gtb a b = true.
Proof.
  intro H. destruct (gtb a b) eqn:E; [reflexivity |].
  apply gtb_false in E. lra.
Qed.

Lemma Qdiv_pos (a b : Q) : 0 < a -> 0 < b -> 0 < a / b.
Proof. intros Ha Hb. apply Qlt_shift_div_l; [exact Hb | lra]. Qed.

(** The displayed size is positive and the scale factors take it
    back to the size of the video. *)
Lemma placement_scales (dimensions : Dimensions.t) (rect : DOMRect) :
  positive_sizes dimensions rect ->
  let '(displayWidth, displayHeight, offsetX, offsetY) :=
    placement dimensions rect in
  0 < displayWidth /\ 0 < displayHeight
  /\ displayWidth * (Dimensions.width dimensions / displayWidth)
     == Dimensions.width dimensions
  /\ displayHeight * (Dimensions.height dimensions / displayHeight)
     == Dimensions.height dimensions.
Proof.
  intros (HW & HH & Hw & Hh). unfold placement.
  assert (HA : 0 < Dimensions.width dimensions
                   / Dimensions.height dimensions)
    by now apply Qdiv_pos.
  destruct (gtb _ _).
  - assert (P : 0 < rect_width rect
                    / (Dimensions.width dimensions
                       / Dimensions.height dimensions))
      by now apply Qdiv_pos.
    repeat split; try assumption;
      apply Qmult_div_r; intro E; rewrite E in *; lra.
  - assert (P : 0 < rect_height rect
                    * (Dimensions.width dimensions
                       / Dimensions.height dimensions))
      by now apply Qmult_lt_0_compat.
    repeat split; try assumption;
      apply Qmult_div_r; intro E; rewrite E in *; lra.
Qed.

(** The rectangle stored in a segment lies within the frame. *)
Lemma finalCropArea_contained (dimensions : Dimensions.t)
    (cropArea : option CropArea.t) (containerRect : option DOMRect) :
  let r := finalCropArea dimensions cropArea containerRect in
  0 <= CropArea.x r /\ 0 <= CropArea.y r
  /\ CropArea.x r + CropArea.width r <= Dimensions.width dimensions
  /\ CropArea.y r + CropArea.height r <= Dimensions.height dimensions.
Proof.
  unfold finalCropArea.
  destruct cropArea as [sel |], containerRect as [rect |];
    cbn; try (repeat split; lra).
  destruct (placement dimensions rect) as [[[dw dh] ox] oy].
  cbn.
  destruct (gtb (Math_max 0 _ + Math_min _ _) (Dimensions.width _))
    eqn:EX; cbn;
    destruct (gtb (Math_max 0 _ + _) (Dimensions.height _)) eqn:EY; cbn;
    try apply gtb_false in EX; try apply gtb_false in EY;
    repeat split;
    try apply Q.le_max_l; try assumption; lra.
Qed.

End TransformProperties.

(* ================================================================== *)
(** ** Clip creation: properties                                       *)
(* ================================================================== *)

Section ClipCreationProperties.

Import Js Effects VideoEditor.
Local Open Scope Q_scope.

Variable generateCroppedThumbnail :
  string -> number -> CropArea.t -> number -> number -> Result string.
Variable generateVideoThumbnail :
  string -> number -> number -> number -> Result string.
Variable editorState : EditorState.
Variable videoDuration : number.

Let createClipSegment :=
  createClipSegment generateCroppedThumbnail generateVideoThumbnail
    editorState videoDuration.
Let requestThumbnail :=
  requestThumbnail generateCroppedThumbnail generateVideoThumbnail.

(** A created segment stores the transformed rectangle and the
    selected range. *)
Lemma createClipSegment_fields (freshId : string) (now : Date)
    (media : MediaFile.t) (containerRect : option DOMRect)
    (clip : ClipSegment.t) :
  createClipSegment freshId now media containerRect = Ok (Some clip) ->
  ClipSegment.cropArea clip
  = finalCropArea (MediaFile.dimensions media)
      (selectedCropArea editorState) containerRect
  /\ ClipSegment.startTime clip
     = start (timeRange editorState videoDuration)
  /\ ClipSegment.endTime clip
     = end_ (timeRange editorState videoDuration).
Proof.
  unfold createClipSegment, VideoEditor.createClipSegment.
  destruct (canAddToClips _); cbn; [| discriminate].
  destruct (VideoEditor.requestThumbnail _ _ _ _ _ _); cbn;
    intro H; injection H as <-; repeat split.
Qed.

(** C5, amended: for a video and a container of positive width and
    height, the crop rectangle of a created segment lies within the
    source frame: [0 <= x], [0 <= y], [x + width <= sourceWidth] and
    [y + height <= sourceHeight]. *)
Theorem created_crop_within_source (freshId : string) (now : Date)
    (media : MediaFile.t) (containerRect : option DOMRect)
    (clip : ClipSegment.t) :
  0 < Dimensions.width (MediaFile.dimensions media) ->
  0 < Dimensions.height (MediaFile.dimensions media) ->
  (forall rect, containerRect = Some rect ->
                0 < rect_width rect /\ 0 < rect_height rect) ->
  createClipSegment freshId now media containerRect = Ok (Some clip) ->
  let r := ClipSegment.cropArea clip in
  0 <= CropArea.x r /\ 0 <= CropArea.y r
  /\ CropArea.x r + CropArea.width r
     <= Dimensions.width (MediaFile.dimensions media)
  /\ CropArea.y r + CropArea.height r
     <= Dimensions.height (MediaFile.dimensions media).
Proof.
  intros _ _ _ H r. subst r.
  apply createClipSegment_fields in H. destruct H as (-> & _).
  apply finalCropArea_contained.
Qed.

(** C8: a selected range shorter than 0.1 second is rejected:
    [createClipSegment] returns [null]. *)
Theorem short_selection_is_rejected (freshId : string) (now : Date)
    (media : MediaFile.t) (containerRect : option DOMRect) :
  let range := timeRange editorState videoDuration in
  end_ range - start range < 1 # 10 ->
  createClipSegment freshId now media containerRect = Ok None.
Proof.
  intros range H.
  unfold createClipSegment, VideoEditor.createClipSegment.
  fold range.
  assert (E : canAddToClips range = false).
  { unfold canAddToClips, getSelectedDuration, gtb.
    apply negb_false_iff. apply Qle_bool_iff. lra. }
  now rewrite E.
Qed.

(** C9: [createClipSegment] never throws; and when the selection is
    long enough and the thumbnail request fails, the segment is still
    produced, for the selected range, with the media URL as its
    thumbnail. *)
Theorem thumbnail_failure_is_not_fatal (freshId : string) (now : Date)
    (media : MediaFile.t) (containerRect : option DOMRect)
    (error : JsError) :
  let range := timeRange editorState videoDuration in
  let crop := finalCropArea (MediaFile.dimensions media)
                (selectedCropArea editorState) containerRect in
  canAddToClips range = true ->
  requestThumbnail range (selectedCropArea editorState) crop media
  = Throw error ->
  (exists clip,
     createClipSegment freshId now media containerRect = Ok (Some clip)
     /\ ClipSegment.thumbnail clip = MediaFile.url media
     /\ ClipSegment.id clip = freshId
     /\ ClipSegment.mediaId clip = MediaFile.id media
     /\ ClipSegment.startTime clip = start range
     /\ ClipSegment.endTime clip = end_ range)
  /\ (forall freshId' now' media' containerRect' e,
        createClipSegment freshId' now' media' containerRect'
        <> Throw e).
Proof.
  intros range crop Hcan Hthumb. split.
  - unfold createClipSegment, VideoEditor.createClipSegment.
    fold range. rewrite Hcan. cbn.
    fold crop. unfold requestThumbnail in Hthumb.
    rewrite Hthumb. cbn. eexists. split; [reflexivity |].
    cbn. repeat split.
  - intros f n m c e.
    unfold createClipSegment, VideoEditor.createClipSegment.
    destruct (canAddToClips _); cbn; [| discriminate].
    destruct (VideoEditor.requestThumbnail _ _ _ _ _ _); cbn;
      discriminate.
Qed.

End ClipCreationProperties.

Section ClipCreationWitnesses.

Import Js Effects VideoEditor Samples.
Local Open Scope Q_scope.

Lemma created_crop_within_source_witness :
  let r := finalCropArea hd_video (Some selection_displayed)
             (Some square_container) in
  0 <= CropArea.x r /\ 0 <= CropArea.y r
  /\ CropArea.x r + CropArea.width r <= 1920
  /\ CropArea.y r + CropArea.height r <= 1080.
Proof.
  apply (@created_crop_within_source cropped_ok plain_ok
           (editing (Some selection_displayed)) 60
           "kx1"%string 0%Z (media_of hd_video) (Some square_container)
           {| ClipSegment.id := "kx1";
              ClipSegment.mediaId := "m1";
              ClipSegment.startTime := 2;
              ClipSegment.endTime := 7;
              ClipSegment.cropArea :=
                finalCropArea hd_video (Some selection_displayed)
                  (Some square_container);
              ClipSegment.thumbnail := "data:image/jpeg;cropped";
              ClipSegment.createdAt := 0%Z |}).
  - reflexivity.
  - reflexivity.
  - intros rect E. injection E as <-. split; reflexivity.
  - reflexivity.
Defined.

Lemma short_selection_is_rejected_witness :
  createClipSegment cropped_ok plain_ok editing_too_short 60
    "kx1"%string 0%Z (media_of hd_video) None
  = Ok None.
Proof.
  apply (@short_selection_is_rejected cropped_ok plain_ok
           editing_too_short 60).
  reflexivity.
Defined.

Lemma thumbnail_failure_is_not_fatal_witness :
  exists clip,
    createClipSegment cropped_fails plain_fails
      (editing (Some selection_displayed)) 60
      "kx1"%string 0%Z (media_of hd_video) (Some square_container)
    = Ok (Some clip)
    /\ ClipSegment.thumbnail clip = "blob:movie"%string.
Proof.
  destruct (@thumbnail_failure_is_not_fatal cropped_fails plain_fails
              (editing (Some selection_displayed)) 60
              "kx1"%string 0%Z (media_of hd_video)
              (Some square_container)
              (mkError "canvas draw failed") eq_refl eq_refl)
    as [(clip & H & T & _) _].
  exists clip. split; [exact H | exact T].
Defined.

End ClipCreationWitnesses.

(* ================================================================== *)
(** ** Selections in the letterbox gap                                 *)
(* ================================================================== *)

Section GapSelections.

Import Js Effects VideoEditor Samples.
Local Open Scope Q_scope.

(** The scenario of the design document: the selection that covers
    the displayed 1920x1080 video in an 800x800 container maps to the
    full frame. *)
Example full_display_maps_to_full_frame :
  let r := finalCropArea hd_video (Some selection_displayed)
             (Some square_container) in
  CropArea.x r == 0 /\ CropArea.y r == 0
  /\ CropArea.width r == 1920 /\ CropArea.height r == 1080.
Proof. vm_compute. repeat split. Qed.

(** C3 fails: a selection of 800x100 inside the 200 pixel gap above a
    1600x800 video shown in an 800x800 container yields the clip whose
    crop is the 1600x200 strip at the top of the frame, not a
    rectangle of area zero.  (The same selection inside the gap below
    the video yields a crop of height -100, whose area is not zero
    either.) *)
Lemma selection_above_video_keeps_area :
  positive_sizes wide_video square_container
  /\ inside_container selection_above square_container
  /\ within_gap wide_video square_container selection_above
  /\ (exists clip,
        createClipSegment cropped_ok plain_ok
          (editing (Some selection_above)) 60
          "kx1"%string 0%Z (media_of wide_video) (Some square_container)
        = Ok (Some clip)
        /\ CropArea.x (ClipSegment.cropArea clip) == 0
        /\ CropArea.y (ClipSegment.cropArea clip) == 0
        /\ CropArea.width (ClipSegment.cropArea clip) == 1600
        /\ CropArea.height (ClipSegment.cropArea clip) == 200
        /\ ~ area (ClipSegment.cropArea clip) == 0)
  /\ inside_container selection_below square_container
  /\ within_gap wide_video square_container selection_below
  /\ (exists clip,
        createClipSegment cropped_ok plain_ok
          (editing (Some selection_below)) 60
          "kx1"%string 0%Z (media_of wide_video) (Some square_container)
        = Ok (Some clip)
        /\ CropArea.width (ClipSegment.cropArea clip) == 1600
        /\ CropArea.height (ClipSegment.cropArea clip) == -100
        /\ ~ area (ClipSegment.cropArea clip) == 0).
Proof.
  split; [| split; [| split; [| split; [| split; [| split]]]]].
  - repeat split.
  - repeat split; discriminate.
  - vm_compute. right. right. left. discriminate.
  - eexists. split; [reflexivity |].
    vm_compute. repeat split; discriminate.
  - repeat split; discriminate.
  - vm_compute. right. right. right. discriminate.
  - eexists. split; [reflexivity |].
    vm_compute. repeat split; discriminate.
Qed.

Lemma scaled_size_positive (extent size display : Q) :
  0 < extent -> 0 < size -> 0 < display ->
  0 < Math_min (extent * (size / display)) size.
Proof.
  intros He Hs Hd. unfold Math_min.
  apply Q.min_glb_lt; [| exact Hs].
  apply Qmult_lt_0_compat; [exact He | now apply Qdiv_pos].
Qed.

(** A position at or before the offset is taken to the near edge of
    the frame. *)
Lemma scaled_position_before_offset (pos offset scale : Q) :
  pos <= offset -> 0 <= scale ->
  Math_max 0 ((pos - offset) * scale) == 0.
Proof.
  intros Hp Hs. unfold Math_max.
  assert (N : (pos - offset) * scale <= 0).
  { setoid_replace ((pos - offset) * scale)
      with (- ((offset - pos) * scale)) by ring.
    assert (0 <= (offset - pos) * scale)
      by (apply Qmult_le_0_compat; lra).
    lra. }
  apply Q.max_l. exact N.
Qed.

(** C3, amended: with positive dimensions, a selection lying entirely
    in the gap above the displayed video is not given a rectangle of
    area zero: its crop is moved to the upper edge of the frame,
    [y = 0], with the height of the selection scaled to the frame and
    capped at the frame's height, which is positive when the
    selection's is.  In the same way a selection lying entirely in
    the gap to the left of the displayed video gets [x = 0] and its
    scaled width capped at the frame's. *)
Theorem selection_before_video_is_moved_to_edge
    (dimensions : Dimensions.t) (rect : DOMRect)
    (selection : CropArea.t) :
  positive_sizes dimensions rect ->
  let '(displayWidth, displayHeight, offsetX, offsetY) :=
    placement dimensions rect in
  let r := finalCropArea dimensions (Some selection) (Some rect) in
  (0 <= CropArea.height selection ->
   CropArea.y selection + CropArea.height selection <= offsetY ->
   CropArea.y r == 0
   /\ CropArea.height r
      == Math_min
           (CropArea.height selection
            * (Dimensions.height dimensions / displayHeight))
           (Dimensions.height dimensions)
   /\ (0 < CropArea.height selection -> 0 < CropArea.height r))
  /\ (0 <= CropArea.width selection ->
      CropArea.x selection + CropArea.width selection <= offsetX ->
      CropArea.x r == 0
      /\ CropArea.width r
         == Math_min
              (CropArea.width selection
               * (Dimensions.width dimensions / displayWidth))
              (Dimensions.width dimensions)
      /\ (0 < CropArea.width selection -> 0 < CropArea.width r)).
Proof.
  intro Hpos.
  pose proof (placement_scales Hpos) as PS.
  pose proof Hpos as (HW & HH & _ & _).
  unfold finalCropArea.
  destruct (placement dimensions rect) as [[[dw dh] ox] oy].
  destruct PS as (Pw & Ph & _ & _).
  assert (Sx : 0 <= Dimensions.width dimensions / dw)
    by (apply Qlt_le_weak; now apply Qdiv_pos).
  assert (Sy : 0 <= Dimensions.height dimensions / dh)
    by (apply Qlt_le_weak; now apply Qdiv_pos).
  cbn [CropArea.x CropArea.y CropArea.width CropArea.height].
  split; intros Hext Hgap.
  - assert (Y : Math_max 0 ((CropArea.y selection - oy)
                            * (Dimensions.height dimensions / dh)) == 0)
      by (apply scaled_position_before_offset; lra).
    assert (C : Math_min (CropArea.height selection
                          * (Dimensions.height dimensions / dh))
                  (Dimensions.height dimensions)
                <= Dimensions.height dimensions)
      by apply Q.le_min_r.
    destruct (gtb (Math_max 0 _ + Math_min _ _) (Dimensions.width _));
      cbn [CropArea.x CropArea.y CropArea.width CropArea.height];
      rewrite gtb_false_intro by lra;
      cbn [CropArea.x CropArea.y CropArea.width CropArea.height];
      (split; [exact Y |]); (split; [reflexivity |]);
      intro Hsel; now apply scaled_size_positive.
  - assert (X : Math_max 0 ((CropArea.x selection - ox)
                            * (Dimensions.width dimensions / dw)) == 0)
      by (apply scaled_position_before_offset; lra).
    assert (C : Math_min (CropArea.width selection
                          * (Dimensions.width dimensions / dw))
                  (Dimensions.width dimensions)
                <= Dimensions.width dimensions)
      by apply Q.le_min_r.
    assert (G : gtb (Math_max 0 ((CropArea.x selection - ox)
                                 * (Dimensions.width dimensions / dw))
                     + Math_min (CropArea.width selection
                                 * (Dimensions.width dimensions / dw))
                         (Dimensions.width dimensions))
                  (Dimensions.width dimensions) = false)
      by (apply gtb_false_intro; lra).
    rewrite G.
    cbn [CropArea.x CropArea.y CropArea.width CropArea.height].
    destruct (gtb (Math_max 0 _ + _) (Dimensions.height _));
      cbn [CropArea.x CropArea.y CropArea.width CropArea.height];
      (split; [exact X |]); (split; [reflexivity |]);
      intro Hsel; now apply scaled_size_positive.
Qed.

Lemma selection_before_video_is_moved_to_edge_witness :
  let r := finalCropArea wide_video (Some selection_above)
             (Some square_container) in
  CropArea.y r == 0 /\ CropArea.height r == 200
  /\ 0 < CropArea.height r.
Proof.
  pose proof (@selection_before_video_is_moved_to_edge wide_video
                square_container selection_above) as H.
  destruct (placement wide_video square_container)
    as [[[dw dh] ox] oy] eqn:EP.
  vm_compute in EP. injection EP as <- <- <- <-.
  destruct H as [(H1 & H2 & H3) _].
  - repeat split.
  - discriminate.
  - discriminate.
  - split; [exact H1 |]. split; [rewrite H2; reflexivity |].
    apply H3. reflexivity.
Defined.

End GapSelections.

(* ================================================================== *)
(** ** Engine initialization: properties                               *)
(* ================================================================== *)

Section TraceFacts.

Import Effects.

Lemma warnings_app (a b : list Event) :
  warnings (a ++ b) = warnings a ++ warnings b.
Proof. apply flat_map_app. Qed.

Lemma warnings_progress (ps : list ExportProgress) :
  warnings (map Progress ps) = [].
Proof. induction ps as [| p ps IH]; [reflexivity | exact IH]. Qed.

Lemma exec_calls_app (a b : list Event) :
  exec_calls (a ++ b) = exec_calls a ++ exec_calls b.
Proof. apply filter_app. Qed.

Lemma delivered_app (a b : list Event) :
  delivered (a ++ b) = delivered a ++ delivered b.
Proof. apply filter_app. Qed.

End TraceFacts.

(** Runs a computation as far as it goes: unfolds the monad and splits
    on the next answer of the environment. *)
Ltac run_monad :=
  cbv beta iota zeta
      delta [Effects.bind Effects.ret Effects.throw Effects.try_catch
             Effects.emit Effects.emit_all Effects.call Effects.console
             Effects.notify Effects.get_isLoaded Effects.set_isLoaded
             Effects.get_isFFmpegInitialized
             Effects.set_isFFmpegInitialized Effects.threw] in *;
  cbn [Effects.isLoaded Effects.isFFmpegInitialized Effects.trace
       fst snd negb] in *.

Ltac split_env :=
  match goal with
  | |- context [Effects.env_unit ?e ?h ?c] =>
      destruct (Effects.env_unit e h c)
  | |- context [Effects.env_string ?e ?h ?c] =>
      destruct (Effects.env_string e h c)
  | |- context [Effects.env_bytes ?e ?h ?c] =>
      destruct (Effects.env_bytes e h c)
  end.

Ltac run_env := run_monad; repeat (split_env; run_monad).

Section InitializeProperties.

Import Js Effects VideoProcessor.
Local Open Scope string_scope.

Variable env : Env.
Variable onProgress : option (number -> list ExportProgress).

Lemma report_frame (ratio : number) (w : World) :
  exists ps, report onProgress ratio w
             = (Ok tt, {| isLoaded := isLoaded w;
                          isFFmpegInitialized := isFFmpegInitialized w;
                          trace := trace w ++ map Progress ps |}).
Proof.
  unfold report. destruct onProgress as [f |].
  - exists (f ratio). reflexivity.
  - exists []. cbn. rewrite app_nil_r. now destruct w.
Qed.

(** An attempt leaves the flags alone and warns about nothing. *)
Lemma loadFrom_frame (baseURL : string) (w : World) :
  isLoaded (snd (loadFrom env onProgress baseURL w)) = isLoaded w
  /\ warnings (trace (snd (loadFrom env onProgress baseURL w)))
     = warnings (trace w).
Proof.
  unfold loadFrom.
  repeat (run_env;
          try match goal with
              | |- context [report onProgress ?r ?w0] =>
                  let ps := fresh "ps" in
                  let E := fresh "E" in
                  destruct (report_frame r w0) as [ps E]; rewrite E
              end);
    rewrite ?warnings_app, ?warnings_progress; cbn;
    rewrite ?app_nil_r; split; reflexivity.
Qed.

Lemma tryCdnSources_all_fail (sources : list string) :
  forall (w : World) (errs : list JsError),
    sourceErrors env onProgress sources w = Some errs ->
    exists w',
      tryCdnSources env onProgress sources w = (Ok false, w')
      /\ isLoaded w' = isLoaded w
      /\ warnings (trace w') = (warnings (trace w) ++ errs)%list
      /\ List.length errs = List.length sources.
Proof.
  induction sources as [| baseURL rest IH]; intros w errs H.
  - injection H as <-. exists w. cbn. rewrite app_nil_r. auto.
  - cbn [sourceErrors] in H. cbn [tryCdnSources].
    pose proof (loadFrom_frame baseURL w) as [FL FW].
    unfold warnLoadFailure in *. run_monad.
    destruct (loadFrom env onProgress baseURL w) as [[[] | e] w1];
      [discriminate |].
    match type of H with
    | match ?s with _ => _ end = _ =>
        destruct s as [errs' |] eqn:ES; [| discriminate]
    end.
    injection H as <-.
    destruct (IH _ _ ES) as (w' & R & L & W & N).
    exists w'. run_monad. rewrite R. repeat split.
    + now rewrite L.
    + rewrite W, warnings_app, FW. cbn. now rewrite <- app_assoc.
    + cbn. now rewrite N.
Qed.

(** C4, amended: when every configured source fails, [initialize]
    throws an error that consists of one fixed message; the engine
    stays unloaded; there is one error per configured source, and
    these errors are what the run hands to [console.warn], in order. *)
Theorem initialize_all_sources_fail (w : World) (errs : list JsError) :
  isLoaded w = false ->
  perSourceErrors env onProgress w = Some errs ->
  exists w',
    initialize env onProgress w
    = (Throw (mkError "FFmpeg初始化失败: 所有CDN源都加载失败，请检查网络连接或尝试刷新页面"), w')
    /\ isLoaded w' = false
    /\ List.length errs = List.length cdnSources
    /\ warnings (trace w') = (warnings (trace w) ++ errs)%list.
Proof.
  intros Hl He. unfold perSourceErrors in He.
  destruct (tryCdnSources_all_fail _ _ He) as (w1 & R & L & W & N).
  unfold initialize. run_monad. rewrite Hl.
  run_monad. rewrite R. run_monad.
  eexists. split; [reflexivity |]. cbn [isLoaded trace].
  rewrite L, warnings_app, W, warnings_app. cbn.
  rewrite !app_nil_r. auto.
Qed.

End InitializeProperties.

Section InitializeExamples.

Import Js Effects VideoProcessor Samples.
Local Open Scope string_scope.

Lemma initialize_all_sources_fail_witness :
  fst (initialize (offline "timeout") None fresh_world)
  = Throw (A := unit) (mkError "FFmpeg初始化失败: 所有CDN源都加载失败，请检查网络连接或尝试刷新页面")
  /\ warnings (trace (snd (initialize (offline "timeout") None
                             fresh_world)))
     = [mkError "timeout"; mkError "timeout"; mkError "timeout"].
Proof.
  destruct (@initialize_all_sources_fail (offline "timeout") None
              fresh_world
              [mkError "timeout"; mkError "timeout"; mkError "timeout"])
    as (w' & R & _ & _ & W).
  - reflexivity.
  - vm_compute. reflexivity.
  - rewrite R. split; [reflexivity | exact W].
Defined.

(** C4 fails: two runs in which the sources fail for different
    reasons throw one and the same error, so the per-source errors
    cannot be read from it. *)
Lemma raised_error_is_a_bare_message : ~ error_carries_source_errors.
Proof.
  intros [decode H].
  assert (A : decode (mkError "FFmpeg初始化失败: 所有CDN源都加载失败，请检查网络连接或尝试刷新页面")
              = [mkError "timeout"; mkError "timeout"; mkError "timeout"]).
  { apply (H (offline "timeout") None fresh_world
             (snd (initialize (offline "timeout") None fresh_world)));
      vm_compute; reflexivity. }
  assert (B : decode (mkError "FFmpeg初始化失败: 所有CDN源都加载失败，请检查网络连接或尝试刷新页面")
              = [mkError "dns"; mkError "dns"; mkError "dns"]).
  { apply (H (offline "dns") None fresh_world
             (snd (initialize (offline "dns") None fresh_world)));
      vm_compute; reflexivity. }
  rewrite A in B. discriminate.
Qed.

End InitializeExamples.

(* ================================================================== *)
(** ** Batch export: properties                                        *)
(* ================================================================== *)

Section BatchExportProperties.

Import Js Effects VideoProcessor ExportHandler.
Local Open Scope string_scope.

Variable formatOther : number -> string.
Variable env : Env.
Variable mediaFile : MediaFile.t.
Variable settings : ExportSettings.t.
Variable onProgress : bool.
Variable total : nat.

(** One turn of the loop asks for at most one transcode; it delivers
    one file when it returns and none when it throws. *)
Lemma exportClipAt_effect (i : nat) (clip : ClipSegment.t) (w : World) :
  match exportClipAt formatOther env mediaFile settings onProgress
          total i clip w with
  | (Ok _, w') =>
      execs w' = (execs w + 1)%nat
      /\ deliveries w' = (deliveries w + 1)%nat
  | (Throw _, w') =>
      (execs w' <= execs w + 1)%nat /\ deliveries w' = deliveries w
  end.
Proof.
  unfold exportClipAt, processVideoClip, generateFileName,
    downloadFile, execs, deliveries.
  destruct onProgress; run_monad;
    (destruct (isLoaded w); run_env;
     rewrite ?exec_calls_app, ?delivered_app, ?length_app;
     cbn; split; lia).
Qed.

(** A loop that returns has transcoded and delivered every clip. *)
Lemma exportLoop_returns (clips : list ClipSegment.t) :
  forall (i : nat) (w w1 : World),
    exportLoop formatOther env mediaFile settings onProgress total
      i clips w = (Ok tt, w1) ->
    execs w1 = (execs w + List.length clips)%nat
    /\ deliveries w1 = (deliveries w + List.length clips)%nat.
Proof.
  induction clips as [| clip rest IH]; intros i w w1 H.
  - injection H as <-. cbn. split; lia.
  - cbn [exportLoop] in H. unfold bind in H.
    pose proof (exportClipAt_effect i clip w) as E.
    destruct (exportClipAt _ _ _ _ _ _ i clip w) as [[[] | e] w'];
      [| discriminate].
    destruct E as [E1 E2].
    destruct (IH _ _ _ H) as [I1 I2].
    cbn [List.length]. split; lia.
Qed.

(** The loop stops at the first clip whose turn throws: the clips
    after it play no part in the run. *)
Lemma exportLoop_aborts (before : list ClipSegment.t) :
  forall (i : nat) (w w1 w2 : World) (clip : ClipSegment.t)
         (after : list ClipSegment.t) (e : JsError),
    exportLoop formatOther env mediaFile settings onProgress total
      i before w = (Ok tt, w1) ->
    exportClipAt formatOther env mediaFile settings onProgress total
      (i + List.length before) clip w1 = (Throw e, w2) ->
    exportLoop formatOther env mediaFile settings onProgress total
      i (before ++ clip :: after) w = (Throw e, w2).
Proof.
  induction before as [| b rest IH]; intros i w w1 w2 clip after e H F.
  - injection H as <-. cbn [List.length] in F.
    rewrite Nat.add_0_r in F.
    cbn [app exportLoop]. unfold bind. now rewrite F.
  - cbn [app exportLoop] in H |- *. unfold bind in H |- *.
    destruct (exportClipAt _ _ _ _ _ _ i b w) as [[[] | e'] w'];
      [| discriminate].
    apply (IH _ _ _ _ _ _ _ H).
    cbn [List.length] in F. now rewrite Nat.add_succ_comm.
Qed.

(** A clip that is processed is transcoded by one call of the engine,
    with the command of the builder for [input.mp4] and the output
    named after the format. *)
Lemma processVideoClip_runs_built_command (videoFile : File)
    (clip : ClipSegment.t) (w w' : World) (blob : Blob) :
  processVideoClip formatOther env videoFile clip settings w
  = (Ok blob, w') ->
  In (Called
        (ffmpeg_exec
           (Command.buildFFmpegCommand formatOther "input.mp4"
              ("output." ++ format_name (ExportSettings.format settings))
              clip settings))
        None)
     (trace w')
  /\ execs w' = (execs w + 1)%nat.
Proof.
  unfold processVideoClip, execs. run_monad.
  destruct (isLoaded w); run_env; intro H;
    try discriminate; injection H as <- <-; cbn [trace];
    rewrite ?exec_calls_app, ?length_app, ?in_app_iff; cbn;
    split; [tauto | lia].
Qed.

End BatchExportProperties.

Section BatchExportAbort.

Import Js Effects VideoProcessor ExportHandler.
Local Open Scope string_scope.

Variable formatOther : number -> string.
Variable env : Env.

(** C2: in a batch where the clips [before] are exported and the
    export of the next [clip] throws [e], [exportMultipleClips] stops
    there: it logs the error, reports the status [error] to the
    callback and throws [e] itself.  Nothing happens after the
    failure except that report, so the clips [after] are neither
    transcoded nor downloaded: every clip of [before] was transcoded
    once and delivered, the failing clip asked for at most one
    transcode and delivered nothing. *)
Theorem batch_export_aborts_at_first_failure
    (before after : list ClipSegment.t) (clip : ClipSegment.t)
    (mediaFile : MediaFile.t) (settings : ExportSettings.t)
    (onProgress : bool) (w w0 w1 w2 : World) (e : JsError) :
  let clips := (before ++ clip :: after)%list in
  let total := List.length clips in
  ensureInitialized formatOther env total onProgress w = (Ok tt, w0) ->
  exportLoop formatOther env mediaFile settings onProgress total 0
    before w0 = (Ok tt, w1) ->
  exportClipAt formatOther env mediaFile settings onProgress total
    (List.length before) clip w1 = (Throw e, w2) ->
  exists w3,
    exportMultipleClips formatOther env clips mediaFile settings
      onProgress w = (Throw e, w3)
    /\ trace w3
       = (trace w2
          ++ Console console_error "批量导出失败:" (Some e)
             :: (if onProgress
                 then [Progress
                         {| clipIndex := 0; clipTotal := total;
                            processingProgress := 0;
                            status := Status.error;
                            progress_message :=
                              "批量导出失败: " ++ message e |}]
                 else []))%list
    /\ execs w1 = (execs w0 + List.length before)%nat
    /\ (execs w3 <= execs w1 + 1)%nat
    /\ deliveries w3 = (deliveries w0 + List.length before)%nat.
Proof.
  intros clips total Hinit Hloop Hfail.
  pose proof (@exportLoop_returns _ _ _ _ _ _ _ _ _ _ Hloop) as [X1 D1].
  pose proof (exportClipAt_effect formatOther env mediaFile settings
                onProgress total (List.length before) clip w1) as E.
  rewrite Hfail in E. destruct E as [X2 D2].
  pose proof (@exportLoop_aborts _ _ _ _ _ _ _ 0 _ _ _ _ after _
                Hloop Hfail) as A.
  unfold exportMultipleClips. fold clips. fold total.
  unfold try_catch, bind at 1. rewrite Hinit.
  unfold bind at 1. fold clips in A. rewrite A.
  unfold execs, deliveries in *.
  destruct onProgress; run_monad;
    (eexists; split; [reflexivity |]);
    cbn [trace]; rewrite ?exec_calls_app, ?delivered_app, ?length_app;
    cbn; repeat split; try rewrite <- app_assoc; try reflexivity; lia.
Qed.

End BatchExportAbort.

Section BatchExportExample.

Import Js Effects VideoProcessor ExportHandler Samples.
Local Open Scope string_scope.

(** Three clips, the engine failing on the second: the first clip is
    delivered, the second transcode is the last one asked for, and
    the caller gets the error of the second clip. *)
Lemma batch_export_aborts_at_first_failure_witness :
  let run :=
    exportMultipleClips (fun _ => "?") second_exec_crashes
      [first_clip; second_clip; third_clip] (media_of hd_video)
      sample_mp4_settings true ready_world in
  fst run = Throw (mkError "视频处理失败: engine crashed")
  /\ deliveries (snd run) = 1%nat
  /\ execs (snd run) = 2%nat.
Proof.
  pose (total := 3%nat).
  pose (w1 := snd (exportLoop (fun _ => "?") second_exec_crashes
                     (media_of hd_video) sample_mp4_settings true total
                     0 [first_clip] ready_world)).
  pose (w2 := snd (exportClipAt (fun _ => "?") second_exec_crashes
                     (media_of hd_video) sample_mp4_settings true total
                     1 second_clip w1)).
  destruct (@batch_export_aborts_at_first_failure (fun _ => "?")
              second_exec_crashes [first_clip] [third_clip] second_clip
              (media_of hd_video) sample_mp4_settings true ready_world
              ready_world w1 w2 (mkError "视频处理失败: engine crashed"))
    as (w3 & R & T & _).
  - reflexivity.
  - vm_compute. reflexivity.
  - vm_compute. reflexivity.
  - cbv zeta.
    change ([first_clip; second_clip; third_clip])
      with ([first_clip] ++ second_clip :: [third_clip])%list.
    rewrite R. unfold execs, deliveries. cbn [fst snd]. rewrite T.
    vm_compute. repeat split.
Defined.

End BatchExportExample.

(* ================================================================== *)
(** ** Inputs that are not finite                                      *)
(* ================================================================== *)

Section ExtendedProperties.

Import Js VideoEditor.
Local Open Scope Q_scope.

(** On finite numbers the larger model computes what the rational
    one does. *)
Lemma qualityToCRF_finite (quality : Q) :
  Extended.qualityToCRF (Extended.Finite quality)
  = Extended.Finite (Quality.qualityToCRF quality).
Proof. reflexivity. Qed.

Lemma div_finite (a b : Q) :
  0 < b ->
  Extended.div (Extended.Finite a) (Extended.Finite b)
  = Extended.Finite (a / b).
Proof.
  intro H. cbn [Extended.div].
  destruct (Qeq_bool b 0) eqn:E; [| reflexivity].
  apply Qeq_bool_iff in E. lra.
Qed.

Lemma placement_finite (dimensions : Dimensions.t) (rect : DOMRect) :
  positive_sizes dimensions rect ->
  Extended.placement (Embed.dimensions dimensions) (Embed.rect rect)
  = let '(displayWidth, displayHeight, offsetX, offsetY) :=
      placement dimensions rect in
    (Extended.Finite displayWidth, Extended.Finite displayHeight,
     Extended.Finite offsetX, Extended.Finite offsetY).
Proof.
  intros (HW & HH & Hw & Hh).
  unfold Extended.placement, placement, Embed.dimensions, Embed.rect.
  cbn [Extended.Dimensions.width Extended.Dimensions.height
       Extended.rect_width Extended.rect_height].
  assert (PA : 0 < Dimensions.width dimensions
                   / Dimensions.height dimensions)
    by now apply Qdiv_pos.
  rewrite !div_finite by assumption.
  cbn [Extended.gtb].
  destruct (gtb _ _); cbn [Extended.sub Extended.mul];
    rewrite ?div_finite by (assumption || reflexivity); reflexivity.
Qed.

(** With positive sizes and a finite selection, no division of the
    transformation is by zero, and the rectangle it computes is the
    one of the rational model. *)
Lemma finalCropArea_finite (dimensions : Dimensions.t)
    (rect : DOMRect) (selection : CropArea.t) :
  positive_sizes dimensions rect ->
  Extended.finalCropArea (Embed.dimensions dimensions)
    (Some (Embed.cropArea selection)) (Some (Embed.rect rect))
  = Embed.cropArea
      (finalCropArea dimensions (Some selection) (Some rect)).
Proof.
  intro Hpos.
  pose proof (placement_scales Hpos) as PS.
  unfold Extended.finalCropArea, finalCropArea.
  rewrite (placement_finite Hpos).
  destruct (placement dimensions rect) as [[[dw dh] ox] oy].
  destruct PS as (Pw & Ph & _ & _).
  unfold Embed.dimensions, Embed.cropArea.
  cbn [Extended.Dimensions.width Extended.Dimensions.height
       Extended.CropArea.x Extended.CropArea.y
       Extended.CropArea.width Extended.CropArea.height].
  rewrite !div_finite by assumption.
  cbn [Extended.sub Extended.mul Extended.add Extended.Math_max
       Extended.Math_min Extended.gtb
       Extended.CropArea.x Extended.CropArea.y
       Extended.CropArea.width Extended.CropArea.height
       CropArea.x CropArea.y CropArea.width CropArea.height].
  destruct (gtb (Math_max 0 _ + Math_min _ _) (Dimensions.width _));
    cbn [Extended.sub Extended.mul Extended.add Extended.gtb
         Extended.CropArea.x Extended.CropArea.y
         Extended.CropArea.width Extended.CropArea.height
         CropArea.x CropArea.y CropArea.width CropArea.height];
    destruct (gtb (Math_max 0 _ + _) (Dimensions.height _));
    reflexivity.
Qed.

End ExtendedProperties.

Section QualityOfAnyNumber.

Import Js Quality.
Local Open Scope Q_scope.

(** C10 fails: a quality that is [NaN] is not clamped; [Math.min],
    [Math.max] and [Math.round] all return [NaN] for it, which is no
    integer between 18 and 28. *)
Lemma qualityToCRF_of_NaN_is_NaN :
  Extended.qualityToCRF Extended.NaN = Extended.NaN
  /\ forall crf : Z,
       Extended.qualityToCRF Extended.NaN
       <> Extended.Finite (inject_Z crf).
Proof. split; [reflexivity | discriminate]. Qed.

(** C10, amended: for every quality other than [NaN], finite or
    infinite, inside the documented domain or not, the conversion
    returns an integer between 18 and 28. *)
Theorem qualityToCRF_in_range_unless_NaN (quality : Extended.number) :
  quality <> Extended.NaN ->
  exists crf : Z,
    Extended.qualityToCRF quality = Extended.Finite (inject_Z crf)
    /\ (18 <= crf <= 28)%Z.
Proof.
  intro H. destruct quality as [| | q |].
  - contradiction.
  - exists 28%Z. split; [reflexivity | lia].
  - rewrite qualityToCRF_finite.
    destruct (qualityToCRF_finite_in_range q) as (crf & E & B).
    exists crf. now rewrite E.
  - exists 18%Z. split; [reflexivity | lia].
Qed.

Lemma qualityToCRF_in_range_unless_NaN_witness :
  exists crf : Z,
    Extended.qualityToCRF Extended.Infinity
    = Extended.Finite (inject_Z crf)
    /\ (18 <= crf <= 28)%Z.
Proof.
  apply (@qualityToCRF_in_range_unless_NaN Extended.Infinity).
  discriminate.
Defined.

End QualityOfAnyNumber.

Section ContainerWithoutHeight.

Import Js VideoEditor Samples ExtendedSamples.
Local Open Scope Q_scope.

(** C5 fails: in a container 800 wide and 0 high the displayed height
    is 0, so the scale factors are [1920 / 0] and [1080 / 0], that
    is [Infinity]; the selection at (100, 100) of 200 by 100 gets the
    crop [{x: 0, y: Infinity, width: 1920, height: -Infinity}], for
    which [y + height] is [NaN] and [y + height <= sourceHeight]
    false. *)
Lemma crop_in_flat_container_escapes_source :
  let r :=
    Extended.finalCropArea (Embed.dimensions hd_video)
      (Some (Embed.cropArea small_selection))
      (Some (Embed.rect flat_container)) in
  r = {| Extended.CropArea.x := Extended.Finite 0;
         Extended.CropArea.y := Extended.Infinity;
         Extended.CropArea.width := Extended.Finite 1920;
         Extended.CropArea.height := Extended.NegInfinity |}
  /\ Extended.add (Extended.CropArea.y r) (Extended.CropArea.height r)
     = Extended.NaN
  /\ Extended.contained r (Embed.dimensions hd_video) = false.
Proof. vm_compute. repeat split. Qed.

End ContainerWithoutHeight.

(* ================================================================== *)
(** ** Arithmetic used by the properties below                         *)
(* ================================================================== *)

(** Replaces the minima, maxima and absolute values of a goal by
    variables that carry their defining cases, for linear arithmetic. *)
Ltac q_cases :=
  unfold Js.Math_max, Js.Math_min, JsMore.Math_abs in *;
  repeat match goal with
    | |- context [Qmin ?a ?b] =>
        let H := fresh "Hmin" in
        let L := fresh "Lmin" in
        destruct (Q.min_spec a b) as [[L H] | [L H]];
        revert L H; generalize (Qmin a b); intro
    | |- context [Qmax ?a ?b] =>
        let H := fresh "Hmax" in
        let L := fresh "Lmax" in
        destruct (Q.max_spec a b) as [[L H] | [L H]];
        revert L H; generalize (Qmax a b); intro
    | |- context [Qabs ?a] =>
        let H := fresh "Habs" in
        let L := fresh "Labs" in
        destruct (Qlt_le_dec a 0) as [L | L];
        [ pose proof (Qabs_neg a (Qlt_le_weak _ _ L)) as H
        | pose proof (Qabs_pos a L) as H ];
        revert L H; generalize (Qabs a); intro
    end;
  intros.

Section DivisionFacts.

Import Js Effects VideoEditor.
Local Open Scope Q_scope.

Lemma Qdiv_cancel (a b : Q) : 0 < b -> (a / b) * b == a.
Proof.
  intro H. rewrite Qmult_comm. apply Qmult_div_r.
  intro E. rewrite E in H. lra.
Qed.

End DivisionFacts.


(* ================================================================== *)
(** ** Drawing the crop selection                                      *)
(* ================================================================== *)

Section MouseSelection.

Import Js JsMore Constants VideoEditor EditorControls.
Local Open Scope Q_scope.

Lemma Qdiv_nonneg (a b : Q) : 0 <= a -> 0 < b -> 0 <= a / b.
Proof. intros Ha Hb. apply Qle_shift_div_l; [exact Hb | lra]. Qed.

(** X3: A selection drawn by pressing the button at one point of the
    container and moving to another lies within the container and
    has no negative extent, whatever the preset. *)
Theorem drawn_selection_stays_in_container (e0 e1 : MouseEvent)
    (rect : DOMRect) (st : HookState) :
  over_container e0 rect -> over_container e1 rect ->
  exists c : CropArea.t,
    selectedCropArea
      (editorState (handleMouseMove e1 rect (handleMouseDown e0 rect st)))
    = Some c
    /\ 0 <= CropArea.x c /\ 0 <= CropArea.y c
    /\ 0 <= CropArea.width c /\ 0 <= CropArea.height c
    /\ CropArea.x c + CropArea.width c <= rect_width rect
    /\ CropArea.y c + CropArea.height c <= rect_height rect.
Proof.
  intros (A1 & A2 & A3 & A4) (B1 & B2 & B3 & B4).
  unfold handleMouseMove, handleMouseDown.
  cbn [isDragging dragStart selectedPreset px py].
  set (x0 := clientX e0 - left rect). set (y0 := clientY e0 - top rect).
  set (x1 := clientX e1 - left rect). set (y1 := clientY e1 - top rect).
  set (pair := match selectedPreset st with
               | Some preset => _ | None => _ end).
  assert (P : 0 <= fst pair /\ 0 <= snd pair).
  { subst pair. unfold Math_abs.
    destruct (selectedPreset st) as [p |]; cbn [fst snd];
      [| split; apply Qabs_nonneg].
    destruct (gtb (ratio p) 0) eqn:R; cbn [fst snd];
      [| split; apply Qabs_nonneg].
    apply gtb_true in R.
    destruct (gtb _ (ratio p)); cbn [fst snd]; split;
      try apply Qabs_nonneg.
    - apply Qmult_le_0_compat; [apply Qabs_nonneg | lra].
    - apply Qdiv_nonneg; [apply Qabs_nonneg | exact R]. }
  destruct pair as [fw fh]. cbn [fst snd] in P. destruct P as [Pw Ph].
  unfold setCropArea.
  cbn [editorState selectedCropArea].
  eexists. split; [reflexivity |].
  cbn [CropArea.x CropArea.y CropArea.width CropArea.height].
  subst x0 y0 x1 y1.
  repeat split; q_cases; lra.
Qed.

End MouseSelection.

(* ================================================================== *)
(** ** Selecting the time range                                        *)
(* ================================================================== *)

Section RangeSelection.

Import Js JsMore Constants Effects VideoEditor EditorControls.
Local Open Scope Q_scope.

Variable videoDuration : number.


Lemma currentRange_setStartTime (time : number) (st : HookState) :
  currentRange videoDuration (setStartTime videoDuration time st)
  = let e := end_ (currentRange videoDuration st) in
    let clampedTime := Math_max 0 (Math_min time (e - (1 # 10))) in
    {| start := Math_max 0 (Math_min clampedTime videoDuration);
       end_ := Math_max clampedTime (Math_min e videoDuration) |}.
Proof. reflexivity. Qed.

Lemma currentRange_setEndTime (time : number) (st : HookState) :
  currentRange videoDuration (setEndTime videoDuration time st)
  = let s := start (currentRange videoDuration st) in
    let clampedTime :=
      Math_max (s + (1 # 10)) (Math_min time videoDuration) in
    {| start := Math_max 0 (Math_min s videoDuration);
       end_ := Math_max s (Math_min clampedTime videoDuration) |}.
Proof. reflexivity. Qed.



End RangeSelection.

(* ================================================================== *)
(** ** The time range slider                                           *)
(* ================================================================== *)

Section SliderProperties.

Import Js JsMore VideoEditor TimeRangeSlider.
Local Open Scope Q_scope.

Variable props : Props.


End SliderProperties.

(* ================================================================== *)
(** ** The selection under any sequence of user actions                *)
(* ================================================================== *)

Section SelectionInvariant.

Import Js JsMore Constants Effects VideoEditor EditorControls.
Import VideoEditorComponent.
Local Open Scope Q_scope.

Variable videoDuration : number.

Lemma setStartTime_within (time : number) (st : HookState) :
  within_video videoDuration st ->
  within_video videoDuration (setStartTime videoDuration time st).
Proof.
  unfold within_video. intros (V1 & V2 & V3).
  rewrite currentRange_setStartTime. cbn zeta. cbn [start end_].
  revert V1 V2 V3.
  generalize (start (currentRange videoDuration st)) as s.
  generalize (end_ (currentRange videoDuration st)) as e.
  intros e s V1 V2 V3. repeat split; q_cases; lra.
Qed.

Lemma setEndTime_within (time : number) (st : HookState) :
  within_video videoDuration st ->
  within_video videoDuration (setEndTime videoDuration time st).
Proof.
  unfold within_video. intros (V1 & V2 & V3).
  rewrite currentRange_setEndTime. cbn zeta. cbn [start end_].
  revert V1 V2 V3.
  generalize (start (currentRange videoDuration st)) as s.
  generalize (end_ (currentRange videoDuration st)) as e.
  intros e s V1 V2 V3. repeat split; q_cases; lra.
Qed.

Lemma reset_range_within (st : HookState) :
  0 <= videoDuration ->
  within_video videoDuration (resetSelection videoDuration st).
Proof.
  intro H. unfold within_video.
  change (currentRange videoDuration (resetSelection videoDuration st))
    with {| start := Math_max 0 (Math_min 0 videoDuration);
            end_ := Math_max 0
                      (Math_min (Math_min videoDuration 10)
                         videoDuration) |}.
  cbn [start end_]. repeat split; q_cases; lra.
Qed.

Lemma initialState_within :
  0 <= videoDuration ->
  within_video videoDuration (initialState videoDuration).
Proof.
  intro H. unfold within_video, currentRange, initialState, timeRange.
  cbn [editorState selectedTimeRange].
  destruct (gtb videoDuration 0) eqn:G; cbn [start end_];
    repeat split; q_cases; lra.
Qed.

Lemma crop_actions_keep_range (st st' : HookState) :
  selectedTimeRange (editorState st')
  = selectedTimeRange (editorState st) ->
  within_video videoDuration st ->
  within_video videoDuration st'.
Proof.
  unfold within_video, currentRange, timeRange. now intros ->.
Qed.

Lemma act_keeps_within (st : HookState) (a : UserAction) :
  0 <= videoDuration ->
  within_video videoDuration st ->
  within_video videoDuration (act videoDuration st a).
Proof.
  intros HD V. destruct a as [rect g | e rect | e rect | | p |];
    cbn [act].
  - assert (C : forall c,
               within_video videoDuration (onChange videoDuration c st)).
    { intros [time | time]; cbn [onChange];
        [now apply setStartTime_within | now apply setEndTime_within]. }
    unfold slide.
    destruct g as [[|] x | x];
      cbn [TimeRangeSlider.handleMouseMove
           TimeRangeSlider.handleTrackClick sliderProps
           TimeRangeSlider.disabled];
      try destruct (gtb _ _); apply C.
  - apply (@crop_actions_keep_range st); [reflexivity | exact V].
  - apply (@crop_actions_keep_range st); [| exact V].
    unfold handleMouseMove.
    destruct (isDragging st); [| reflexivity].
    destruct (dragStart st); [| reflexivity].
    destruct (match selectedPreset st with Some _ => _ | None => _ end).
    reflexivity.
  - apply (@crop_actions_keep_range st); [reflexivity | exact V].
  - apply (@crop_actions_keep_range st); [| exact V].
    unfold applyPreset. now destruct (Qeq_bool _ _).
  - now apply reset_range_within.
Qed.


End SelectionInvariant.

Section SelectionWitnesses.

Import Js JsMore Constants Effects VideoEditor EditorControls.
Import VideoEditorComponent Samples MoreSamples.
Local Open Scope Q_scope.

Lemma drawn_selection_stays_in_container_witness :
  exists c : CropArea.t,
    selectedCropArea
      (editorState
         (handleMouseMove (pointer 300 250) square_container
            (handleMouseDown (pointer 100 100) square_container
               (selecting None))))
    = Some c
    /\ 0 <= CropArea.x c /\ 0 <= CropArea.y c
    /\ 0 <= CropArea.width c /\ 0 <= CropArea.height c
    /\ CropArea.x c + CropArea.width c <= 800
    /\ CropArea.y c + CropArea.height c <= 800.
Proof.
  apply (@drawn_selection_stays_in_container (pointer 100 100)
           (pointer 300 250) square_container (selecting None));
    repeat split; discriminate.
Defined.






End SelectionWitnesses.

(* ================================================================== *)
(** ** Formatting a duration                                           *)
(* ================================================================== *)

Section FormatDuration.

Import Js JsMore Command FileUtils.
Local Open Scope Q_scope.

Variable formatOther : number -> string.

Lemma Qfloor_unique (z : Z) (x : Q) :
  inject_Z z <= x -> x < inject_Z (z + 1) -> Qfloor x = z.
Proof.
  intros L U.
  assert (A : (z <= Qfloor x)%Z).
  { rewrite <- (Qfloor_Z z). now apply Qfloor_resp_le. }
  assert (B : (Qfloor x < z + 1)%Z).
  { rewrite Zlt_Qlt. apply Qle_lt_trans with x; [apply Qfloor_le | exact U]. }
  lia.
Qed.

Lemma floor_split (s : Q) :
  let f := Qfloor s in
  inject_Z f <= s /\ s < inject_Z f + 1
  /\ inject_Z f == 60 * inject_Z (f / 60) + inject_Z (f mod 60)
  /\ (0 <= f mod 60 < 60)%Z.
Proof.
  cbn zeta. repeat split.
  - apply Qfloor_le.
  - pose proof (Qlt_floor s) as H. rewrite inject_Z_plus in H. exact H.
  - rewrite (Z.div_mod (Qfloor s) 60) at 1 by lia.
    rewrite inject_Z_plus, inject_Z_mult. reflexivity.
  - apply Z.mod_pos_bound. lia.
  - apply Z.mod_pos_bound. lia.
Qed.

Lemma floor_of_minutes (s : Q) : Qfloor (s / 60) = (Qfloor s / 60)%Z.
Proof.
  destruct (floor_split s) as (L & U & E & R0 & R1).
  assert (R0' : 0 <= inject_Z (Qfloor s mod 60))
    by (change 0 with (inject_Z 0); rewrite <- Zle_Qle; lia).
  assert (R1' : inject_Z (Qfloor s mod 60) <= 59)
    by (change 59 with (inject_Z 59); rewrite <- Zle_Qle; lia).
  apply Qfloor_unique; rewrite ?inject_Z_plus;
    unfold Qdiv; change (/ 60) with (1 # 60);
    change (inject_Z 1) with 1; lra.
Qed.

Lemma floor_of_remainder (s : Q) :
  0 <= s -> Qfloor (rem s 60) = (Qfloor s mod 60)%Z.
Proof.
  intro H0.
  destruct (floor_split s) as (L & U & E & R0 & R1).
  unfold rem, trunc.
  assert (P : 0 <= s / 60).
  { unfold Qdiv. change (/ 60) with (1 # 60). lra. }
  destruct (Qlt_le_dec (s / 60) 0) as [N | _]; [lra |].
  rewrite floor_of_minutes.
  apply Qfloor_unique; rewrite ?inject_Z_plus;
    change (inject_Z 1) with 1; lra.
Qed.

Lemma toString_small_integer (n : Z) :
  (0 <= n < 100)%Z ->
  toString formatOther (inject_Z n) = NilZero.string_of_int (Z.to_int n).
Proof.
  intro H. unfold toString, is_integer.
  rewrite Qfloor_Z.
  assert (E : Qeq_bool (inject_Z n) (inject_Z n) = true)
    by (apply Qeq_bool_iff; reflexivity).
  rewrite E.
  assert (B : Qle_bool (10 ^ 21) (Qabs (inject_Z n)) = false).
  { destruct (Qle_bool (10 ^ 21) (Qabs (inject_Z n))) eqn:Q;
      [| reflexivity].
    apply Qle_bool_iff in Q.
    rewrite Qabs_pos in Q
      by (change 0 with (inject_Z 0); rewrite <- Zle_Qle; lia).
    assert (T : inject_Z n <= 100)
      by (change 100 with (inject_Z 100); rewrite <- Zle_Qle; lia).
    assert (F : 100 < 10 ^ 21) by reflexivity.
    lra. }
  now rewrite B.
Qed.

Lemma padStart2_two_digits (n : Z) :
  (0 <= n < 100)%Z ->
  padStart2 (NilZero.string_of_int (Z.to_int n)) = two_digits n.
Proof.
  intro H.
  assert (A : forallb pads_as_two_digits (seq 0 100) = true)
    by (vm_compute; reflexivity).
  rewrite forallb_forall in A.
  specialize (A (Z.to_nat n)).
  unfold pads_as_two_digits in A.
  rewrite Z2Nat.id in A by lia.
  apply String.eqb_eq. apply A. apply in_seq. lia.
Qed.

(** X12: Up to a hundred minutes, a duration is shown as five characters
    [mm:ss]: the whole seconds of the duration, split into minutes and
    seconds, each with two decimal digits.  Fractions of a second are
    dropped, not rounded. *)
Theorem formatDuration_shows_whole_seconds (seconds : number) :
  0 <= seconds -> seconds < 6000 ->
  formatDuration formatOther seconds
  = (two_digits (Qfloor seconds / 60) ++ ":"
     ++ two_digits (Qfloor seconds mod 60))%string
  /\ String.length (formatDuration formatOther seconds) = 5%nat.
Proof.
  intros H0 H1.
  assert (F0 : (0 <= Qfloor seconds)%Z).
  { change 0%Z with (Qfloor 0). now apply Qfloor_resp_le. }
  assert (F1 : (Qfloor seconds < 6000)%Z).
  { rewrite Zlt_Qlt. apply Qle_lt_trans with seconds;
      [apply Qfloor_le | exact H1]. }
  assert (M : (0 <= Qfloor seconds / 60 < 100)%Z).
  { split; [apply Z.div_pos; lia | apply Z.div_lt_upper_bound; lia]. }
  assert (R : (0 <= Qfloor seconds mod 60 < 100)%Z).
  { pose proof (Z.mod_pos_bound (Qfloor seconds) 60). lia. }
  assert (E : formatDuration formatOther seconds
              = (two_digits (Qfloor seconds / 60) ++ ":"
                 ++ two_digits (Qfloor seconds mod 60))%string).
  { unfold formatDuration, Math_floor.
    rewrite floor_of_minutes, (floor_of_remainder H0).
    rewrite !toString_small_integer by assumption.
    now rewrite !padStart2_two_digits by assumption. }
  split; [exact E | rewrite E; reflexivity].
Qed.

End FormatDuration.

Section FormatDurationWitness.

Import Js JsMore Command FileUtils.
Local Open Scope Q_scope.

Lemma formatDuration_shows_whole_seconds_witness :
  formatDuration (fun _ => "?"%string) (1259 # 10) = "02:05"%string.
Proof.
  assert (H0 : 0 <= 1259 # 10) by discriminate.
  assert (H1 : 1259 # 10 < 6000) by reflexivity.
  destruct (@formatDuration_shows_whole_seconds (fun _ => "?"%string)
              (1259 # 10) H0 H1) as [E _].
  rewrite E. reflexivity.
Defined.

End FormatDurationWitness.

(* ================================================================== *)
(** ** The export settings                                             *)
(* ================================================================== *)

Section ExportPanelProperties.

Import Js Constants Quality ExportPanel.
Local Open Scope Q_scope.

Lemma edit_keeps_settings_ok (s : ExportSettings.t) (e : Edit) :
  in_slider_range e -> settings_ok s -> settings_ok (edit s e).
Proof.
  unfold settings_ok, preset_agrees.
  intros R (P & L & U). destruct e as [f | p | q]; cbn.
  - auto.
  - destruct p; cbn; repeat split; discriminate.
  - cbn in R. tauto.
Qed.

(** X13: Whatever the user does to the export settings, a preset that is
    shown is the source of the quality, the quality stays within the
    range of the slider, and the compression parameter of the command
    is the one of the preset: 18 for high, 23 for medium, 28 for
    low. *)
Theorem preset_and_quality_stay_consistent (edits : list Edit) :
  Forall in_slider_range edits ->
  let s := fold_left edit edits initialSettings in
  preset_agrees s
  /\ 40 <= ExportSettings.quality s
  /\ ExportSettings.quality s <= 100
  /\ (forall p, ExportSettings.preset s = Some p ->
                qualityToCRF (ExportSettings.quality s)
                = match p with
                  | high => 18
                  | medium => 23
                  | low => 28
                  end).
Proof.
  intros HF s.
  assert (G : forall s0, settings_ok s0 ->
              settings_ok (fold_left edit edits s0)).
  { induction HF as [| e rest He _ IH]; intros s0 K; cbn [fold_left].
    - exact K.
    - apply IH. now apply edit_keeps_settings_ok. }
  assert (K : settings_ok s).
  { apply G. repeat split; discriminate. }
  destruct K as (P & L & U). repeat split; try assumption.
  intros p Hp. unfold preset_agrees in P. rewrite Hp in P.
  rewrite P. now destruct p.
Qed.

End ExportPanelProperties.

(* ================================================================== *)
(** ** The clip preview                                                *)
(* ================================================================== *)

Section ClipPreviewProperties.

Import Js ClipPreview.
Local Open Scope Q_scope.


End ClipPreviewProperties.

Section PanelAndPreviewWitnesses.

Import Js Constants Quality ExportPanel ClipPreview Samples.
Local Open Scope Q_scope.

Lemma preset_and_quality_stay_consistent_witness :
  let s := fold_left edit
             [QualityChange 85; FormatChange gif; PresetChange low]
             initialSettings in
  ExportSettings.preset s = Some low
  /\ qualityToCRF (ExportSettings.quality s) = 28.
Proof.
  destruct (@preset_and_quality_stay_consistent
              [QualityChange 85; FormatChange gif; PresetChange low])
    as (_ & _ & _ & C).
  - repeat constructor; discriminate.
  - split; [reflexivity | exact (C low eq_refl)].
Defined.


End PanelAndPreviewWitnesses.

(* ================================================================== *)
(** ** Engine initialization: loading once, falling back               *)
(* ================================================================== *)

Section CountFacts.

Import Effects ProcessorExtras.

Lemma filter_progress (f : Event -> bool) (ps : list ExportProgress) :
  (forall p, f (Progress p) = false) ->
  filter f (map Progress ps) = [].
Proof.
  intro H. induction ps as [| p ps IH]; cbn; [reflexivity |].
  now rewrite H.
Qed.

Lemma quiet_refl (w : World) : quiet w w.
Proof. repeat split. Qed.

Lemma quiet_trans (w1 w2 w3 : World) :
  quiet w1 w2 -> quiet w2 w3 -> quiet w1 w3.
Proof.
  unfold quiet. intros (A & B & C & D & E) (A' & B' & C' & D' & E').
  repeat split; congruence.
Qed.

End CountFacts.

(** Counts the events of a trace that grew by explicit events. *)
Ltac count_events :=
  unfold ProcessorExtras.quiet, Effects.execs, Effects.deliveries,
    ProcessorExtras.removals, ProcessorExtras.calls,
    ProcessorExtras.failed_transcodes, Effects.exec_calls,
    Effects.delivered in *;
  cbn [Effects.trace Effects.isLoaded Effects.isFFmpegInitialized] in *;
  rewrite ?filter_app, ?length_app in *;
  rewrite ?filter_progress in * by reflexivity;
  cbn [filter List.length Effects.is_exec Effects.is_delivered
       ProcessorExtras.is_removed ProcessorExtras.is_call
       ProcessorExtras.is_failed_transcode app] in *.

Section InitializeOnce.

Import Js Effects VideoProcessor ProcessorExtras.
Local Open Scope string_scope.

Variable env : Env.
Variable onProgress : option (number -> list ExportProgress).

Lemma loadFrom_quiet (baseURL : string) (w : World) :
  quiet w (snd (loadFrom env onProgress baseURL w)).
Proof.
  unfold loadFrom.
  repeat (run_env;
          try match goal with
              | |- context [report onProgress ?r ?w0] =>
                  let ps := fresh "ps" in
                  let E := fresh "E" in
                  destruct (report_frame onProgress r w0) as [ps E];
                  rewrite E
              end);
    count_events; repeat split; lia.
Qed.

Lemma tryCdnSources_quiet (sources : list string) :
  forall w : World,
    exists (loadSuccess : bool) (w' : World),
      tryCdnSources env onProgress sources w = (Ok loadSuccess, w')
      /\ quiet w w'.
Proof.
  induction sources as [| baseURL rest IH]; intro w.
  - exists false, w. split; [reflexivity | apply quiet_refl].
  - cbn [tryCdnSources].
    pose proof (loadFrom_quiet baseURL w) as Q.
    unfold warnLoadFailure. run_monad.
    destruct (loadFrom env onProgress baseURL w) as [[[] | e] w1];
      cbn [snd] in Q.
    + run_monad. exists true, w1. split; [reflexivity | exact Q].
    + run_monad.
      match goal with
      | |- context [tryCdnSources env onProgress rest ?w2] =>
          destruct (IH w2) as (b & w' & R & Q')
      end.
      rewrite R. exists b, w'. split; [reflexivity |].
      apply (quiet_trans Q). refine (quiet_trans _ Q').
      count_events. repeat split; lia.
Qed.

(** X15: [initialize] asks for no transcode and delivers nothing.  When it
    returns the engine is loaded and a further call, with whatever
    callback, does nothing at all; when it throws the engine is not
    loaded, and the error is always the same one. *)
Theorem initialize_loads_at_most_once (w w' : World) (r : Result unit) :
  initialize env onProgress w = (r, w') ->
  execs w' = execs w /\ deliveries w' = deliveries w
  /\ match r with
     | Ok _ =>
         isLoaded w' = true
         /\ (forall onProgress',
               initialize env onProgress' w' = (Ok tt, w'))
     | Throw e =>
         isLoaded w = false /\ isLoaded w' = false
         /\ e = initializationError
     end.
Proof.
  unfold initialize. run_monad.
  destruct (isLoaded w) eqn:L.
  - intro H. injection H as <- <-.
    repeat split; try assumption.
    intro p. run_monad. now rewrite L.
  - run_monad.
    match goal with
    | |- context [tryCdnSources env onProgress cdnSources ?w1] =>
        destruct (tryCdnSources_quiet cdnSources w1)
          as (b & w2 & R & Q)
    end.
    rewrite R. destruct b; run_monad; intro H; injection H as <- <-;
      count_events; destruct Q as (Q1 & Q2 & Q3 & Q4 & Q5);
      cbn [isLoaded isFFmpegInitialized trace] in *.
    + repeat split; try lia.
    + repeat split; try lia; congruence.
Qed.

End InitializeOnce.

Section InitializeFallback.

Import Js Effects VideoProcessor ProcessorExtras.
Local Open Scope string_scope.

Variable env : Env.
Variable onProgress : option (number -> list ExportProgress).

Lemma failedAttempts_warn (before : list string) :
  forall w w1 : World,
    failedAttempts env onProgress before w = Some w1 ->
    List.length (warnings (trace w1))
    = (List.length (warnings (trace w)) + List.length before)%nat.
Proof.
  induction before as [| baseURL rest IH]; intros w w1 H.
  - injection H as <-. cbn. lia.
  - cbn [failedAttempts] in H.
    pose proof (loadFrom_frame env onProgress baseURL w) as [_ FW].
    destruct (loadFrom env onProgress baseURL w) as [[[] | e] w0];
      [discriminate |].
    apply IH in H. rewrite H. unfold warnLoadFailure. run_monad.
    cbn [snd] in FW.
    rewrite warnings_app, length_app, FW. cbn. lia.
Qed.

Lemma tryCdnSources_stops_at_first_load (before : list string) :
  forall (w w1 w2 : World) (baseURL : string) (after : list string),
    failedAttempts env onProgress before w = Some w1 ->
    loadFrom env onProgress baseURL w1 = (Ok tt, w2) ->
    tryCdnSources env onProgress (before ++ baseURL :: after) w
    = (Ok true, w2).
Proof.
  induction before as [| b rest IH];
    intros w w1 w2 baseURL after H L.
  - injection H as <-. cbn [app tryCdnSources]. run_monad.
    now rewrite L.
  - cbn [failedAttempts] in H. cbn [app tryCdnSources].
    unfold warnLoadFailure in *. run_monad.
    destruct (loadFrom env onProgress b w) as [[[] | e] w0];
      [discriminate |].
    run_monad. now apply (IH _ w1 w2).
Qed.

(** X16: The sources are tried in order until one loads: when the sources
    before a source all fail and that source loads, [initialize]
    returns with the engine loaded, it has warned once for each source
    that failed, and the run ends with the successful attempt, so the
    sources after it are not touched. *)
Theorem initialize_stops_at_first_working_source
    (before after : list string) (baseURL : string)
    (w w1 w2 : World) :
  isLoaded w = false ->
  cdnSources = (before ++ baseURL :: after)%list ->
  failedAttempts env onProgress before
    (snd (console console_log "开始初始化FFmpeg..." None w)) = Some w1 ->
  loadFrom env onProgress baseURL w1 = (Ok tt, w2) ->
  exists w',
    initialize env onProgress w = (Ok tt, w')
    /\ isLoaded w' = true
    /\ trace w' = (trace w2 ++ [Console console_log "FFmpeg加载成功！" None])%list
    /\ List.length (warnings (trace w'))
       = (List.length (warnings (trace w)) + List.length before)%nat.
Proof.
  intros Hl Hs Hf Hok.
  pose proof (@failedAttempts_warn before _ _ Hf) as W.
  pose proof (loadFrom_frame env onProgress baseURL w1) as [_ FW].
  rewrite Hok in FW. cbn [snd] in FW.
  pose proof (@tryCdnSources_stops_at_first_load before _ _ _ _ after
                Hf Hok) as R.
  unfold initialize. run_monad. rewrite Hl. run_monad.
  rewrite Hs, R. run_monad.
  eexists. split; [reflexivity |]. cbn [isLoaded trace].
  repeat split.
  rewrite warnings_app, length_app, FW, W, warnings_app, length_app.
  cbn. lia.
Qed.

End InitializeFallback.

Section InitializeWitnesses.

Import Js Effects VideoProcessor ProcessorExtras Samples MoreSamples.
Local Open Scope string_scope.

Lemma initialize_loads_at_most_once_witness :
  let w' := snd (initialize all_is_well None fresh_world) in
  isLoaded w' = true
  /\ initialize all_is_well None w' = (Ok tt, w').
Proof.
  destruct (@initialize_loads_at_most_once all_is_well None fresh_world
              (snd (initialize all_is_well None fresh_world)) (Ok tt))
    as (_ & _ & L & I).
  - vm_compute. reflexivity.
  - split; [exact L | apply I].
Defined.

Lemma initialize_stops_at_first_working_source_witness :
  let run := initialize only_third_source None fresh_world in
  fst run = Ok tt
  /\ isLoaded (snd run) = true
  /\ List.length (warnings (trace (snd run))) = 2%nat.
Proof.
  pose (w0 := snd (console console_log "开始初始化FFmpeg..." None
                     fresh_world)).
  pose (w1 := match failedAttempts only_third_source None
                      ["https://unpkg.com/@ffmpeg/core@0.12.6/dist/esm";
                       "https://cdn.jsdelivr.net/npm/@ffmpeg/core@0.12.6/dist/esm"]
                      w0 with
              | Some w1 => w1
              | None => fresh_world
              end).
  destruct (@initialize_stops_at_first_working_source only_third_source
              None
              ["https://unpkg.com/@ffmpeg/core@0.12.6/dist/esm";
               "https://cdn.jsdelivr.net/npm/@ffmpeg/core@0.12.6/dist/esm"]
              []
              "https://unpkg.com/@ffmpeg/core-mt@0.12.6/dist/esm"
              fresh_world w1
              (snd (loadFrom only_third_source None
                      "https://unpkg.com/@ffmpeg/core-mt@0.12.6/dist/esm"
                      w1)))
    as (w' & R & L & _ & W).
  - reflexivity.
  - reflexivity.
  - vm_compute. reflexivity.
  - vm_compute. reflexivity.
  - cbv zeta. rewrite R. cbn [fst snd]. repeat split; assumption.
Defined.

End InitializeWitnesses.

(* ================================================================== *)
(** ** Processing a clip: how it fails                                 *)
(* ================================================================== *)

Section ProcessFailures.

Import Js Effects VideoProcessor ProcessorExtras.
Local Open Scope string_scope.

Variable formatOther : number -> string.
Variable env : Env.

(** X17: [processVideoClip] changes no flag and delivers nothing.  When it
    returns, the engine was loaded, one transcode was asked for, the
    blob has the MIME type of the format and both temporary files
    were removed.  When it throws, either the engine was not loaded
    and nothing at all was done, or an external call threw: the error
    thrown on is "视频处理失败: " followed by the message of that
    call's error, which is logged; the temporary files are then not
    both removed, and not at all when it was the transcode or the
    read-back that failed. *)
Theorem processVideoClip_outcomes (videoFile : File)
    (clip : ClipSegment.t) (settings : ExportSettings.t)
    (w w' : World) (r : Result Blob) :
  processVideoClip formatOther env videoFile clip settings w = (r, w') ->
  isLoaded w' = isLoaded w
  /\ isFFmpegInitialized w' = isFFmpegInitialized w
  /\ deliveries w' = deliveries w
  /\ match r with
     | Ok blob =>
         isLoaded w = true
         /\ execs w' = (execs w + 1)%nat
         /\ removals w' = (removals w + 2)%nat
         /\ blob_type blob
            = match ExportSettings.format settings with
              | mp4 => "video/mp4"
              | gif => "image/gif"
              end
     | Throw e =>
         (isLoaded w = false /\ w' = w
          /\ e = mkError "FFmpeg未初始化，请先调用initialize()")
         \/ (isLoaded w = true
             /\ (exists (history : list Event) (c : ExtCall)
                        (cause : JsError),
                    trace w'
                    = (history
                       ++ [Called c (Some cause);
                           Console console_error "视频处理失败:"
                             (Some cause)])%list
                    /\ e = mkError ("视频处理失败: " ++ message cause))
             /\ (execs w' <= execs w + 1)%nat
             /\ (removals w' <= removals w + 1)%nat
             /\ (failed_transcodes w' <> failed_transcodes w ->
                 removals w' = removals w))
     end.
Proof.
  unfold processVideoClip. run_monad.
  destruct (isLoaded w) eqn:L; run_env; intro H;
    injection H as <- <-; cbn [isLoaded isFFmpegInitialized];
    (split; [assumption || reflexivity |]);
    (split; [reflexivity |]);
    (split; [count_events; lia |]);
    try (left; repeat split; reflexivity);
    try (right; split; [reflexivity |];
         split;
         [ do 3 eexists; cbn [trace]; split;
           [rewrite <- app_assoc; reflexivity | reflexivity]
         | count_events; repeat split; lia ]);
    try (split; [reflexivity |]; count_events; repeat split; lia).
Qed.

End ProcessFailures.

(* ================================================================== *)
(** ** Export: what the steps do to the world                          *)
(* ================================================================== *)

Section ExportSteps.

Import Js Effects VideoProcessor ExportHandler ProcessorExtras.
Import ExportHandlerExtras.
Local Open Scope string_scope.

Variable formatOther : number -> string.
Variable env : Env.

Lemma initialize_effect
    (onProgress : option (number -> list ExportProgress))
    (w : World) :
  match initialize env onProgress w with
  | (Ok _, w') => quiet_but_loaded w w'
  | (Throw e, w') =>
      quiet w w' /\ isLoaded w = false /\ e = initializationError
  end.
Proof.
  unfold initialize, quiet_but_loaded. run_monad.
  destruct (isLoaded w) eqn:L.
  - repeat split; try assumption. now right.
  - run_monad.
    match goal with
    | |- context [tryCdnSources env onProgress cdnSources ?w1] =>
        destruct (tryCdnSources_quiet env onProgress cdnSources w1)
          as (b & w2 & R & Q)
    end.
    rewrite R. destruct b; run_monad;
      count_events; destruct Q as (Q1 & Q2 & Q3 & Q4 & Q5);
      cbn [isLoaded isFFmpegInitialized trace] in *;
      repeat split; try lia; try congruence; now right.
Qed.

Lemma initializeFFmpeg_effect
    (onProgress : option (number -> list ExportProgress))
    (w : World) :
  flags_agree w ->
  match initializeFFmpeg env onProgress w with
  | (Ok _, w') =>
      quiet_but_loaded w w' /\ isFFmpegInitialized w' = true
      /\ isLoaded w' = true
  | (Throw e, w') =>
      quiet w w' /\ isFFmpegInitialized w = false
      /\ e = mkError ("FFmpeg初始化失败: " ++ message initializationError)
  end.
Proof.
  intro FA. unfold initializeFFmpeg. run_monad.
  destruct (isFFmpegInitialized w) eqn:I.
  - unfold quiet_but_loaded. repeat split; auto.
  - run_monad. pose proof (initialize_effect onProgress w) as E.
    destruct (initialize env onProgress w) as [[[] | e] w1];
      run_monad.
    + unfold quiet_but_loaded in *.
      destruct E as (E1 & E2 & E3 & E4 & E5).
      count_events. repeat split; try lia; try congruence; now left.
    + destruct E as (Q & L & ->). split; [exact Q |].
      split; reflexivity.
Qed.

End ExportSteps.

(* ================================================================== *)
(** ** Exporting one clip                                              *)
(* ================================================================== *)

(** Closes a goal about a run whose final world is explicit. *)
Ltac finish_export :=
  let H := fresh "H" in
  intro H; injection H as <- <-;
  (split;
   [ unfold ExportHandlerExtras.flags_agree;
     cbn [Effects.isLoaded Effects.isFFmpegInitialized];
     intros; congruence
   | ]);
  count_events;
  repeat split; try lia; try (intros; congruence);
  try (eexists;
       first [ reflexivity
             | rewrite <- app_assoc; reflexivity
             | rewrite app_nil_r; reflexivity ]).

Section SingleExport.

Import Js Effects VideoProcessor ExportHandler ProcessorExtras.
Import ExportHandlerExtras.
Local Open Scope string_scope.

Variable formatOther : number -> string.
Variable env : Env.

(** X18: A single export either returns, having asked for one transcode and
    delivered one file, its last report being "completed" at 100; or
    it throws the error of the step that failed, having delivered
    nothing, after logging that error and reporting the status
    "error" with the error's message.  If the handler still is not
    initialized afterwards, it was the engine that did not load: no
    transcode was asked for.  Either way the engine is loaded whenever
    the handler believes it is. *)
Theorem exportSingleClip_outcomes (clip : ClipSegment.t)
    (mediaFile : MediaFile.t) (settings : ExportSettings.t)
    (onProgress : bool) (w w' : World) (r : Result unit) :
  flags_agree w ->
  exportSingleClip formatOther env clip mediaFile settings onProgress w
  = (r, w') ->
  flags_agree w'
  /\ match r with
     | Ok _ =>
         execs w' = (execs w + 1)%nat
         /\ deliveries w' = (deliveries w + 1)%nat
         /\ isFFmpegInitialized w' = true
         /\ exists history,
              trace w'
              = (history
                 ++ (if onProgress
                     then [Progress
                             {| clipIndex := 1; clipTotal := 1;
                                processingProgress := 100;
                                status := Status.completed;
                                progress_message := "导出完成！" |}]
                     else []))%list
     | Throw e =>
         deliveries w' = deliveries w
         /\ (execs w' <= execs w + 1)%nat
         /\ (isFFmpegInitialized w' = false ->
             execs w' = execs w
             /\ e = mkError ("FFmpeg初始化失败: "
                             ++ message initializationError))
         /\ exists history,
              trace w'
              = (history
                 ++ Console console_error "单个片段导出失败:" (Some e)
                    :: (if onProgress
                        then [Progress
                                {| clipIndex := 1; clipTotal := 1;
                                   processingProgress := 0;
                                   status := Status.error;
                                   progress_message :=
                                     "导出失败: " ++ message e |}]
                        else []))%list
     end.
Proof.
  intros FA. unfold exportSingleClip. run_monad.
  destruct onProgress; run_monad;
    (destruct (isFFmpegInitialized w) eqn:I; run_monad;
     [ pose proof (FA I) as L;
       unfold processVideoClip, generateFileName, downloadFile;
       run_monad; rewrite L; run_env; finish_export
     | match goal with
       | |- context [initializeFFmpeg env ?cb ?w0] =>
           let E := fresh "E" in
           assert (E : flags_agree w0)
             by (unfold flags_agree; cbn [isLoaded isFFmpegInitialized];
                 congruence);
           apply (initializeFFmpeg_effect env cb) in E;
           destruct (initializeFFmpeg env cb w0) as [[[] | e] w1]
       end;
       [ destruct E as ((E1 & E2 & E3 & E4 & E5) & E6 & E7);
         unfold processVideoClip, generateFileName, downloadFile;
         run_monad; rewrite E7; run_env; finish_export
       | destruct E as ((Q1 & Q2 & Q3 & Q4 & Q5) & _ & ->);
         run_monad; finish_export ] ]).
Qed.

End SingleExport.

Section ExportWitnesses.

Import Js Effects VideoProcessor ExportHandler ProcessorExtras.
Import ExportHandlerExtras Samples MoreSamples.
Local Open Scope string_scope.

(** The engine refusing the transcode: the error names the cause and
    no temporary file is removed. *)
Lemma processVideoClip_outcomes_witness :
  let run :=
    processVideoClip (fun _ => "?") exec_always_fails [] sample_clip
      sample_mp4_settings ready_world in
  fst run = Throw (mkError "视频处理失败: engine crashed")
  /\ deliveries (snd run) = 0%nat
  /\ removals (snd run) = 0%nat.
Proof.
  assert (R : processVideoClip (fun _ => "?") exec_always_fails []
                sample_clip sample_mp4_settings ready_world
              = (Throw (mkError "视频处理失败: engine crashed"),
                 snd (processVideoClip (fun _ => "?") exec_always_fails
                        [] sample_clip sample_mp4_settings ready_world)))
    by (vm_compute; reflexivity).
  destruct (@processVideoClip_outcomes (fun _ => "?") exec_always_fails
              [] sample_clip sample_mp4_settings ready_world _ _ R)
    as (_ & _ & D & [(L & _) | (_ & _ & _ & _ & F)]).
  - discriminate L.
  - cbv zeta. rewrite R. cbn [fst snd]. split; [reflexivity |].
    split; [exact D |]. apply F. vm_compute. discriminate.
Defined.

(** A first export with everything working: the engine is loaded on
    the way, one transcode is asked for and one file delivered. *)
Lemma exportSingleClip_outcomes_witness :
  let w' :=
    snd (exportSingleClip (fun _ => "?") all_is_well first_clip
           (media_of hd_video) sample_mp4_settings true fresh_world) in
  flags_agree w'
  /\ execs w' = 1%nat
  /\ deliveries w' = 1%nat
  /\ isFFmpegInitialized w' = true.
Proof.
  assert (FA : flags_agree fresh_world) by (intro H; discriminate H).
  assert (R : exportSingleClip (fun _ => "?") all_is_well first_clip
                (media_of hd_video) sample_mp4_settings true fresh_world
              = (Ok tt,
                 snd (exportSingleClip (fun _ => "?") all_is_well
                        first_clip (media_of hd_video)
                        sample_mp4_settings true fresh_world)))
    by (vm_compute; reflexivity).
  destruct (@exportSingleClip_outcomes (fun _ => "?") all_is_well
              first_clip (media_of hd_video) sample_mp4_settings true
              fresh_world _ _ FA R)
    as (A & E & D & I & _).
  cbv zeta. split; [exact A |].
  split; [rewrite E; reflexivity |].
  split; [rewrite D; reflexivity | exact I].
Defined.

End ExportWitnesses.

(* ================================================================== *)
(** ** Exporting a batch                                               *)
(* ================================================================== *)

Section BatchExport.

Import Js Effects VideoProcessor ExportHandler ProcessorExtras.
Import ExportHandlerExtras.
Local Open Scope string_scope.

Variable formatOther : number -> string.
Variable env : Env.
Variable mediaFile : MediaFile.t.
Variable settings : ExportSettings.t.
Variable onProgress : bool.
Variable total : nat.

Lemma exportClipAt_step (i : nat) (clip : ClipSegment.t) (w : World) :
  match exportClipAt formatOther env mediaFile settings onProgress
          total i clip w with
  | (Ok _, w') =>
      isLoaded w' = isLoaded w
      /\ isFFmpegInitialized w' = isFFmpegInitialized w
      /\ execs w' = (execs w + 1)%nat
      /\ deliveries w' = (deliveries w + 1)%nat
  | (Throw _, w') =>
      isLoaded w' = isLoaded w
      /\ isFFmpegInitialized w' = isFFmpegInitialized w
      /\ (execs w <= execs w')%nat
      /\ (execs w' <= execs w + 1)%nat
      /\ deliveries w' = deliveries w
  end.
Proof.
  unfold exportClipAt, processVideoClip, generateFileName, downloadFile.
  destruct onProgress; run_monad;
    (destruct (isLoaded w) eqn:L; run_env; count_events;
     repeat split; try lia; try assumption; reflexivity).
Qed.

(** The loop delivers the clips one after the other: when it throws,
    the clips before the failing one were transcoded and delivered,
    and at most one more transcode was asked for. *)
Lemma exportLoop_effect (clips : list ClipSegment.t) :
  forall (i : nat) (w : World),
    match exportLoop formatOther env mediaFile settings onProgress
            total i clips w with
    | (Ok _, w') =>
        isLoaded w' = isLoaded w
        /\ isFFmpegInitialized w' = isFFmpegInitialized w
        /\ execs w' = (execs w + List.length clips)%nat
        /\ deliveries w' = (deliveries w + List.length clips)%nat
    | (Throw _, w') =>
        isLoaded w' = isLoaded w
        /\ isFFmpegInitialized w' = isFFmpegInitialized w
        /\ exists delivered : nat,
             (delivered < List.length clips)%nat
             /\ deliveries w' = (deliveries w + delivered)%nat
             /\ (execs w + delivered <= execs w')%nat
             /\ (execs w' <= execs w + delivered + 1)%nat
    end.
Proof.
  induction clips as [| clip rest IH]; intros i w.
  - cbn. repeat split; lia.
  - cbn [exportLoop]. unfold bind.
    pose proof (exportClipAt_step i clip w) as E.
    destruct (exportClipAt _ _ _ _ _ _ i clip w) as [[[] | e] w1].
    + destruct E as (E1 & E2 & E3 & E4).
      specialize (IH (S i) w1).
      destruct (exportLoop _ _ _ _ _ _ (S i) rest w1)
        as [[[] | e] w2]; cbn [List.length].
      * destruct IH as (I1 & I2 & I3 & I4).
        repeat split; try congruence; lia.
      * destruct IH as (I1 & I2 & d & I3 & I4 & I5 & I6).
        split; [congruence |]. split; [congruence |].
        exists (S d). repeat split; lia.
    + destruct E as (E1 & E2 & E3 & E4 & E5). cbn [List.length].
      split; [assumption |]. split; [assumption |].
      exists 0%nat. repeat split; lia.
Qed.

End BatchExport.
Section BatchOutcomes.

Import Js Effects VideoProcessor ExportHandler ProcessorExtras.
Import ExportHandlerExtras.
Local Open Scope string_scope.

Variable formatOther : number -> string.
Variable env : Env.

(** X19: A batch export either returns, having transcoded and delivered
    every clip, its last report being "completed" at 100; or it
    throws, after logging the error and reporting the status "error"
    with the error's message.  When it throws, the files delivered
    are those of the clips before the failing one, so fewer than the
    clips of a batch that has any, and at most one transcode was
    asked for beyond them.  If the handler still is not initialized
    afterwards, it was the engine that did not load: no transcode was
    asked for and nothing was delivered. *)
Theorem exportMultipleClips_outcomes (clips : list ClipSegment.t)
    (mediaFile : MediaFile.t) (settings : ExportSettings.t)
    (onProgress : bool) (w w' : World) (r : Result unit) :
  flags_agree w ->
  exportMultipleClips formatOther env clips mediaFile settings
    onProgress w = (r, w') ->
  flags_agree w'
  /\ match r with
     | Ok _ =>
         execs w' = (execs w + List.length clips)%nat
         /\ deliveries w' = (deliveries w + List.length clips)%nat
         /\ isFFmpegInitialized w' = true
         /\ exists history,
              trace w'
              = (history
                 ++ (if onProgress
                     then [Progress
                             {| clipIndex := List.length clips;
                                clipTotal := List.length clips;
                                processingProgress := 100;
                                status := Status.completed;
                                progress_message :=
                                  "批量导出完成！共处理 "
                                  ++ Command.toString formatOther
                                       (of_nat (List.length clips))
                                  ++ " 个片段" |}]
                     else []))%list
     | Throw e =>
         (exists delivered : nat,
            (delivered <= List.length clips)%nat
            /\ (clips <> [] -> (delivered < List.length clips)%nat)
            /\ deliveries w' = (deliveries w + delivered)%nat
            /\ (execs w + delivered <= execs w')%nat
            /\ (execs w' <= execs w + delivered + 1)%nat)
         /\ (isFFmpegInitialized w' = false ->
             execs w' = execs w /\ deliveries w' = deliveries w
             /\ e = mkError ("FFmpeg初始化失败: "
                             ++ message initializationError))
         /\ exists history,
              trace w'
              = (history
                 ++ Console console_error "批量导出失败:" (Some e)
                    :: (if onProgress
                        then [Progress
                                {| clipIndex := 0;
                                   clipTotal := List.length clips;
                                   processingProgress := 0;
                                   status := Status.error;
                                   progress_message :=
                                     "批量导出失败: " ++ message e |}]
                        else []))%list
     end.
Proof.
  intros FA. unfold exportMultipleClips, ensureInitialized. run_monad.
  destruct (isFFmpegInitialized w) eqn:I; run_monad.
  - pose proof (FA I) as L.
    pose proof (exportLoop_effect formatOther env mediaFile settings
                  onProgress (List.length clips) clips 0 w) as E.
    destruct (exportLoop _ _ _ _ _ _ 0 clips w) as [[[] | e] w1].
    + destruct E as (E1 & E2 & E3 & E4).
      destruct onProgress; run_monad; finish_export.
    + destruct E as (E1 & E2 & d & E3 & E4 & E5 & E6).
      destruct onProgress; run_monad; finish_export;
        exists d; repeat split; intros; lia.
  - destruct onProgress; run_monad;
      (match goal with
       | |- context [initializeFFmpeg env ?cb ?w0] =>
          assert (E : flags_agree w0)
            by (unfold flags_agree; cbn [isLoaded isFFmpegInitialized];
                congruence);
          apply (initializeFFmpeg_effect env cb) in E;
          destruct (initializeFFmpeg env cb w0) as [[[] | e] w1]
      end;
      [ destruct E as ((E1 & E2 & E3 & E4 & E5) & E6 & E7);
        match goal with
        | |- context [exportLoop formatOther env mediaFile settings ?b
                        ?n 0 clips ?wx] =>
            pose proof (exportLoop_effect formatOther env mediaFile
                          settings b n clips 0 wx) as F;
            destruct (exportLoop formatOther env mediaFile settings b
                        n 0 clips wx) as [[[] | e] w2]
        end;
        [ destruct F as (F1 & F2 & F3 & F4)
        | destruct F as (F1 & F2 & d & F3 & F4 & F5 & F6) ]
      | destruct E as ((Q1 & Q2 & Q3 & Q4 & Q5) & _ & ->) ];
      run_monad; finish_export;
      first [ match goal with
              | D : (?d < List.length clips)%nat |- _ =>
                  exists d; repeat split; intros; lia
              end
            | exists 0%nat; repeat split; intros; try lia;
              destruct clips; [congruence | cbn; lia] ]).
Qed.

End BatchOutcomes.

Section BatchWitness.

Import Js Effects VideoProcessor ExportHandler ProcessorExtras.
Import ExportHandlerExtras Samples MoreSamples.
Local Open Scope string_scope.

(** A batch of two clips with no source reachable: the engine does
    not load, nothing is transcoded and nothing is delivered. *)
Lemma exportMultipleClips_outcomes_witness :
  let w' :=
    snd (exportMultipleClips (fun _ => "?") (offline "404")
           [first_clip; second_clip] (media_of hd_video)
           sample_mp4_settings true fresh_world) in
  flags_agree w' /\ execs w' = 0%nat /\ deliveries w' = 0%nat.
Proof.
  assert (FA : flags_agree fresh_world) by (intro H; discriminate H).
  assert (R : exportMultipleClips (fun _ => "?") (offline "404")
                [first_clip; second_clip] (media_of hd_video)
                sample_mp4_settings true fresh_world
              = (Throw (mkError ("FFmpeg初始化失败: "
                                 ++ message initializationError)),
                 snd (exportMultipleClips (fun _ => "?") (offline "404")
                        [first_clip; second_clip] (media_of hd_video)
                        sample_mp4_settings true fresh_world)))
    by (vm_compute; reflexivity).
  destruct (@exportMultipleClips_outcomes (fun _ => "?") (offline "404")
              [first_clip; second_clip] (media_of hd_video)
              sample_mp4_settings true fresh_world _ _ FA R)
    as (A & _ & N & _).
  destruct N as (E & D & _); [vm_compute; reflexivity |].
  cbv zeta. split; [exact A |].
  split; [rewrite E; reflexivity | rewrite D; reflexivity].
Defined.

End BatchWitness.

(* ================================================================== *)
(** ** Thumbnails made by the engine                                   *)
(* ================================================================== *)

Section EngineThumbnails.

Import Js Effects VideoProcessor ExportHandler ProcessorExtras.
Import ExportHandlerExtras.
Local Open Scope string_scope.

Variable formatOther : number -> string.
Variable env : Env.
Variable createObjectURL : Blob -> Result string.

Lemma initialize_keeps_handler_flag
    (onProgress : option (number -> list ExportProgress))
    (w : World) :
  isFFmpegInitialized (snd (initialize env onProgress w))
  = isFFmpegInitialized w.
Proof.
  unfold initialize. run_monad.
  destruct (isLoaded w) eqn:L; [reflexivity |].
  run_monad.
  match goal with
  | |- context [tryCdnSources env onProgress cdnSources ?w1] =>
      destruct (tryCdnSources_quiet env onProgress cdnSources w1)
        as (b & w2 & R & Q)
  end.
  rewrite R. destruct Q as (_ & Q & _).
  destruct b; run_monad; exact Q.
Qed.

(** X20: [VideoProcessor.generateThumbnail] loads the engine itself when
    it is not loaded, and delivers nothing.  When it returns, the
    engine is loaded, one frame was extracted and both temporary
    files were removed.  It throws one of two errors: that of
    [initialize], when the engine was not loaded and did not load,
    no frame having been asked for; or the fixed "缩略图生成失败",
    which hides the message of the failure that was logged. *)
Theorem generateThumbnail_outcomes (videoFile : File)
    (timeInSeconds : number) (cropArea : option CropArea.t)
    (w w' : World) (r : Result string) :
  ProcessorExtras.generateThumbnail formatOther env createObjectURL
    videoFile timeInSeconds cropArea w = (r, w') ->
  deliveries w' = deliveries w
  /\ isFFmpegInitialized w' = isFFmpegInitialized w
  /\ match r with
     | Ok _ =>
         isLoaded w' = true
         /\ execs w' = (execs w + 1)%nat
         /\ removals w' = (removals w + 2)%nat
     | Throw e =>
         (isLoaded w = false /\ isLoaded w' = false
          /\ e = initializationError
          /\ execs w' = execs w)
         \/ (isLoaded w' = true
             /\ e = mkError "缩略图生成失败"
             /\ (execs w' <= execs w + 1)%nat
             /\ exists (history : list Event) (cause : JsError),
                  trace w'
                  = (history
                     ++ [Console console_error "缩略图生成失败:"
                           (Some cause)])%list)
     end.
Proof.
  unfold ProcessorExtras.generateThumbnail. run_monad.
  destruct (isLoaded w) eqn:L; run_monad.
  - run_env; try (destruct (createObjectURL _); run_monad);
      intro H; injection H as <- <-; count_events;
      (split; [lia |]); (split; [reflexivity |]);
      try (repeat split; (assumption || lia));
      try (right; repeat split; try (assumption || lia);
           do 2 eexists; reflexivity).
  - pose proof (initialize_effect env None w) as E.
    pose proof (initialize_keeps_handler_flag None w) as K.
    destruct (initialize env None w) as [[[] | e] w1]; run_monad;
      cbn [snd] in K.
    + destruct E as (E1 & E2 & E3 & E4 & E5).
      run_env; try (destruct (createObjectURL _); run_monad);
        intro H; injection H as <- <-; count_events;
        (split; [lia |]); (split; [exact K |]);
        try (repeat split; (assumption || lia));
        try (right; repeat split; try (assumption || lia);
             do 2 eexists; reflexivity).
    + destruct E as ((Q1 & Q2 & Q3 & Q4 & Q5) & _ & ->).
      intro H; injection H as <- <-.
      split; [exact Q4 |]. split; [exact K |].
      left. repeat split; congruence.
Qed.

(** X21: [ExportHandler.generateThumbnail] never throws: every failure,
    of the initialization or of the engine, is logged and answered
    with the empty string.  It delivers nothing, asks for at most one
    frame, and when it asked for none its answer is the empty
    string. *)
Theorem handler_thumbnail_never_throws (mediaFile : MediaFile.t)
    (clip : ClipSegment.t) (w : World) :
  flags_agree w ->
  exists (url : string) (w' : World),
    ExportHandlerExtras.generateThumbnail formatOther env
      createObjectURL mediaFile clip w = (Ok url, w')
    /\ flags_agree w'
    /\ deliveries w' = deliveries w
    /\ (execs w' <= execs w + 1)%nat
    /\ (execs w' = execs w -> url = "").
Proof.
  intro FA.
  unfold ExportHandlerExtras.generateThumbnail,
    ProcessorExtras.generateThumbnail.
  run_monad.
  destruct (isFFmpegInitialized w) eqn:I; run_monad.
  - rewrite (FA I). run_env;
      try (destruct (createObjectURL _); run_monad);
      do 2 eexists; (split; [reflexivity |]);
      (split; [unfold flags_agree; cbn [isLoaded isFFmpegInitialized];
               intros; now apply FA |]);
      count_events; repeat split; try lia; intros; try reflexivity; lia.
  - pose proof (@initializeFFmpeg_effect env None w) as E.
    assert (FA' : flags_agree w) by exact FA.
    apply E in FA'. clear E.
    destruct (initializeFFmpeg env None w) as [[[] | e] w1]; run_monad.
    + destruct FA' as ((E1 & E2 & E3 & E4 & E5) & E6 & E7).
      rewrite E7. run_env;
        try (destruct (createObjectURL _); run_monad);
        do 2 eexists; (split; [reflexivity |]);
        (split; [unfold flags_agree; cbn [isLoaded isFFmpegInitialized];
                 intros; assumption |]);
        count_events; repeat split; try lia; intros; try reflexivity; lia.
    + destruct FA' as ((Q1 & Q2 & Q3 & Q4 & Q5) & _ & ->).
      do 2 eexists. split; [reflexivity |].
      split; [unfold flags_agree; cbn [isLoaded isFFmpegInitialized];
               intros; congruence |].
      count_events. repeat split; try lia.
Qed.

End EngineThumbnails.

Section ThumbnailWitnesses.

Import Js Effects VideoProcessor ExportHandler ProcessorExtras.
Import ExportHandlerExtras Samples MoreSamples.
Local Open Scope string_scope.

(** A thumbnail asked of an engine that is not loaded yet, everything
    working: the engine is loaded on the way. *)
Lemma generateThumbnail_outcomes_witness :
  let w' :=
    snd (ProcessorExtras.generateThumbnail (fun _ => "?") all_is_well
           (fun _ => Ok "blob:thumbnail") [] 5 None fresh_world) in
  isLoaded w' = true /\ execs w' = 1%nat /\ removals w' = 2%nat.
Proof.
  assert (R : ProcessorExtras.generateThumbnail (fun _ => "?")
                all_is_well (fun _ => Ok "blob:thumbnail") [] 5 None
                fresh_world
              = (Ok "blob:thumbnail",
                 snd (ProcessorExtras.generateThumbnail (fun _ => "?")
                        all_is_well (fun _ => Ok "blob:thumbnail") [] 5
                        None fresh_world)))
    by (vm_compute; reflexivity).
  destruct (@generateThumbnail_outcomes (fun _ => "?") all_is_well
              (fun _ => Ok "blob:thumbnail") [] 5 None fresh_world _ _ R)
    as (_ & _ & L & E & D).
  cbv zeta. split; [exact L |].
  split; [rewrite E; reflexivity | rewrite D; reflexivity].
Defined.

(** A thumbnail asked of an engine that refuses to run: the handler
    answers all the same, and delivers nothing. *)
Lemma handler_thumbnail_never_throws_witness :
  exists (url : string) (w' : World),
    ExportHandlerExtras.generateThumbnail (fun _ => "?")
      exec_always_fails (fun _ => Ok "blob:thumbnail")
      (media_of hd_video) first_clip ready_world = (Ok url, w')
    /\ deliveries w' = 0%nat.
Proof.
  assert (FA : flags_agree ready_world) by (intro H; reflexivity).
  destruct (@handler_thumbnail_never_throws (fun _ => "?")
              exec_always_fails (fun _ => Ok "blob:thumbnail")
              (media_of hd_video) first_clip ready_world FA)
    as (url & w' & R & _ & D & _).
  exists url, w'. split; [exact R | rewrite D; reflexivity].
Defined.

End ThumbnailWitnesses.

(* ================================================================== *)
(** ** Formatting a time                                               *)
(* ================================================================== *)

Section FormatTime.

Import Js JsMore Command FileUtils VideoUtils.
Local Open Scope Q_scope.

Variable formatOther : number -> string.

Lemma floor_of_hours (s : Q) : Qfloor (s / 3600) = (Qfloor s / 3600)%Z.
Proof.
  pose proof (Qfloor_le s) as L.
  pose proof (Qlt_floor s) as U. rewrite inject_Z_plus in U.
  pose proof (Z.div_mod (Qfloor s) 3600 ltac:(lia)) as E.
  pose proof (Z.mod_pos_bound (Qfloor s) 3600 ltac:(lia)) as [R0 R1].
  assert (E' : inject_Z (Qfloor s)
               == 3600 * inject_Z (Qfloor s / 3600)
                  + inject_Z (Qfloor s mod 3600)).
  { rewrite E at 1. rewrite inject_Z_plus, inject_Z_mult. reflexivity. }
  assert (R0' : 0 <= inject_Z (Qfloor s mod 3600))
    by (change 0 with (inject_Z 0); rewrite <- Zle_Qle; lia).
  assert (R1' : inject_Z (Qfloor s mod 3600) <= 3599)
    by (change 3599 with (inject_Z 3599); rewrite <- Zle_Qle; lia).
  apply Qfloor_unique; rewrite ?inject_Z_plus;
    unfold Qdiv; change (/ 3600) with (1 # 3600);
    change (inject_Z 1) with 1 in *; lra.
Qed.

Lemma rem_below_an_hour (s : Q) :
  0 <= s -> s < 3600 -> rem s 3600 == s.
Proof.
  intros H0 H1. unfold rem, trunc.
  assert (P : 0 <= s / 3600).
  { unfold Qdiv. change (/ 3600) with (1 # 3600). lra. }
  destruct (Qlt_le_dec (s / 3600) 0) as [N | _]; [lra |].
  rewrite floor_of_hours.
  assert (F0 : (0 <= Qfloor s)%Z).
  { change 0%Z with (Qfloor 0). now apply Qfloor_resp_le. }
  assert (F1 : (Qfloor s < 3600)%Z).
  { rewrite Zlt_Qlt. apply Qle_lt_trans with s;
      [apply Qfloor_le | exact H1]. }
  rewrite Z.div_small by lia. change (inject_Z 0) with 0. ring.
Qed.

(** X22: Below one hour [formatTime] shows no hours and agrees with
    [formatDuration]: the two formatters of the application give the
    same text. *)
Theorem formatTime_agrees_below_an_hour (seconds : number) :
  0 <= seconds -> seconds < 3600 ->
  formatTime formatOther seconds = formatDuration formatOther seconds.
Proof.
  intros H0 H1. unfold formatTime, formatDuration, Math_floor.
  rewrite floor_of_hours.
  assert (F0 : (0 <= Qfloor seconds)%Z).
  { change 0%Z with (Qfloor 0). now apply Qfloor_resp_le. }
  assert (F1 : (Qfloor seconds < 3600)%Z).
  { rewrite Zlt_Qlt. apply Qle_lt_trans with seconds;
      [apply Qfloor_le | exact H1]. }
  rewrite Z.div_small by lia.
  rewrite gtb_false_intro by (change (inject_Z 0) with 0; lra).
  assert (E : Qfloor (rem seconds 3600 / 60) = Qfloor (seconds / 60)).
  { apply Qfloor_comp. now rewrite rem_below_an_hour. }
  now rewrite E.
Qed.

Lemma floor_minus_hours (s : Q) :
  Qfloor (s - 3600 * inject_Z (Qfloor s / 3600))
  = (Qfloor s mod 3600)%Z.
Proof.
  pose proof (Qfloor_le s) as L.
  pose proof (Qlt_floor s) as U. rewrite inject_Z_plus in U.
  pose proof (Z.div_mod (Qfloor s) 3600 ltac:(lia)) as E.
  assert (E' : inject_Z (Qfloor s)
               == 3600 * inject_Z (Qfloor s / 3600)
                  + inject_Z (Qfloor s mod 3600)).
  { rewrite E at 1. rewrite inject_Z_plus, inject_Z_mult. reflexivity. }
  apply Qfloor_unique; rewrite ?inject_Z_plus;
    change (inject_Z 1) with 1 in *; lra.
Qed.

(** X23: From one hour up to a hundred, [formatTime] shows eight
    characters [hh:mm:ss]: the whole seconds of the time split into
    hours, minutes and seconds, each with two decimal digits. *)
Theorem formatTime_shows_hours (seconds : number) :
  3600 <= seconds -> seconds < 360000 ->
  formatTime formatOther seconds
  = (two_digits (Qfloor seconds / 3600) ++ ":"
     ++ two_digits (Qfloor seconds mod 3600 / 60) ++ ":"
     ++ two_digits (Qfloor seconds mod 60))%string
  /\ String.length (formatTime formatOther seconds) = 8%nat.
Proof.
  intros H0 H1.
  assert (F0 : (3600 <= Qfloor seconds)%Z).
  { change 3600%Z with (Qfloor 3600). now apply Qfloor_resp_le. }
  assert (F1 : (Qfloor seconds < 360000)%Z).
  { rewrite Zlt_Qlt. apply Qle_lt_trans with seconds;
      [apply Qfloor_le | exact H1]. }
  assert (Hh : (1 <= Qfloor seconds / 3600 < 100)%Z).
  { split; [apply Z.div_le_lower_bound; lia
           | apply Z.div_lt_upper_bound; lia]. }
  pose proof (Z.mod_pos_bound (Qfloor seconds) 3600 ltac:(lia)) as HR.
  assert (Hm : (0 <= Qfloor seconds mod 3600 / 60 < 100)%Z).
  { split; [apply Z.div_pos; lia | apply Z.div_lt_upper_bound; lia]. }
  assert (Hs : (0 <= Qfloor seconds mod 60 < 100)%Z).
  { pose proof (Z.mod_pos_bound (Qfloor seconds) 60). lia. }
  assert (P : 0 <= seconds) by lra.
  assert (M : Qfloor (rem seconds 3600 / 60)
              = (Qfloor seconds mod 3600 / 60)%Z).
  { rewrite floor_of_minutes. unfold rem, trunc.
    assert (P' : 0 <= seconds / 3600).
    { unfold Qdiv. change (/ 3600) with (1 # 3600). lra. }
    destruct (Qlt_le_dec (seconds / 3600) 0) as [N | _]; [lra |].
    now rewrite floor_of_hours, floor_minus_hours. }
  assert (E : formatTime formatOther seconds
              = (two_digits (Qfloor seconds / 3600) ++ ":"
                 ++ two_digits (Qfloor seconds mod 3600 / 60) ++ ":"
                 ++ two_digits (Qfloor seconds mod 60))%string).
  { unfold formatTime, Math_floor.
    rewrite floor_of_hours, M, (floor_of_remainder P).
    rewrite gtb_true_intro
      by (change 0 with (inject_Z 0); rewrite <- Zlt_Qlt; lia).
    rewrite !(toString_small_integer formatOther) by lia.
    now rewrite !padStart2_two_digits by lia. }
  split; [exact E | rewrite E; reflexivity].
Qed.

End FormatTime.

Section FormatTimeWitnesses.

Import Js JsMore Command FileUtils VideoUtils.
Local Open Scope Q_scope.

Lemma formatTime_agrees_below_an_hour_witness :
  formatTime (fun _ => "?"%string) (1259 # 10)
  = formatDuration (fun _ => "?"%string) (1259 # 10).
Proof.
  apply (@formatTime_agrees_below_an_hour (fun _ => "?"%string)
           (1259 # 10)).
  - discriminate.
  - reflexivity.
Defined.

Lemma formatTime_shows_hours_witness :
  formatTime (fun _ => "?"%string) (37259 # 10) = "01:02:05"%string.
Proof.
  assert (H0 : 3600 <= 37259 # 10) by discriminate.
  assert (H1 : 37259 # 10 < 360000) by reflexivity.
  destruct (@formatTime_shows_hours (fun _ => "?"%string)
              (37259 # 10) H0 H1) as [E _].
  rewrite E. reflexivity.
Defined.

End FormatTimeWitnesses.

(* ================================================================== *)
(** ** The slider: where a value is drawn                              *)
(* ================================================================== *)

Section SliderRoundTrip.

Import Js JsMore VideoEditor TimeRangeSlider.
Local Open Scope Q_scope.

Variable props : Props.


End SliderRoundTrip.

(* ================================================================== *)
(** ** Cropped thumbnails: the source rectangle                        *)
(* ================================================================== *)

Section ThumbnailSource.

Import Js VideoUtils.
Local Open Scope Q_scope.


End ThumbnailSource.

(* ================================================================== *)
(** ** The list of candidate clips                                     *)
(* ================================================================== *)

Section ClipList.

Import Js App.

(** X26: Deleting by id removes every clip that has the id and no other,
    keeping the order; so a clip added with an id that no listed clip
    has can be deleted again, which gives the list back. *)
Theorem added_clip_can_be_deleted (clip : ClipSegment.t)
    (clips : list ClipSegment.t) :
  (forall c, In c clips -> ClipSegment.id c <> ClipSegment.id clip) ->
  handleDeleteClip (ClipSegment.id clip) (handleAddClip clip clips)
  = clips
  /\ forall clipId,
       ~ In clipId
           (map ClipSegment.id
              (handleDeleteClip clipId (handleAddClip clip clips))).
Proof.
  intro Fresh. unfold handleDeleteClip, handleAddClip. split.
  - cbn [filter]. rewrite String.eqb_refl. cbn [negb].
    induction clips as [| c rest IH]; [reflexivity |].
    cbn [filter].
    assert (N : String.eqb (ClipSegment.id c) (ClipSegment.id clip)
                = false).
    { apply String.eqb_neq. apply Fresh. now left. }
    rewrite N. cbn [negb]. f_equal. apply IH.
    intros c' H. apply Fresh. now right.
  - intros clipId H. apply in_map_iff in H.
    destruct H as (c & E & H). apply filter_In in H.
    destruct H as [_ H]. apply negb_true_iff in H.
    apply String.eqb_neq in H. contradiction.
Qed.

End ClipList.

Section MoreWitnesses.

Import Js JsMore VideoEditor TimeRangeSlider VideoUtils App.
Import Samples MoreSamples.
Local Open Scope Q_scope.



Lemma added_clip_can_be_deleted_witness :
  handleDeleteClip "c3" (handleAddClip third_clip
                           [first_clip; second_clip])
  = [first_clip; second_clip].
Proof.
  apply (@added_clip_can_be_deleted third_clip
           [first_clip; second_clip]).
  intros c [<- | [<- | []]]; discriminate.
Defined.

End MoreWitnesses.
